(** * Drone tracker: the store, the classifier and the marker layer

    A shallow embedding of the drone store (the module [stores/droneStore],
    which follows the [App] component in [src/App.jsx]: the classification
    strategy, [updateDrones], the selection and connection setters, the
    queries and [getStatistics]), of the effects, the click listener and
    the connection badge of [src/components/MapboxMap.jsx], of the handlers
    and the mounting effect of [App], of the counter of
    [src/components/RedDroneCounter.jsx] and of the observers and the
    connection of [src/services/websocketService.js], with the properties
    of the specification stated over it. *)

From Stdlib Require Import List ZArith String Ascii Bool Lia Arith PeanoNat.
From Stdlib Require Import Floats.
From Stdlib Require DecimalString.
Import ListNotations.

Set Warnings "-register-all".
Local Open Scope Z_scope.
Local Open Scope list_scope.

(** ** JavaScript values *)

(** Numbers are IEEE 754 binary64 values, in the Standard Library's
    inductive presentation [spec_float]; [num] reads a literal.  Objects and
    arrays carry the address that identifies them: [Map] keys and [===]
    compare them by identity, not by content.  Reports are data (the
    simulator's records, parsed feature collections), so there is no function
    value. *)
Inductive value : Type :=
| VUndefined
| VNull
| VBool (b : bool)
| VNumber (n : spec_float)
| VString (s : string)
| VObject (ref : nat) (props : list (string * value))
| VArray (ref : nat) (items : list value).

Definition num (f : float) : value := VNumber (Prim2SF f).

(** Every exception the modelled code can raise is a [TypeError]: a property
    read on [undefined] or [null], a call of something that is not a
    function, or the conversion to a string or a number of an object that
    has no primitive value. *)
Inductive result (A : Type) : Type :=
| Ok (a : A)
| TypeError.
Arguments Ok {A} a.
Arguments TypeError {A}.

Definition bind {A B : Type} (r : result A) (k : A -> result B) : result B :=
  match r with
  | Ok a => k a
  | TypeError => TypeError
  end.

Notation "x <- e ;; k" := (bind e (fun x => k))
  (at level 61, e at next level, right associativity).

(** [ToBoolean]: [undefined], [null], [false], [+0], [-0], [NaN] and the
    empty string are falsy, everything else is truthy. *)
Definition truthy (v : value) : bool :=
  match v with
  | VUndefined | VNull => false
  | VBool b => b
  | VNumber (S754_zero _) | VNumber S754_nan => false
  | VNumber _ => true
  | VString EmptyString => false
  | VString _ => true
  | VObject _ _ | VArray _ _ => true
  end.

Definition nullish (v : value) : bool :=
  match v with
  | VUndefined | VNull => true
  | _ => false
  end.

(** [a || b]. *)
Definition js_or (a b : value) : value := if truthy a then a else b.

(** The own property [name] of an object, whose property names are
    distinct; [undefined] when there is none. *)
Fixpoint assoc (name : string) (props : list (string * value)) : value :=
  match props with
  | [] => VUndefined
  | (k, v) :: rest => if String.eqb k name then v else assoc name rest
  end.

(** [v.name] on a value that is neither [undefined] nor [null].  Only
    objects have own properties here; the names the program reads ([id],
    [position], [battery], ...) are on no prototype, so every other value
    answers [undefined]. *)
Definition prop (v : value) (name : string) : value :=
  match v with
  | VObject _ props => assoc name props
  | _ => VUndefined
  end.

Declare Scope js_scope.
Delimit Scope js_scope with js.
Notation "v .[ name ]" := (prop v name%string)
  (at level 1, format "v .[ name ]") : js_scope.
Local Open Scope js_scope.

(** [v.name], which throws on [undefined] and [null]. *)
Definition get_prop (v : value) (name : string) : result value :=
  if nullish v then TypeError else Ok (prop v name).

(** [v?.name]. *)
Definition opt_prop (v : value) (name : string) : value :=
  if nullish v then VUndefined else prop v name.

Definition index_name (i : nat) : string :=
  DecimalString.NilEmpty.string_of_uint (Nat.to_uint i).

(** [v[i]] on a value that is neither [undefined] nor [null]: an array
    element, a one-character string, or the property named by the index. *)
Definition element (v : value) (i : nat) : value :=
  match v with
  | VArray _ items => nth i items VUndefined
  | VString s =>
      match String.get i s with
      | Some c => VString (String c EmptyString)
      | None => VUndefined
      end
  | VObject _ props => assoc (index_name i) props
  | _ => VUndefined
  end.

(** [v[i]], which throws on [undefined] and [null]. *)
Definition get_index (v : value) (i : nat) : result value :=
  if nullish v then TypeError else Ok (element v i).

(** [SameValueZero] on numbers: [NaN] is the same as [NaN] and [+0] the
    same as [-0]. *)
Definition number_same (x y : spec_float) : bool :=
  match x, y with
  | S754_zero _, S754_zero _ => true
  | S754_infinity a, S754_infinity b => Bool.eqb a b
  | S754_nan, S754_nan => true
  | S754_finite a m e, S754_finite b m' e' =>
      Bool.eqb a b && Pos.eqb m m' && Z.eqb e e'
  | _, _ => false
  end.

(** [SameValueZero], the comparison of [Map] keys. *)
Definition same_value_zero (x y : value) : bool :=
  match x, y with
  | VUndefined, VUndefined => true
  | VNull, VNull => true
  | VBool a, VBool b => Bool.eqb a b
  | VNumber a, VNumber b => number_same a b
  | VString a, VString b => String.eqb a b
  | VObject r _, VObject r' _ => Nat.eqb r r'
  | VArray r _, VArray r' _ => Nat.eqb r r'
  | _, _ => false
  end.

(** The representative of a key's class under [SameValueZero]. *)
Definition canon (v : value) : value :=
  match v with
  | VNumber (S754_zero _) => VNumber (S754_zero false)
  | VObject r _ => VObject r []
  | VArray r _ => VArray r []
  | _ => v
  end.

(** [x === y]: as [SameValueZero], but [NaN] differs from itself. *)
Definition strict_equals (x y : value) : bool :=
  match x, y with
  | VNumber S754_nan, VNumber S754_nan => false
  | _, _ => same_value_zero x y
  end.

(** [Object.is(x, y)], the comparison of the dependencies of an effect:
    as [SameValueZero], but [+0] differs from [-0]. *)
Definition object_is (x y : value) : bool :=
  match x, y with
  | VNumber (S754_zero a), VNumber (S754_zero b) => Bool.eqb a b
  | _, _ => same_value_zero x y
  end.

(** ** Conversions *)

Definition has_own (name : string) (props : list (string * value)) : bool :=
  existsb (fun kv => String.eqb (fst kv) name) props.

(** Whether [ToPrimitive] finds a primitive value for [v].  It calls the
    [toString] and [valueOf] methods of an object, in the order of the hint.
    No value here can be called, so an own property [toString] hides
    [Object.prototype.toString] behind something that is no method, and
    [valueOf], own or inherited, never yields a primitive (the inherited
    one returns the object itself): the conversion of such an object ends
    in a [TypeError], under either hint.  Every other object is converted
    by [Object.prototype.toString].  An array is converted by [join], which
    converts every element that is not [undefined] or [null]. *)
Fixpoint convertible (v : value) : bool :=
  match v with
  | VObject _ props => negb (has_own "toString" props)
  | VArray _ items =>
      forallb (fun item => nullish item || convertible item) items
  | _ => true
  end.

(** [ToString(v)] and [ToNumber(v)], as the template literals, [+],
    [Math.max], [Math.min] and [Math.round] apply them: a [TypeError] when
    [v] has no primitive value.  The characters, or the number, that the
    conversion produces are not spelled out: the converted value stands for
    them. *)
Definition converted (v : value) : result value :=
  if convertible v then Ok v else TypeError.

(** ** [Map] *)

(** A [Map] keeps its entries in insertion order and finds keys by
    [SameValueZero]; [set] on a key already present replaces the value in
    place and keeps the key that was there; [set] on a new key keeps the key
    as given, except that it keeps [-0] as [+0]. *)
Definition jsmap (V : Type) : Type := list (value * V).

Definition map_key (k : value) : value :=
  match k with
  | VNumber (S754_zero _) => VNumber (S754_zero false)
  | _ => k
  end.

Fixpoint map_get {V : Type} (k : value) (m : jsmap V) : option V :=
  match m with
  | [] => None
  | (k', v) :: rest => if same_value_zero k' k then Some v else map_get k rest
  end.

Fixpoint map_set {V : Type} (k : value) (v : V) (m : jsmap V) : jsmap V :=
  match m with
  | [] => [(map_key k, v)]
  | (k', v') :: rest =>
      if same_value_zero k' k then (k', v) :: rest
      else (k', v') :: map_set k v rest
  end.

Definition map_values {V : Type} (m : jsmap V) : list V := List.map snd m.

Definition map_has {V : Type} (k : value) (m : jsmap V) : bool :=
  match map_get k m with
  | Some _ => true
  | None => false
  end.

(** ** The store's data *)

(** The position an entity holds: the report's own [position] value, or the
    object literal [{lat, lng, altitude}] that [updateDrones] builds from the
    feature's geometry.  The literal is never a [Map] key and is never
    compared, so it needs no address. *)
Inductive place : Type :=
| Given (v : value)
| Built (lat lng altitude : value).

(** [position.name], for the three names the program reads. *)
Definition place_prop (p : place) (name : string) : value :=
  match p with
  | Given v => prop v name
  | Built lat lng altitude =>
      if String.eqb name "lat" then lat
      else if String.eqb name "lng" then lng
      else if String.eqb name "altitude" then altitude
      else VUndefined
  end.

Definition place_truthy (p : place) : bool :=
  match p with
  | Given v => truthy v
  | Built _ _ _ => true
  end.

(** An entity's [name]: the report's name, whatever value that is, or the
    string that the template literal [`Drone ${droneId}`] evaluated to,
    given by the id it was built from. *)
Inductive label : Type :=
| Named (v : value)
| DroneLabel (droneId : value).

(** [lastUpdate] is the report's value or [new Date().toISOString()], kept
    unevaluated. *)
Inductive stamp : Type :=
| Stamped (v : value)
| IsoNow.

Module Drone.
(** The [droneData] object literal.  [Date.now()] is an integral number
    of milliseconds, so the three times are integers and their difference
    is exact. *)
Record t : Type := make {
  id : value;
  name : label;
  status : value;
  color : value;
  position : place;
  latitude : value;
  longitude : value;
  altitude : value;
  yaw : value;
  speed : value;
  battery : value;
  signal : value;
  lastSeen : Z;
  firstSeen : Z;
  flightTime : Z;
  lastUpdate : stamp
}.
End Drone.

Module Sample.
(** One point of a flight path: [{coordinates: [lng, lat, altitude],
    timestamp}]. *)
Record t : Type := make {
  coordinates : list value;
  timestamp : Z
}.
End Sample.

Record store : Type := {
  drones : jsmap Drone.t;
  dronePaths : jsmap (list Sample.t);
  selectedDroneId : value;
  isConnected : value;
  lastUpdate : option Z
}.

(** The state [create] starts from; [null] is [VNull] and, for the
    time of the last batch, [None]. *)
Definition initial : store := {|
  drones := [];
  dronePaths := [];
  selectedDroneId := VNull;
  isConnected := VBool false;
  lastUpdate := None
|}.

(** ** Classification strategy *)

Definition is_string (v : value) : bool :=
  match v with
  | VString _ => true
  | _ => false
  end.

Module DroneColorStrategy.
(** [getColor(registration)].  Past the guard [registration] is a
    string, the only kind of value [startsWith] is called on. *)
Definition getColor (registration : value) : string :=
  if negb (truthy registration) || negb (is_string registration) then "red"
  else
    match registration with
    | VString s => if String.prefix "B" s then "green" else "red"
    | _ => "red"
    end.
End DroneColorStrategy.

(** ** [updateDrones] *)

(** What a call leaves behind: the state after a normal return, or the state
    at the moment an exception left the call. *)
Inductive outcome (S : Type) : Type :=
| Returned (s : S)
| Threw (s : S).
Arguments Returned {S} s.
Arguments Threw {S} s.

Definition state_of {S : Type} (o : outcome S) : S :=
  match o with
  | Returned s => s
  | Threw s => s
  end.

Definition returned {S : Type} (o : outcome S) : bool :=
  match o with
  | Returned _ => true
  | Threw _ => false
  end.

(** The two copies the loop works on, and the store's own [dronePaths] as
    the loop leaves it.  [new Map(get().dronePaths)] copies the entries, not
    the arrays: the path that [newPaths] holds for an id the store already
    had is the store's array, and [push] and [shift] on it show through the
    store's map as well. *)
Record batch : Type := {
  newDrones : jsmap Drone.t;
  newPaths : jsmap (list Sample.t);
  storePaths : jsmap (list Sample.t)
}.

(** [drone.geometry?.coordinates[i]]: [undefined] when there is no geometry,
    a [TypeError] when the geometry has no coordinates. *)
Definition geometry_coordinate (drone : value) (i : nat) : result value :=
  if nullish drone.["geometry"] then Ok VUndefined
  else get_index drone.["geometry"].["coordinates"] i.

(** [drone.position || {lat: ..., lng: ..., altitude: ...}]. *)
Definition position_of (drone : value) : result place :=
  if truthy drone.["position"] then Ok (Given drone.["position"])
  else
    lat <- geometry_coordinate drone 1 ;;
    lng <- geometry_coordinate drone 0 ;;
    alt <- geometry_coordinate drone 2 ;;
    Ok (Built lat lng (js_or alt (opt_prop drone.["properties"] "altitude"))).

(** [drone.id || drone.properties?.serial], on a drone that is neither
    [undefined] nor [null]. *)
Definition droneId_of (drone : value) : value :=
  js_or drone.["id"] (opt_prop drone.["properties"] "serial").

(** [drone.registration || drone.properties?.registration]. *)
Definition registration_of (drone : value) : value :=
  js_or drone.["registration"] (opt_prop drone.["properties"] "registration").

(** [drone.color || DroneColorStrategy.getColor(...)]. *)
Definition color_of (drone : value) : value :=
  js_or drone.["color"]
        (VString (DroneColorStrategy.getColor (registration_of drone))).

(** [drone.f || drone.properties?.f || fallback]. *)
Definition telemetry (drone : value) (f : string) (fallback : value) : value :=
  js_or (js_or (prop drone f) (opt_prop drone.["properties"] f)) fallback.

(** [existingDrone?.firstSeen || currentTime]. *)
Definition firstSeen_of (existingDrone : option Drone.t) (currentTime : Z) : Z :=
  match existingDrone with
  | Some d => if Z.eqb (Drone.firstSeen d) 0 then currentTime
              else Drone.firstSeen d
  | None => currentTime
  end.

(** [existingDrone ? currentTime - existingDrone.firstSeen : 0]. *)
Definition flightTime_of (existingDrone : option Drone.t) (currentTime : Z) : Z :=
  match existingDrone with
  | Some d => currentTime - Drone.firstSeen d
  | None => 0
  end.

(** [drone.name || drone.properties?.name || `Drone ${droneId}`].  The
    template literal is reached when neither name is truthy; it converts
    [droneId] to a string, and throws when the id has no primitive value. *)
Definition name_of (drone droneId : value) : result label :=
  let name := js_or drone.["name"] (opt_prop drone.["properties"] "name") in
  if truthy name then Ok (Named name)
  else
    id <- converted droneId ;;
    Ok (DroneLabel id).

(** The [droneData] literal.  Its [name] is the one field whose evaluation
    can throw; no other field converts a value. *)
Definition droneData (currentTime : Z) (drone droneId : value)
    (position : place) (existingDrone : option Drone.t) : result Drone.t :=
  name <- name_of drone droneId ;;
  Ok
  {| Drone.id := droneId;
     Drone.name := name;
     Drone.status := telemetry drone "status" (VString "FLYING");
     Drone.color := color_of drone;
     Drone.position := position;
     Drone.latitude := place_prop position "lat";
     Drone.longitude := place_prop position "lng";
     Drone.altitude := js_or (place_prop position "altitude") (num 0);
     Drone.yaw := telemetry drone "yaw" (num 0);
     Drone.speed := telemetry drone "speed" (num 0);
     Drone.battery := telemetry drone "battery" (num 100);
     Drone.signal := telemetry drone "signal" (num 100);
     Drone.lastSeen := currentTime;
     Drone.firstSeen := firstSeen_of existingDrone currentTime;
     Drone.flightTime := flightTime_of existingDrone currentTime;
     Drone.lastUpdate :=
       if truthy drone.["lastUpdate"] then Stamped drone.["lastUpdate"]
       else IsoNow |}.

(** The sample pushed on the path. *)
Definition sample_of (currentTime : Z) (position : place) : Sample.t :=
  {| Sample.coordinates := [place_prop position "lng";
                            place_prop position "lat";
                            place_prop position "altitude"];
     Sample.timestamp := currentTime |}.

(** [existingPath.push(x)], then one [shift()] when the length passed 100. *)
Definition push_sample (existingPath : list Sample.t) (x : Sample.t)
    : list Sample.t :=
  let pushed := existingPath ++ [x] in
  if Nat.ltb 100 (List.length pushed) then tl pushed else pushed.

(** [newPaths.get(droneId) || []]. *)
Definition path_or_empty (droneId : value) (paths : jsmap (list Sample.t))
    : list Sample.t :=
  match map_get droneId paths with
  | Some p => p
  | None => []
  end.

(** The writes of the loop body, once [droneId] and [position] are read
    and [droneData] is built. *)
Definition write_report (currentTime : Z) (drone : value) (position : place)
    (data : Drone.t) (st : batch) : batch :=
  let droneId := droneId_of drone in
  let path := push_sample (path_or_empty droneId (newPaths st))
                          (sample_of currentTime position) in
  {| newDrones := map_set droneId data (newDrones st);
     newPaths := map_set droneId path (newPaths st);
     storePaths := if map_has droneId (storePaths st)
                   then map_set droneId path (storePaths st)
                   else storePaths st |}.

(** The body of [drones.forEach].  What can throw ([drone.id] on
    [undefined] or [null], the coordinates of a geometry that has none, the
    default name of an id that has no primitive value) comes before the
    first write. *)
Definition apply_report (currentTime : Z) (drone : value) (st : batch)
    : result batch :=
  _ <- get_prop drone "id" ;;
  position <- position_of drone ;;
  data <- droneData currentTime drone (droneId_of drone) position
            (map_get (droneId_of drone) (newDrones st)) ;;
  Ok (write_report currentTime drone position data st).

(** The reports the loop body goes through without an exception: not
    [undefined] or [null]; with a [position], no geometry, or a geometry
    that has coordinates; and with a truthy name, or an id that can be
    converted to a string for the default name. *)
Definition readable (drone : value) : bool :=
  negb (nullish drone)
  && (truthy drone.["position"]
      || nullish drone.["geometry"]
      || negb (nullish drone.["geometry"].["coordinates"]))
  && (truthy (js_or drone.["name"] (opt_prop drone.["properties"] "name"))
      || convertible (droneId_of drone)).

Fixpoint forEach (currentTime : Z) (reports : list value) (st : batch)
    : outcome batch :=
  match reports with
  | [] => Returned st
  | drone :: rest =>
      match apply_report currentTime drone st with
      | Ok st' => forEach currentTime rest st'
      | TypeError => Threw st
      end
  end.

(** [Array.isArray(data) ? data : data.features || []], as the list
    [forEach] walks.  A truthy [features] that is no array has no
    [forEach] to call. *)
Definition reports_of (data : value) : result (list value) :=
  match data with
  | VArray _ items => Ok items
  | _ =>
      features <- get_prop data "features" ;;
      if truthy features then
        match features with
        | VArray _ items => Ok items
        | _ => TypeError
        end
      else Ok []
  end.

(** The loop as [updateDrones] starts it on the store [s]. *)
Definition loop_start (s : store) : batch :=
  {| newDrones := drones s;
     newPaths := dronePaths s;
     storePaths := dronePaths s |}.

(** [updateDrones(data)] at clock reading [currentTime].  [set] runs only
    when the loop returns; an exception leaves the store's fields as they
    were, with the arrays of [dronePaths] as the loop changed them. *)
Definition updateDrones (currentTime : Z) (data : value) (s : store)
    : outcome store :=
  match reports_of data with
  | TypeError => Threw s
  | Ok reports =>
      match forEach currentTime reports (loop_start s) with
      | Returned st =>
          Returned {| drones := newDrones st;
                      dronePaths := newPaths st;
                      selectedDroneId := selectedDroneId s;
                      isConnected := isConnected s;
                      lastUpdate := Some currentTime |}
      | Threw st =>
          Threw {| drones := drones s;
                   dronePaths := storePaths st;
                   selectedDroneId := selectedDroneId s;
                   isConnected := isConnected s;
                   lastUpdate := lastUpdate s |}
      end
  end.

(** ** Selection, connection, queries *)

Definition selectDrone (droneId : value) (s : store) : store :=
  {| drones := drones s;
     dronePaths := dronePaths s;
     selectedDroneId := droneId;
     isConnected := isConnected s;
     lastUpdate := lastUpdate s |}.

Definition clearSelection (s : store) : store :=
  {| drones := drones s;
     dronePaths := dronePaths s;
     selectedDroneId := VNull;
     isConnected := isConnected s;
     lastUpdate := lastUpdate s |}.

Definition setConnectionStatus (status : value) (s : store) : store :=
  {| drones := drones s;
     dronePaths := dronePaths s;
     selectedDroneId := selectedDroneId s;
     isConnected := status;
     lastUpdate := lastUpdate s |}.

Definition getActiveDrones (s : store) : list Drone.t := map_values (drones s).

Definition getRedDronesCount (s : store) : nat :=
  List.length (filter (fun drone => strict_equals (Drone.color drone) (VString "red"))
                 (map_values (drones s))).

Definition getDroneById (id : value) (s : store) : option Drone.t :=
  map_get id (drones s).

Definition getDronePath (id : value) (s : store) : list Sample.t :=
  path_or_empty id (dronePaths s).

(** ** Statistics *)

Module Statistics.
Record t : Type := make {
  totalDrones : nat;
  redDrones : nat;
  greenDrones : nat;
  averageAltitude : value;
  maxAltitude : value;
  minAltitude : value
}.
End Statistics.

(** An array length as a number. *)
Definition number_of_length (n : nat) : value :=
  VNumber (binary_normalize 53 1024 (Z.of_nat n) 0 false).

(** The arguments of a call, converted in turn. *)
Fixpoint all_converted (items : list value) : result (list value) :=
  match items with
  | [] => Ok []
  | item :: rest =>
      first <- converted item ;;
      others <- all_converted rest ;;
      Ok (first :: others)
  end.

Section Arithmetic.
(** An altitude is whatever truthy value the report carried, so [+], [/],
    [Math.max] and [Math.min] meet arbitrary values.  Each of them first
    converts its operands to primitive values, which throws on an operand
    that has none; what it makes of primitive values (a sum or a
    concatenation, a quotient, a maximum, [NaN]) is the language's and stays
    abstract: [js_add] and [js_div] on two primitive values, [math_max] and
    [math_min] on a list of them, each yielding a primitive value. *)
Variable js_add : value -> value -> value.
Variable js_div : value -> value -> value.
Variable math_max : list value -> value.
Variable math_min : list value -> value.

(** [altitudes.reduce((a, b) => a + b, 0)].  The accumulator is [0] or an
    earlier sum, a primitive value; the element is converted. *)
Fixpoint reduce_add (altitudes : list value) (a : value) : result value :=
  match altitudes with
  | [] => Ok a
  | b :: rest =>
      b' <- converted b ;;
      reduce_add rest (js_add a b')
  end.

(** [getStatistics()]; [None] is the [null] of the empty store. *)
Definition getStatistics (s : store) : result (option Statistics.t) :=
  let all := map_values (drones s) in
  if Nat.eqb (List.length all) 0 then Ok None
  else
    let altitudes := List.map Drone.altitude all in
    sum <- reduce_add altitudes (num 0) ;;
    highest <- all_converted altitudes ;;
    lowest <- all_converted altitudes ;;
    Ok (Some {|
      Statistics.totalDrones := List.length all;
      Statistics.redDrones :=
        List.length
          (filter (fun d => strict_equals (Drone.color d) (VString "red")) all);
      Statistics.greenDrones :=
        List.length
          (filter (fun d => strict_equals (Drone.color d) (VString "green")) all);
      Statistics.averageAltitude :=
        js_div sum (number_of_length (List.length altitudes));
      Statistics.maxAltitude := math_max highest;
      Statistics.minAltitude := math_min lowest
    |}).
End Arithmetic.

(** ** The marker layer of [MapboxMap] *)

Module MapboxMap.
Definition lower (c : ascii) : ascii :=
  let n := nat_of_ascii c in
  if (Nat.leb 65 n && Nat.leb n 90)%bool then ascii_of_nat (n + 32) else c.

(** [toLowerCase] on the ASCII letters.  No character outside ASCII
    lower-cases into a letter of the [case] labels below, so the [switch]
    and the test for ['active'] decide the same way. *)
Fixpoint toLowerCase (s : string) : string :=
  match s with
  | EmptyString => EmptyString
  | String c rest => String (lower c) (toLowerCase rest)
  end.

(** [status?.toLowerCase()]: [undefined] on [undefined] and [null], a
    [TypeError] on any other value that is not a string. *)
Definition lowered (status : value) : result value :=
  match status with
  | VUndefined | VNull => Ok VUndefined
  | VString s => Ok (VString (toLowerCase s))
  | _ => TypeError
  end.

Definition one_of (s : string) (labels : list string) : bool :=
  existsb (String.eqb s) labels.

Definition getDroneColor (status : value) : result string :=
  l <- lowered status ;;
  Ok match l with
     | VString s =>
         if one_of s ["active"; "flying"]%string then "#00ff00"%string
         else if one_of s ["warning"; "low battery"]%string then "#ffff00"%string
         else if one_of s ["critical"; "emergency"; "unauthorized"]%string
              then "#ff0000"%string
         else if one_of s ["idle"; "landed"]%string then "#0080ff"%string
         else "#00ff00"%string
     | _ => "#00ff00"%string
     end.

(** What the popup of the selected drone shows; the altitude is the
    argument of [Math.round]. *)
Record popup : Type := {
  popupName : label;
  popupStatus : value;
  popupBattery : value;
  popupAltitude : value
}.

(** [`${drone.name}`]: a name that is a report's value is converted to a
    string, the default name is one. *)
Definition converted_name (name : label) : result label :=
  match name with
  | Named v => v' <- converted v ;; Ok (Named v')
  | DroneLabel droneId => Ok (DroneLabel droneId)
  end.

(** The template literal of the popup: [${drone.name}], [${drone.status}],
    [${drone.battery}] and [${Math.round(drone.position.altitude)}], in
    this order; each conversion can throw. *)
Definition popup_of (drone : Drone.t) : result popup :=
  name <- converted_name (Drone.name drone) ;;
  status <- converted (Drone.status drone) ;;
  battery <- converted (Drone.battery drone) ;;
  altitude <- converted (place_prop (Drone.position drone) "altitude") ;;
  Ok {| popupName := name;
        popupStatus := status;
        popupBattery := battery;
        popupAltitude := altitude |}.

(** A marker the effect constructed.  [handle] numbers the [Marker]
    objects in the order of their construction: two markers are the same
    object when their handles agree.  The map widget is outside the
    program: its calls are recorded as they are made, and what it makes of
    them is not modelled. *)
Record marker : Type := {
  handle : nat;
  lngLat : value * value;
  backgroundColor : string;
  isSelected : bool;
  pulse : bool;
  markerPopup : option popup
}.

(** What the map widget is told: [marker.remove()], [marker.addTo(map)]
    with the marker as it is at the call (it has no popup yet) and the id
    of the drone it was built for, and [popup.addTo(map)] for the popup of
    the marker with handle [h]. *)
Inductive directive : Type :=
| Remove (h : nat)
| AddTo (droneId : value) (m : marker)
| PopupAddTo (h : nat) (p : popup).

Record layer : Type := {
  hasMap : bool;
  mapLoaded : bool;
  markersRef : jsmap marker;
  constructed : nat;
  told : list directive
}.

(** [propSelectedDroneId || selectedDroneId]. *)
Definition currentSelectedDroneId (propSelectedDroneId selectedDroneId : value)
    : value :=
  js_or propSelectedDroneId selectedDroneId.

(** [markersRef.current.forEach(marker => marker.remove())] and
    [markersRef.current.clear()]. *)
Definition clearMarkers (l : layer) : layer :=
  {| hasMap := hasMap l;
     mapLoaded := mapLoaded l;
     markersRef := [];
     constructed := constructed l;
     told := told l ++ List.map (fun m => Remove (handle m))
                                (map_values (markersRef l)) |}.

(** [!drone.position || !drone.position.lat || !drone.position.lng]. *)
Definition unplaced (drone : Drone.t) : bool :=
  negb (place_truthy (Drone.position drone))
  || negb (truthy (place_prop (Drone.position drone) "lat"))
  || negb (truthy (place_prop (Drone.position drone) "lng")).

(** The marker element and the [Marker] built on it, before a popup is
    set: [getDroneColor(drone.status)] and the test for ['active'] can
    throw, and nothing is constructed then. *)
Definition markerFor (current : value) (drone : Drone.t) (h : nat)
    : result marker :=
  droneColor <- getDroneColor (Drone.status drone) ;;
  active <- lowered (Drone.status drone) ;;
  Ok {| handle := h;
        lngLat := (place_prop (Drone.position drone) "lng",
                   place_prop (Drone.position drone) "lat");
        backgroundColor := droneColor;
        isSelected := strict_equals current (Drone.id drone);
        pulse := strict_equals active (VString "active");
        markerPopup := None |}.

(** [marker.setPopup(popup)]. *)
Definition setPopup (p : popup) (m : marker) : marker :=
  {| handle := handle m;
     lngLat := lngLat m;
     backgroundColor := backgroundColor m;
     isSelected := isSelected m;
     pulse := pulse m;
     markerPopup := Some p |}.

(** [markersRef.current.set(drone.id, marker)]. *)
Definition track (droneId : value) (m : marker) (l : layer) : layer :=
  {| hasMap := hasMap l;
     mapLoaded := mapLoaded l;
     markersRef := map_set droneId m (markersRef l);
     constructed := constructed l;
     told := told l |}.

(** One more thing told to the widget. *)
Definition tell (d : directive) (l : layer) : layer :=
  {| hasMap := hasMap l;
     mapLoaded := mapLoaded l;
     markersRef := markersRef l;
     constructed := constructed l;
     told := told l ++ [d] |}.

(** [new mapboxgl.Marker(...)] took the next handle. *)
Definition construct (l : layer) : layer :=
  {| hasMap := hasMap l;
     mapLoaded := mapLoaded l;
     markersRef := markersRef l;
     constructed := S (constructed l);
     told := told l |}.

(** The body of the loop over [drones.values()].  The marker is put on the
    map first; for the selected drone the text of the popup is built next,
    which can throw; the marker is entered in [markersRef] last.  An
    exception in between leaves the marker on the map and out of
    [markersRef]. *)
Definition placeMarker (current : value) (drone : Drone.t) (l : layer)
    : outcome layer :=
  if unplaced drone then Returned l
  else
    match markerFor current drone (constructed l) with
    | TypeError => Threw l
    | Ok m =>
        let l1 := tell (AddTo (Drone.id drone) m) (construct l) in
        if strict_equals current (Drone.id drone) then
          match popup_of drone with
          | TypeError => Threw l1
          | Ok p =>
              Returned (track (Drone.id drone) (setPopup p m)
                          (tell (PopupAddTo (handle m) p) l1))
          end
        else Returned (track (Drone.id drone) m l1)
    end.

Fixpoint placeMarkers (current : value) (all : list Drone.t) (l : layer)
    : outcome layer :=
  match all with
  | [] => Returned l
  | drone :: rest =>
      match placeMarker current drone l with
      | Returned l' => placeMarkers current rest l'
      | Threw l' => Threw l'
      end
  end.

(** One run of the marker effect. *)
Definition updateMarkers (s : store) (current : value) (l : layer)
    : outcome layer :=
  if negb (hasMap l) || negb (mapLoaded l) then Returned l
  else placeMarkers current (map_values (drones s)) (clearMarkers l).

(** The layer of a loaded map before the first run of the effect. *)
Definition blank : layer :=
  {| hasMap := true;
     mapLoaded := true;
     markersRef := [];
     constructed := 0;
     told := [] |}.

(** The click listener of the marker of [droneId], built when the
    selection was [current]. *)
Definition click (onDroneSelect : option (value -> store -> store))
    (current droneId : value) (s : store) : store :=
  let s' := if strict_equals current droneId then clearSelection s
            else selectDrone droneId s in
  match onDroneSelect with
  | Some callback => callback droneId s'
  | None => s'
  end.
End MapboxMap.

(** ** [App] *)

Module App.
Definition handleMapDroneSelect (droneId : value) (s : store) : store :=
  selectDrone droneId s.

(** A click on the marker of [droneId] in the application: [App] hands
    [MapboxMap] its [handleMapDroneSelect] as [onDroneSelect] and the
    store's selection as the [selectedDroneId] property. *)
Definition clickMarker (droneId : value) (s : store) : store :=
  MapboxMap.click (Some handleMapDroneSelect)
    (MapboxMap.currentSelectedDroneId (selectedDroneId s) (selectedDroneId s))
    droneId s.
End App.

(** ** Histories *)

(** The store after a history of batches, each with the clock reading of
    its call; an exception ends the call, not the application. *)
Definition run (history : list (Z * value)) (s : store) : store :=
  fold_left (fun s call => state_of (updateDrones (fst call) (snd call) s))
            history s.

(** ** Reports of the examples *)

(** A report of the simulator's shape, [{id, position: {lat, lng,
    altitude}}]; its two objects take the addresses [ref] and [ref + 1]. *)
Definition report (ref : nat) (id : string) (lat lng altitude : float) : value :=
  VObject ref [("id"%string, VString id);
               ("position"%string,
                VObject (S ref) [("lat"%string, num lat);
                                 ("lng"%string, num lng);
                                 ("altitude"%string, num altitude)])].

(** A report with a position and no [id], no [properties]. *)
Definition anonymous : value :=
  VObject 9 [("position"%string,
              VObject 10 [("lat"%string, num 5); ("lng"%string, num 6);
                          ("altitude"%string, num 50)])].

(** Five reports, one of them without a resolvable id. *)
Definition five_reports : list value :=
  [report 1 "d1" 1 2 10; report 3 "d2" 1 3 20; anonymous;
   report 5 "d3" 1 4 30; report 7 "d4" 1 5 40].

(** The report of the failing input: a drone whose battery is empty. *)
Definition flat_battery : value :=
  VObject 1 [("id"%string, VString "d1");
             ("position"%string,
              VObject 2 [("lat"%string, num 1); ("lng"%string, num 2);
                         ("altitude"%string, num 10)]);
             ("battery"%string, num 0);
             ("signal"%string, num 0)].

(** A report that names its own colour. *)
Definition painted : value :=
  VObject 1 [("id"%string, VString "d1");
             ("position"%string,
              VObject 2 [("lat"%string, num 1); ("lng"%string, num 2);
                         ("altitude"%string, num 10)]);
             ("registration"%string, VString "B01");
             ("color"%string, VString "blue")].

(** The store with the one drone ["d1"]. *)
Definition one_drone : store :=
  state_of (updateDrones 1000 (VArray 0 [report 1 "d1" 1 2 10]) initial).

(** One hundred and fifty calls, each with one report of drone ["d1"], at
    the clock readings 1 to 150. *)
Definition hundred_fifty : list (Z * value) :=
  List.map (fun i => (Z.of_nat i, VArray 0 [report 1 "d1" 1 2 10]))
           (seq 1 150).

(** ** Statements *)

(** What the loop has done for key [k] once a report that resolves to [k]
    is applied at [currentTime]. *)
Definition applied (currentTime : Z) (k : value) (st : batch) : Prop :=
  (exists entity,
      map_get k (newDrones st) = Some entity
      /\ same_value_zero (Drone.id entity) k = true
      /\ Drone.lastSeen entity = currentTime)
  /\ (exists earlier x,
         path_or_empty k (newPaths st) = earlier ++ [x]
         /\ Sample.timestamp x = currentTime).

(** No two entries of a [Map] have the same key. *)
Fixpoint distinct_keys {V : Type} (m : jsmap V) : Prop :=
  match m with
  | [] => True
  | (k, _) :: rest => map_get k rest = None /\ distinct_keys rest
  end.

Definition keys {V : Type} (m : jsmap V) : list value := List.map fst m.

(** The reports of a batch, each beside the value of its id. *)
Definition by_report (reports : list value) : jsmap value :=
  List.map (fun drone => (droneId_of drone, drone)) reports.

(** No report of the batch resolves to key [k]. *)
Definition absent_from (k : value) (reports : list value) : Prop :=
  forall drone, In drone reports -> same_value_zero (droneId_of drone) k = false.


(** The colour the code computes for a report, spelled out. *)
Definition colour_of_report (drone : value) : value :=
  if truthy drone.["color"] then drone.["color"]
  else VString (DroneColorStrategy.getColor
                  (js_or drone.["registration"]
                         (opt_prop drone.["properties"] "registration"))).

(** What holds of the report [drone] of a batch, [before] being the
    reports ahead of it and [after] those behind it, when the call on [s]
    returned [s']: once the loop has applied the report, the entity under
    the report's id has the colour of the report; and that entity is the
    one the store holds after the call, unless a later report of the batch
    resolves to the same id. *)
Definition coloured_by (currentTime : Z) (s s' : store)
    (before : list value) (drone : value) (after : list value) : Prop :=
  exists st entity,
    forEach currentTime (before ++ [drone]) (loop_start s) = Returned st
    /\ map_get (droneId_of drone) (newDrones st) = Some entity
    /\ Drone.color entity = colour_of_report drone
    /\ (absent_from (droneId_of drone) after ->
        getDroneById (droneId_of drone) s' = Some entity).

(** The last [n] elements of a list, in their order. *)
Definition keep_last {A : Type} (n : nat) (l : list A) : list A :=
  skipn (List.length l - n) l.

(** The samples that the reports of one batch bring for key [k], in the
    order of the reports. *)
Definition samples_of_reports (currentTime : Z) (k : value)
    (reports : list value) : list Sample.t :=
  flat_map (fun drone =>
              if same_value_zero (droneId_of drone) k
              then match position_of drone with
                   | Ok position => [sample_of currentTime position]
                   | TypeError => []
                   end
              else [])
           reports.

Definition samples_of_call (k : value) (call : Z * value) : list Sample.t :=
  match reports_of (snd call) with
  | Ok reports => samples_of_reports (fst call) k reports
  | TypeError => []
  end.

(** The samples a history of calls brings for key [k], in arrival order. *)
Definition samples_of_history (k : value) (history : list (Z * value))
    : list Sample.t :=
  flat_map (samples_of_call k) history.

(** Every call of the history returns. *)
Fixpoint completes (history : list (Z * value)) (s : store) : bool :=
  match history with
  | [] => true
  | call :: rest =>
      match updateDrones (fst call) (snd call) s with
      | Returned s' => completes rest s'
      | Threw _ => false
      end
  end.

Definition bounded (paths : jsmap (list Sample.t)) : Prop :=
  Forall (fun kv => (List.length (snd kv) <= 100)%nat) paths.











(** Every marker the layer holds was constructed before. *)
Definition known_handles (l : MapboxMap.layer) : Prop :=
  Forall (fun kv => (MapboxMap.handle (snd kv) < MapboxMap.constructed l)%nat)
         (MapboxMap.markersRef l).

(** The loop invariant of a run over [all] that started when [base] markers
    had been constructed and [said] had been told: what was told stays
    told, and every marker the layer holds is new and stands for a drone of
    [all] that has a position to show. *)
Definition rebuilding (all : list Drone.t) (base : nat)
    (said : list MapboxMap.directive) (l : MapboxMap.layer) : Prop :=
  (base <= MapboxMap.constructed l)%nat
  /\ (forall d, In d said -> In d (MapboxMap.told l))
  /\ Forall (fun kv => (base <= MapboxMap.handle (snd kv)
                        < MapboxMap.constructed l)%nat)
            (MapboxMap.markersRef l)
  /\ forall k m,
       map_get k (MapboxMap.markersRef l) = Some m ->
       exists drone,
         In drone all
         /\ same_value_zero (Drone.id drone) k = true
         /\ MapboxMap.unplaced drone = false.

(** What a run of the effect on a loaded map, returned or thrown, makes
    of the layer [l]: every marker of [l] is removed; and every marker of
    the new layer was constructed by this run, is none of the markers of
    [l], and stands for a drone of the store that has a position to
    show. *)
Definition rebuilds (s : store) (l l' : MapboxMap.layer) : Prop :=
  known_handles l'
  /\ (forall k m,
         map_get k (MapboxMap.markersRef l) = Some m ->
         In (MapboxMap.Remove (MapboxMap.handle m)) (MapboxMap.told l'))
  /\ (forall k m',
         map_get k (MapboxMap.markersRef l') = Some m' ->
         (MapboxMap.constructed l <= MapboxMap.handle m')%nat
         /\ (forall k0 m,
                map_get k0 (MapboxMap.markersRef l) = Some m ->
                MapboxMap.handle m <> MapboxMap.handle m')
         /\ exists drone,
              In drone (getActiveDrones s)
              /\ same_value_zero (Drone.id drone) k = true
              /\ MapboxMap.unplaced drone = false).

(** Every drone of the store that has a position to show has a marker in
    the layer. *)
Definition covers (s : store) (l' : MapboxMap.layer) : Prop :=
  forall drone,
    In drone (getActiveDrones s) ->
    MapboxMap.unplaced drone = false ->
    exists m',
      map_get (Drone.id drone) (MapboxMap.markersRef l') = Some m'.

(** The layer after a run over the store of five drones, none selected. *)
Definition five_markers : MapboxMap.layer :=
  state_of (MapboxMap.updateMarkers
              (state_of (updateDrones 1000 (VArray 0 five_reports) initial))
              VNull MapboxMap.blank).

(** ** Statements about the store along a history *)

(** What every store reached from the initial one satisfies: the keys of
    each map are distinct, an entity's [id] is its key, the two maps have
    the same keys, and no path is empty. *)
Definition consistent (s : store) : Prop :=
  distinct_keys (drones s)
  /\ distinct_keys (dronePaths s)
  /\ Forall (fun kv => same_value_zero (fst kv) (Drone.id (snd kv)) = true)
            (drones s)
  /\ (forall k, map_has k (drones s) = map_has k (dronePaths s))
  /\ Forall (fun kv => snd kv <> []) (dronePaths s).

(** [Array.isArray(v)]. *)
Definition is_array (v : value) : bool :=
  match v with
  | VArray _ _ => true
  | _ => false
  end.

(** The key [k] is the id of a report of the batch [data], as a [Map]
    keeps it. *)
Definition reported (data : value) (k : value) : Prop :=
  exists reports drone,
    reports_of data = Ok reports /\ In drone reports
    /\ k = map_key (droneId_of drone).

(** What a call that threw leaves of the store [s]: the entities, the
    selection, the connection and the time of the last batch are as they
    were, and so are the keys of the paths.  When the batch had reports,
    the loop went through the reports [done] ahead of a report that it
    could not go through, and the paths the store had are as a call with
    the batch [done] leaves them: they have the samples of these reports,
    and have lost what these pushed out. *)
Definition thrown_from (currentTime : Z) (data : value) (s s' : store)
    : Prop :=
  drones s' = drones s
  /\ selectedDroneId s' = selectedDroneId s
  /\ isConnected s' = isConnected s
  /\ lastUpdate s' = lastUpdate s
  /\ keys (dronePaths s') = keys (dronePaths s)
  /\ (reports_of data = TypeError -> s' = s)
  /\ (forall reports,
         reports_of data = Ok reports ->
         exists done drone rest s1,
           reports = done ++ drone :: rest
           /\ forallb readable done = true
           /\ readable drone = false
           /\ updateDrones currentTime (VArray 0 done) s = Returned s1
           /\ forall k,
                getDronePath k s'
                = if map_has k (dronePaths s) then getDronePath k s1 else []).

(** The store after the batch of five. *)
Definition five_drones : store :=
  state_of (updateDrones 1000 (VArray 0 five_reports) initial).

(** Drone ["d1"] reporting a battery of 50. *)
Definition charged : value :=
  VObject 1 [("id"%string, VString "d1");
             ("position"%string,
              VObject 2 [("lat"%string, num 1); ("lng"%string, num 2);
                         ("altitude"%string, num 10)]);
             ("battery"%string, num 50)].

(** A feature of the shape the performance generator sends: the position
    in [geometry.coordinates] as [lng, lat], the altitude among the
    properties. *)
Definition feature : value :=
  VObject 1 [("type"%string, VString "Feature");
             ("geometry"%string,
              VObject 2 [("type"%string, VString "Point");
                         ("coordinates"%string, VArray 3 [num 36.5; num 31.5])]);
             ("properties"%string,
              VObject 4 [("serial"%string, VString "DRONE_1");
                         ("registration"%string, VString "B0001");
                         ("altitude"%string, num 120);
                         ("speed"%string, num 12);
                         ("yaw"%string, num 90)])].

(** A feature collection with the one feature. *)
Definition collection : value :=
  VObject 5 [("type"%string, VString "FeatureCollection");
             ("features"%string, VArray 6 [feature])].

(** Every report of every batch of the history satisfies [Q]. *)
Definition reports_all (Q : value -> Prop) (history : list (Z * value)) : Prop :=
  forall call reports drone,
    In call history -> reports_of (snd call) = Ok reports ->
    In drone reports -> Q drone.

(** A report that names no colour and whose registration is not
    authorized, as the simulator's reports, which carry neither field. *)
Definition unauthorized (drone : value) : Prop :=
  truthy drone.["color"] = false
  /\ DroneColorStrategy.getColor (registration_of drone) = "red"%string.

(** A report that names no colour. *)
Definition uncoloured (drone : value) : Prop :=
  truthy drone.["color"] = false.

Definition is_red (drone : Drone.t) : bool :=
  strict_equals (Drone.color drone) (VString "red").

Definition is_green (drone : Drone.t) : bool :=
  strict_equals (Drone.color drone) (VString "green").

(** ** [RedDroneCounter] *)

Module RedDroneCounter.
(** What the component renders: nothing ([null]) when no drone is red, and
    otherwise the count, under the label "Unauthorized". *)
Definition render (s : store) : option nat :=
  let redDroneCount := getRedDronesCount s in
  if Nat.eqb redDroneCount 0 then None else Some redDroneCount.
End RedDroneCounter.

(** The sample that shows where the entity was last seen. *)
Definition tip (entity : Drone.t) : Sample.t :=
  {| Sample.coordinates := [Drone.longitude entity;
                            Drone.latitude entity;
                            place_prop (Drone.position entity) "altitude"];
     Sample.timestamp := Drone.lastSeen entity |}.

(** Every entity's path ends with the entity's tip. *)
Definition paths_follow (s : store) : Prop :=
  forall k entity,
    getDroneById k s = Some entity ->
    exists earlier, getDronePath k s = earlier ++ [tip entity].



(** ** The other effect of [MapboxMap], and the click in the list *)

(** A [flyTo] request to the map. *)
Record flyTo : Type := {
  center : value * value;
  zoom : nat;
  duration : nat
}.

(** The effect "Center map on selected drone": what it asks of the map,
    if anything. *)
Definition centerOnSelectedDrone (hasMap : bool) (current : value) (s : store)
    : option flyTo :=
  if negb hasMap || negb (truthy current) then None
  else
    match map_get current (drones s) with
    | Some selectedDrone =>
        if place_truthy (Drone.position selectedDrone)
        then Some {| center := (place_prop (Drone.position selectedDrone) "lng",
                                place_prop (Drone.position selectedDrone) "lat");
                     zoom := 15;
                     duration := 1000 |}
        else None
    | None => None
    end.

(** The effect "Center map on selected drone" when the component renders
    again after a click: its dependencies are the selection and the [Map]
    of the drones, compared by [Object.is]; a click leaves the [Map] the
    object it was, so the effect runs when the selection [current'] is not
    the selection [current] of the earlier render. *)
Definition recenter (hasMap : bool) (current current' : value) (s : store)
    : option flyTo :=
  if object_is current current' then None
  else centerOnSelectedDrone hasMap current' s.

(** [handleDroneClick(droneId)] of [App], the click on an item of the
    list: the store it leaves and what it asks of the map.  [mapInstance]
    tells whether the map has loaded. *)
Definition handleDroneClick (mapInstance : bool) (droneId : value) (s : store)
    : store * option flyTo :=
  let s' := selectDrone droneId s in
  (s',
   if mapInstance then
     match getDroneById droneId s' with
     | Some drone =>
         if truthy (Drone.longitude drone) && truthy (Drone.latitude drone)
         then Some {| center := (Drone.longitude drone, Drone.latitude drone);
                      zoom := 15;
                      duration := 1000 |}
         else None
     | None => None
     end
   else None).

(** ** Statements about the marker layer *)

(** The statuses [toLowerCase] can be called on, or that [?.] stops at. *)
Definition showable (status : value) : bool :=
  match status with
  | VUndefined | VNull | VString _ => true
  | _ => false
  end.

(** The marker [m] shows [drone] when the selection is [current]. *)
Definition shows (current : value) (drone : Drone.t) (m : MapboxMap.marker)
    : Prop :=
  MapboxMap.lngLat m = (place_prop (Drone.position drone) "lng",
                        place_prop (Drone.position drone) "lat")
  /\ MapboxMap.getDroneColor (Drone.status drone)
     = Ok (MapboxMap.backgroundColor m)
  /\ MapboxMap.isSelected m = strict_equals current (Drone.id drone)
  /\ (exists active,
         MapboxMap.lowered (Drone.status drone) = Ok active
         /\ MapboxMap.pulse m = strict_equals active (VString "active"))
  /\ MapboxMap.markerPopup m
     = if strict_equals current (Drone.id drone)
       then Some {| MapboxMap.popupName := Drone.name drone;
                    MapboxMap.popupStatus := Drone.status drone;
                    MapboxMap.popupBattery := Drone.battery drone;
                    MapboxMap.popupAltitude :=
                      place_prop (Drone.position drone) "altitude" |}
       else None.

(** The handles of the markers on the map, [shown], after the widget is
    told [d]: [AddTo] puts a marker on the map, [Remove] takes every marker
    with that handle off it, a popup is no marker. *)
Definition after_directive (shown : list nat) (d : MapboxMap.directive)
    : list nat :=
  match d with
  | MapboxMap.Remove h => filter (fun h' => negb (Nat.eqb h' h)) shown
  | MapboxMap.AddTo _ m => shown ++ [MapboxMap.handle m]
  | MapboxMap.PopupAddTo _ _ => shown
  end.

(** The handles of the markers on the map after the widget was told
    [directives]. *)
Definition on_map (directives : list MapboxMap.directive) : list nat :=
  fold_left after_directive directives [].

(** The handles of the markers the layer keeps track of. *)
Definition tracked (l : MapboxMap.layer) : list nat :=
  List.map MapboxMap.handle (map_values (MapboxMap.markersRef l)).

(** The layer after the marker effect ran once for each pair of a store
    and a selection, in turn; an exception ends a run, not the
    application. *)
Definition effects (passes : list (store * value)) (l : MapboxMap.layer)
    : MapboxMap.layer :=
  fold_left (fun l pass =>
               state_of (MapboxMap.updateMarkers (fst pass) (snd pass) l))
            passes l.

(** A drone whose status is a number. *)
Definition numbered : value :=
  VObject 1 [("id"%string, VString "d1");
             ("position"%string,
              VObject 2 [("lat"%string, num 1); ("lng"%string, num 2);
                         ("altitude"%string, num 10)]);
             ("status"%string, num 5)].

(** The drones as a [Map] keyed by their own ids. *)
Definition by_id (all : list Drone.t) : jsmap Drone.t :=
  List.map (fun drone => (Drone.id drone, drone)) all.

(** Every run of the effect over [passes] returns. *)
Fixpoint effects_return (passes : list (store * value)) (l : MapboxMap.layer)
    : bool :=
  match passes with
  | [] => true
  | pass :: rest =>
      match MapboxMap.updateMarkers (fst pass) (snd pass) l with
      | Returned l' => effects_return rest l'
      | Threw _ => false
      end
  end.

(** The text of the popup of [drone] can be built. *)
Definition composable (drone : Drone.t) : bool :=
  match Drone.name drone with
  | Named v => convertible v
  | DroneLabel _ => true
  end
  && convertible (Drone.status drone)
  && convertible (Drone.battery drone)
  && convertible (place_prop (Drone.position drone) "altitude").

(** The loop body of the marker effect goes through [drone] without an
    exception: the drone has no position to show; or its status is one
    that [toLowerCase] can be called on and, when the drone is the
    selection, the text of its popup can be built. *)
Definition placeable (current : value) (drone : Drone.t) : bool :=
  MapboxMap.unplaced drone
  || (showable (Drone.status drone)
      && (negb (strict_equals current (Drone.id drone)) || composable drone)).

(** A drone whose battery is an object that has no primitive value. *)
Definition unprintable : value :=
  VObject 1 [("id"%string, VString "d1");
             ("position"%string,
              VObject 2 [("lat"%string, num 1); ("lng"%string, num 2);
                         ("altitude"%string, num 10)]);
             ("battery"%string, VObject 3 [("toString"%string, num 1)])].

(** An entity's [latitude] and [longitude] are the [lat] and [lng] of its
    position. *)
Definition located (drone : Drone.t) : Prop :=
  Drone.latitude drone = place_prop (Drone.position drone) "lat"
  /\ Drone.longitude drone = place_prop (Drone.position drone) "lng".

(** ** The update source: [WebSocketService] and its observers *)

(** What an observer acts on: the store, and the clock, as the sequence
    of the readings that [Date.now()] returns and the number of readings
    taken. *)
Record env : Type := {
  state : store;
  clock : nat -> Z;
  reads : nat
}.

Module WebSocketService.
(** An observer: an object, identified by its address, with an [update]
    method and, maybe, an [updateConnectionStatus] method. *)
Record observer : Type := {
  ref : nat;
  update : value -> env -> outcome env;
  updateConnectionStatus : option (bool -> env -> env)
}.

(** The fields of the service; [mockDrones] is what [generateMockDrones]
    drew. *)
Record t : Type := {
  observers : list observer;
  isConnected : bool;
  mockDataInterval : option nat;
  mockDrones : value
}.

(** The service in its surroundings: what its observers act on, the
    intervals that are running, and the number of timer ids issued.
    [setInterval] issues the ids 1, 2, ... *)
Record world : Type := {
  service : t;
  surroundings : env;
  intervals : list nat;
  issued : nat
}.

Definition addObserver (observer : observer) (w : world) : world :=
  {| service := {| observers := observers (service w) ++ [observer];
                   isConnected := isConnected (service w);
                   mockDataInterval := mockDataInterval (service w);
                   mockDrones := mockDrones (service w) |};
     surroundings := surroundings w;
     intervals := intervals w;
     issued := issued w |}.

(** [this.observers.filter(obs => obs !== observer)]. *)
Definition removeObserver (observer : observer) (w : world) : world :=
  {| service := {| observers :=
                     filter (fun obs => negb (Nat.eqb (ref obs) (ref observer)))
                            (observers (service w));
                   isConnected := isConnected (service w);
                   mockDataInterval := mockDataInterval (service w);
                   mockDrones := mockDrones (service w) |};
     surroundings := surroundings w;
     intervals := intervals w;
     issued := issued w |}.

(** [observers.forEach(observer => observer.update(data))] on what the
    observers act on. *)
Fixpoint updateAll (all : list observer) (data : value) (e : env)
    : outcome env :=
  match all with
  | [] => Returned e
  | observer :: rest =>
      match update observer data e with
      | Returned e' => updateAll rest data e'
      | Threw e' => Threw e'
      end
  end.

Definition with_surroundings (e : env) (w : world) : world :=
  {| service := service w;
     surroundings := e;
     intervals := intervals w;
     issued := issued w |}.

Definition notifyObservers (data : value) (w : world) : outcome world :=
  match updateAll (observers (service w)) data (surroundings w) with
  | Returned e => Returned (with_surroundings e w)
  | Threw e => Threw (with_surroundings e w)
  end.

(** [observers.forEach(observer => { if (observer.updateConnectionStatus)
    observer.updateConnectionStatus(isConnected) })]. *)
Definition notifyConnectionStatus (connected : bool) (w : world) : world :=
  with_surroundings
    (fold_left (fun e observer =>
                  match updateConnectionStatus observer with
                  | Some hook => hook connected e
                  | None => e
                  end)
               (observers (service w)) (surroundings w))
    w.

Definition set_connected (connected : bool) (w : world) : world :=
  {| service := {| observers := observers (service w);
                   isConnected := connected;
                   mockDataInterval := mockDataInterval (service w);
                   mockDrones := mockDrones (service w) |};
     surroundings := surroundings w;
     intervals := intervals w;
     issued := issued w |}.

(** [this.mockDataInterval = setInterval(..., 2000)].  What runs when
    the interval fires, [updateMockDronePositions], draws random numbers
    and is not modelled. *)
Definition start_interval (w : world) : world :=
  {| service := {| observers := observers (service w);
                   isConnected := isConnected (service w);
                   mockDataInterval := Some (S (issued w));
                   mockDrones := mockDrones (service w) |};
     surroundings := surroundings w;
     intervals := intervals w ++ [S (issued w)];
     issued := S (issued w) |}.

(** [connect()]: an exception of an observer leaves the call before the
    interval is set. *)
Definition connect (w : world) : outcome world :=
  let w1 := set_connected true w in
  match notifyObservers (mockDrones (service w1)) w1 with
  | Threw w2 => Threw w2
  | Returned w2 => Returned (notifyConnectionStatus true (start_interval w2))
  end.

(** [if (this.mockDataInterval) { clearInterval(this.mockDataInterval);
    this.mockDataInterval = null; }]. *)
Definition stop_interval (w : world) : world :=
  match mockDataInterval (service w) with
  | Some id =>
      {| service := {| observers := observers (service w);
                       isConnected := isConnected (service w);
                       mockDataInterval := None;
                       mockDrones := mockDrones (service w) |};
         surroundings := surroundings w;
         intervals := filter (fun id' => negb (Nat.eqb id' id)) (intervals w);
         issued := issued w |}
  | None => w
  end.

Definition disconnect (w : world) : world :=
  notifyConnectionStatus false (set_connected false (stop_interval w)).

Definition getConnectionStatus (w : world) : bool := isConnected (service w).
End WebSocketService.

(** [new DroneDataObserver(store)] at address [ref]: its [update] calls
    [updateDrones], which reads the clock once; it has no
    [updateConnectionStatus]. *)
Definition DroneDataObserver (ref : nat) : WebSocketService.observer :=
  {| WebSocketService.ref := ref;
     WebSocketService.update :=
       fun data e =>
         let after s := {| state := s; clock := clock e; reads := S (reads e) |} in
         match updateDrones (clock e (reads e)) data (state e) with
         | Returned s => Returned (after s)
         | Threw s => Threw (after s)
         end;
     WebSocketService.updateConnectionStatus := None |}.

(** The effect of [App] that starts the service, and its cleanup. *)
Definition mount (observer : WebSocketService.observer)
    (w : WebSocketService.world) : outcome WebSocketService.world :=
  WebSocketService.connect (WebSocketService.addObserver observer w).

Definition unmount (observer : WebSocketService.observer)
    (w : WebSocketService.world) : WebSocketService.world :=
  WebSocketService.disconnect (WebSocketService.removeObserver observer w).

(** The service as its constructor leaves it, with the mock drones
    [drawn], beside the initial store and a clock. *)
Definition fresh (drawn : value) (clock : nat -> Z) : WebSocketService.world :=
  {| WebSocketService.service :=
       {| WebSocketService.observers := [];
          WebSocketService.isConnected := false;
          WebSocketService.mockDataInterval := None;
          WebSocketService.mockDrones := drawn |};
     WebSocketService.surroundings :=
       {| state := initial; clock := clock; reads := 0 |};
     WebSocketService.intervals := [];
     WebSocketService.issued := 0 |}.

(** ** [ConnectionStatus] *)

(** The texts of the badge, by what they say. *)
Inductive badge_text : Type :=
| SaysConnected
| SaysConnecting
| SaysDisconnected
| SaysConnectionError
| SaysUnknown.

Record badge : Type := {
  badgeColor : string;
  badgeText : badge_text;
  badgeIcon : string
}.

(** [getStatusConfig()] for [connectionStatus]; the icons are named by
    their colours. *)
Definition getStatusConfig (connectionStatus : value) : badge :=
  if strict_equals connectionStatus (VString "connected")
  then {| badgeColor := "#10B981"; badgeText := SaysConnected;
          badgeIcon := "green" |}
  else if strict_equals connectionStatus (VString "connecting")
  then {| badgeColor := "#F59E0B"; badgeText := SaysConnecting;
          badgeIcon := "yellow" |}
  else if strict_equals connectionStatus (VString "disconnected")
  then {| badgeColor := "#6B7280"; badgeText := SaysDisconnected;
          badgeIcon := "white" |}
  else if strict_equals connectionStatus (VString "error")
  then {| badgeColor := "#EF4444"; badgeText := SaysConnectionError;
          badgeIcon := "red" |}
  else {| badgeColor := "#6B7280"; badgeText := SaysUnknown;
          badgeIcon := "white" |}.

(** [connectionStatus] as [MapboxMap] takes it from the store's state.
    The state has the properties [drones], [dronePaths], [selectedDroneId],
    [isConnected], [lastUpdate] and the actions; no action sets another
    one, so this one is [undefined]. *)
Definition connectionStatus (s : store) : value := VUndefined.

(** ** Statements about the service *)

(** Every observer of the service is a [DroneDataObserver]. *)
Definition only_drone_observers (w : WebSocketService.world) : Prop :=
  Forall (fun o => exists ref, o = DroneDataObserver ref)
         (WebSocketService.observers (WebSocketService.service w)).

(** The service is at rest: no observer, not connected, no interval held
    and none running. *)
Definition at_rest (w : WebSocketService.world) : Prop :=
  WebSocketService.observers (WebSocketService.service w) = []
  /\ WebSocketService.isConnected (WebSocketService.service w) = false
  /\ WebSocketService.mockDataInterval (WebSocketService.service w) = None
  /\ WebSocketService.intervals w = [].

(** The mock drones of the service are a batch the store reads without an
    exception. *)
Definition readable_mock (w : WebSocketService.world) : Prop :=
  exists reports,
    reports_of (WebSocketService.mockDrones (WebSocketService.service w))
    = Ok reports
    /\ forallb readable reports = true.

(** What [mount] and then [unmount] make of a service at rest. *)
Definition mounted_and_unmounted (observer : WebSocketService.observer)
    (w : WebSocketService.world) : Prop :=
  exists w1,
    mount observer w = Returned w1
    /\ WebSocketService.getConnectionStatus w1 = true
    /\ WebSocketService.intervals w1 = [S (WebSocketService.issued w)]
    /\ WebSocketService.mockDataInterval (WebSocketService.service w1)
       = Some (S (WebSocketService.issued w))
    /\ reads (WebSocketService.surroundings w1)
       = S (reads (WebSocketService.surroundings w))
    /\ (forall reports drone,
           reports_of (WebSocketService.mockDrones (WebSocketService.service w))
           = Ok reports ->
           In drone reports ->
           getDroneById (droneId_of drone)
             (state (WebSocketService.surroundings w1)) <> None)
    /\ at_rest (unmount observer w1)
    /\ WebSocketService.surroundings (unmount observer w1)
       = WebSocketService.surroundings w1
    /\ WebSocketService.mockDrones
         (WebSocketService.service (unmount observer w1))
       = WebSocketService.mockDrones (WebSocketService.service w).

(** The five ways through the body of the loop: no position to show; the
    drone is the selection and its popup is built; it is the selection and
    the text of its popup cannot be built; it is not the selection; its
    status cannot be lower-cased. *)
Ltac placeMarker_cases current drone l :=
  unfold MapboxMap.placeMarker;
  destruct (MapboxMap.unplaced drone) eqn:?Hun;
  [|destruct (MapboxMap.markerFor current drone (MapboxMap.constructed l))
      as [?m|] eqn:?Hm;
    [destruct (strict_equals current (Drone.id drone)) eqn:?Hsel;
     [destruct (MapboxMap.popup_of drone) as [?p|] eqn:?Hp|]|]].

(** * Properties *)

(** ** Keys *)

Lemma number_same_spec (x y : spec_float) :
  number_same x y = true <-> canon (VNumber x) = canon (VNumber y).
Proof.
  destruct x as [a| a | |a m e], y as [b|b| |b m' e']; simpl;
    split; intros H; try discriminate; try reflexivity;
    try (apply Bool.eqb_prop in H; subst; reflexivity);
    try (injection H as ->; apply Bool.eqb_reflx).
  - apply andb_prop in H as [H He]. apply andb_prop in H as [Hs Hm].
    apply Bool.eqb_prop in Hs. apply Pos.eqb_eq in Hm. apply Z.eqb_eq in He.
    now subst.
  - injection H as -> -> ->.
    now rewrite Bool.eqb_reflx, Pos.eqb_refl, Z.eqb_refl.
Qed.

Lemma same_value_zero_spec (x y : value) :
  same_value_zero x y = true <-> canon x = canon y.
Proof.
  destruct x, y; try apply number_same_spec; simpl;
    split; intros H; try discriminate; try reflexivity;
    try (destruct n; discriminate).
  - apply Bool.eqb_prop in H. now subst.
  - injection H as ->. apply Bool.eqb_reflx.
  - apply String.eqb_eq in H. now subst.
  - injection H as ->. apply String.eqb_refl.
  - apply Nat.eqb_eq in H. now subst.
  - injection H as ->. apply Nat.eqb_refl.
  - apply Nat.eqb_eq in H. now subst.
  - injection H as ->. apply Nat.eqb_refl.
Qed.

Lemma same_value_zero_refl (x : value) : same_value_zero x x = true.
Proof. now apply same_value_zero_spec. Qed.

Lemma same_value_zero_sym (x y : value) :
  same_value_zero x y = same_value_zero y x.
Proof.
  destruct (same_value_zero x y) eqn:H, (same_value_zero y x) eqn:H';
    try reflexivity.
  - apply same_value_zero_spec in H. symmetry in H.
    apply same_value_zero_spec in H. congruence.
  - apply same_value_zero_spec in H'. symmetry in H'.
    apply same_value_zero_spec in H'. congruence.
Qed.

Lemma same_value_zero_congr (x y z : value) :
  same_value_zero x y = true -> same_value_zero x z = same_value_zero y z.
Proof.
  intros H. apply same_value_zero_spec in H.
  destruct (same_value_zero x z) eqn:Hx, (same_value_zero y z) eqn:Hy;
    try reflexivity.
  - apply same_value_zero_spec in Hx.
    rewrite H in Hx. apply same_value_zero_spec in Hx. congruence.
  - apply same_value_zero_spec in Hy.
    rewrite <- H in Hy. apply same_value_zero_spec in Hy. congruence.
Qed.

Lemma map_key_same (k : value) : same_value_zero (map_key k) k = true.
Proof.
  destruct k as [| | |n| | |]; try apply same_value_zero_refl.
  destruct n; try apply same_value_zero_refl. reflexivity.
Qed.

Lemma map_key_truthy (k : value) : truthy (map_key k) = truthy k.
Proof. destruct k as [| | |n| | |]; try reflexivity. now destruct n. Qed.

(** ** [Map] facts *)

Section MapFacts.
Context {V : Type}.
Implicit Types (m : jsmap V) (k : value) (v : V).

Lemma map_get_set k k' v m :
  map_get k' (map_set k v m)
  = if same_value_zero k k' then Some v else map_get k' m.
Proof.
  induction m as [|[k0 v0] rest IH]; simpl.
  - now rewrite (same_value_zero_congr _ _ k' (map_key_same k)).
  - destruct (same_value_zero k0 k) eqn:H0; simpl.
    + rewrite (same_value_zero_congr _ _ k' H0).
      now destruct (same_value_zero k k').
    + destruct (same_value_zero k0 k') eqn:H1.
      * now rewrite (same_value_zero_sym k k'),
          <- (same_value_zero_congr _ _ k H1), H0.
      * exact IH.
Qed.

Lemma map_get_set_same k v m : map_get k (map_set k v m) = Some v.
Proof. now rewrite map_get_set, same_value_zero_refl. Qed.

Lemma map_get_In k v m : map_get k m = Some v -> exists k', In (k', v) m.
Proof.
  induction m as [|[k0 v0] rest IH]; simpl; [discriminate|].
  destruct (same_value_zero k0 k).
  - intros [= ->]. eauto.
  - intros H. destruct (IH H) as [k' Hin]. eauto.
Qed.

Lemma map_set_Forall (P : V -> Prop) k v m :
  Forall (fun kv => P (snd kv)) m -> P v ->
  Forall (fun kv => P (snd kv)) (map_set k v m).
Proof.
  intros Hm Hv. induction Hm as [|[k0 v0] rest H0 Hrest IH]; simpl.
  - now repeat constructor.
  - destruct (same_value_zero k0 k); constructor; auto.
Qed.

Lemma map_get_Forall (P : V -> Prop) k v m :
  Forall (fun kv => P (snd kv)) m -> map_get k m = Some v -> P v.
Proof.
  intros Hm Hget. apply map_get_In in Hget as [k' Hin].
  rewrite Forall_forall in Hm. exact (Hm _ Hin).
Qed.

Lemma map_has_set k k' v m :
  map_has k' (map_set k v m) = same_value_zero k k' || map_has k' m.
Proof.
  unfold map_has. rewrite map_get_set.
  now destruct (same_value_zero k k').
Qed.

Lemma map_get_none k m :
  map_get k m = None <->
  forall k' v, In (k', v) m -> same_value_zero k' k = false.
Proof.
  induction m as [|[k0 v0] rest IH]; simpl.
  - split; [intros _ k' v []|reflexivity].
  - destruct (same_value_zero k0 k) eqn:Hk; split.
    + discriminate.
    + intros H. specialize (H k0 v0 (or_introl eq_refl)). congruence.
    + intros Hn k' v [[= <- <-]|Hin]; [exact Hk|].
      exact (proj1 IH Hn k' v Hin).
    + intros H. apply IH. intros k' v Hin. apply (H k' v). now right.
Qed.

Lemma map_set_fresh k v m :
  map_get k m = None -> map_set k v m = m ++ [(map_key k, v)].
Proof.
  induction m as [|[k0 v0] rest IH]; simpl; [reflexivity|].
  destruct (same_value_zero k0 k); [discriminate|].
  intros H. now rewrite IH.
Qed.

Lemma map_set_length k v m :
  List.length (map_set k v m)
  = (List.length m + if map_has k m then 0 else 1)%nat.
Proof.
  unfold map_has. induction m as [|[k0 v0] rest IH]; simpl; [reflexivity|].
  destruct (same_value_zero k0 k); simpl; [lia|].
  rewrite IH. destruct (map_get k rest); lia.
Qed.
End MapFacts.

(** ** Classification *)

Lemma prefix_B (s : string) :
  String.prefix "B" s = true <-> exists rest, s = String "B" rest.
Proof.
  destruct s as [|c rest]; cbn [String.prefix].
  - split; [discriminate|]. intros [rest H]. discriminate H.
  - destruct (ascii_dec "B" c) as [<-|Hc].
    + split; [now exists rest|]. intros _. now destruct rest.
    + split; [discriminate|]. intros [rest' [= -> _]]. now elim Hc.
Qed.

Lemma getColor_not_string (v : value) :
  is_string v = false -> DroneColorStrategy.getColor v = "red"%string.
Proof.
  intros Hv. unfold DroneColorStrategy.getColor.
  now rewrite Hv, Bool.orb_true_r.
Qed.

Lemma getColor_string (s : string) :
  DroneColorStrategy.getColor (VString s)
  = if String.prefix "B" s then "green"%string else "red"%string.
Proof.
  unfold DroneColorStrategy.getColor.
  destruct s as [|c rest]; [reflexivity|].
  cbn [truthy is_string negb orb]. reflexivity.
Qed.

Lemma getColor_green_iff (registration : value) :
  DroneColorStrategy.getColor registration = "green"%string
  <-> exists rest, registration = VString (String "B" rest).
Proof.
  destruct (is_string registration) eqn:Hs.
  - destruct registration as [| |b|n|s|r p|r i]; try discriminate Hs.
    rewrite getColor_string. split.
    + destruct (String.prefix "B" s) eqn:Hp; [intros _|discriminate].
      apply prefix_B in Hp as [rest ->]. now exists rest.
    + intros [rest [= ->]].
      assert (Hp : String.prefix "B" (String "B" rest) = true)
        by (apply prefix_B; now exists rest).
      now rewrite Hp.
  - rewrite (getColor_not_string _ Hs).
    split; [discriminate|]. intros [rest ->]. discriminate Hs.
Qed.

Lemma getColor_red_or_green (registration : value) :
  DroneColorStrategy.getColor registration = "red"%string
  \/ DroneColorStrategy.getColor registration = "green"%string.
Proof.
  destruct (is_string registration) eqn:Hs.
  - destruct registration; try discriminate Hs.
    rewrite getColor_string. destruct (String.prefix "B" s); auto.
  - left. now apply getColor_not_string.
Qed.

(** C3.  [getColor] is a function on every value, so it returns and never
    throws, and what it returns is ["red"] or ["green"].  It is ["red"] on
    [undefined], on the empty string and on every value that is not a
    string, and it is ["green"] exactly on the strings that start with
    ["B"]. *)
Theorem C3_getColor_total_fail_closed :
  DroneColorStrategy.getColor VUndefined = "red"%string
  /\ DroneColorStrategy.getColor (VString "") = "red"%string
  /\ (forall v, is_string v = false ->
                DroneColorStrategy.getColor v = "red"%string)
  /\ (forall v, DroneColorStrategy.getColor v = "green"%string
                <-> exists rest, v = VString (String "B" rest))
  /\ (forall v, DroneColorStrategy.getColor v = "red"%string
                \/ DroneColorStrategy.getColor v = "green"%string).
Proof.
  repeat split; try reflexivity.
  - apply getColor_not_string.
  - now apply getColor_green_iff.
  - now apply getColor_green_iff.
  - apply getColor_red_or_green.
Qed.

Example classify_B0042 :
  DroneColorStrategy.getColor (VString "B0042") = "green"%string.
Proof. reflexivity. Qed.

Example classify_G0042 :
  DroneColorStrategy.getColor (VString "G0042") = "red"%string.
Proof. reflexivity. Qed.

Example classify_lower_case_b :
  DroneColorStrategy.getColor (VString "b0042") = "red"%string.
Proof. reflexivity. Qed.

(** ** Selection and connection *)

(** C10.  [selectDrone], [clearSelection] and [setConnectionStatus] each
    write the one field they own and leave every other field of the store
    as it was; [selectDrone] takes any value as the id, whether or not the
    store holds a drone under it. *)
Theorem C10_setters_change_one_field (s : store) (droneId status : value) :
  (selectedDroneId (selectDrone droneId s) = droneId
   /\ drones (selectDrone droneId s) = drones s
   /\ dronePaths (selectDrone droneId s) = dronePaths s
   /\ isConnected (selectDrone droneId s) = isConnected s
   /\ lastUpdate (selectDrone droneId s) = lastUpdate s)
  /\ (selectedDroneId (clearSelection s) = VNull
      /\ drones (clearSelection s) = drones s
      /\ dronePaths (clearSelection s) = dronePaths s
      /\ isConnected (clearSelection s) = isConnected s
      /\ lastUpdate (clearSelection s) = lastUpdate s)
  /\ (isConnected (setConnectionStatus status s) = status
      /\ drones (setConnectionStatus status s) = drones s
      /\ dronePaths (setConnectionStatus status s) = dronePaths s
      /\ selectedDroneId (setConnectionStatus status s) = selectedDroneId s
      /\ lastUpdate (setConnectionStatus status s) = lastUpdate s).
Proof. repeat split. Qed.

Example select_absent_drone :
  getDroneById (VString "ghost") (selectDrone (VString "ghost") initial) = None
  /\ selectedDroneId (selectDrone (VString "ghost") initial) = VString "ghost".
Proof. split; reflexivity. Qed.

(** ** Statistics of the empty store *)

Section EmptyStatistics.
Variables (js_add js_div : value -> value -> value).
Variables (math_max math_min : list value -> value).

Lemma getStatistics_null_iff (s : store) :
  getStatistics js_add js_div math_max math_min s = Ok None <-> drones s = [].
Proof.
  unfold getStatistics, map_values.
  destruct (drones s) as [|d rest]; cbn [List.map List.length Nat.eqb].
  - split; reflexivity.
  - split; [|discriminate].
    destruct (reduce_add _ _ _) as [sum|]; [|discriminate].
    destruct (all_converted _) as [numbers|]; discriminate.
Qed.
End EmptyStatistics.

(** C4, as the specification states it, fails on the store without drones:
    [getStatistics] answers [null] there, not an object with fields. *)
Lemma C4_empty_store_answers_null :
  ~ exists js_add js_div math_max math_min stats,
      getStatistics js_add js_div math_max math_min initial = Ok (Some stats).
Proof. intros (a & d & mx & mn & stats & H). discriminate H. Qed.

(** C4, amended.  On a store without drones [getStatistics] returns
    [null]: it does not throw, and it returns before any sum, quotient,
    maximum or minimum is taken, whatever these operations would make of
    an empty list.  It returns [null] on no other store. *)
Theorem C4_statistics_null_on_empty_store
    (js_add js_div : value -> value -> value)
    (math_max math_min : list value -> value) (s : store) :
  getStatistics js_add js_div math_max math_min s = Ok None
  <-> getActiveDrones s = [].
Proof.
  rewrite getStatistics_null_iff. unfold getActiveDrones, map_values.
  destruct (drones s); split; try reflexivity; discriminate.
Qed.

(** ** Clicking a marker *)

Lemma click_without_callback_toggles (current droneId : value) (s : store) :
  selectedDroneId (MapboxMap.click None current droneId s)
  = if strict_equals current droneId then VNull else droneId.
Proof.
  unfold MapboxMap.click. now destruct (strict_equals current droneId).
Qed.

Lemma clickMarker_selects (droneId : value) (s : store) :
  selectedDroneId (App.clickMarker droneId s) = droneId.
Proof. reflexivity. Qed.

(** C9, at the failing input.  With drone ["d1"] selected, the listener
    alone clears the selection, but the click as [App] wires it, where
    [onDroneSelect] is [handleMapDroneSelect], selects ["d1"] again: the
    selection is ["d1"] after the click, not [null]. *)
Theorem C9_click_on_selected_marker_reselects :
  selectedDroneId (selectDrone (VString "d1") initial) = VString "d1"
  /\ selectedDroneId
       (MapboxMap.click None (VString "d1") (VString "d1")
          (selectDrone (VString "d1") initial)) = VNull
  /\ selectedDroneId
       (App.clickMarker (VString "d1") (selectDrone (VString "d1") initial))
     = VString "d1"
  /\ selectedDroneId
       (App.clickMarker (VString "d1") (selectDrone (VString "d1") initial))
     <> VNull.
Proof. repeat split. discriminate. Qed.

(** ** Defaults of the telemetry fields *)


Lemma telemetry_truthy (drone : value) (f : string) (fallback : value) :
  truthy (prop drone f) = true ->
  telemetry drone f fallback = prop drone f.
Proof.
  intros H. unfold telemetry, js_or. now rewrite H, H.
Qed.

(** The fields of the [droneData] literal, when its evaluation returns. *)
Lemma droneData_fields (currentTime : Z) (drone droneId : value)
    (position : place) (existingDrone : option Drone.t) (data : Drone.t) :
  droneData currentTime drone droneId position existingDrone = Ok data ->
  name_of drone droneId = Ok (Drone.name data)
  /\ Drone.id data = droneId
  /\ Drone.status data = telemetry drone "status" (VString "FLYING")
  /\ Drone.color data = color_of drone
  /\ Drone.position data = position
  /\ Drone.latitude data = place_prop position "lat"
  /\ Drone.longitude data = place_prop position "lng"
  /\ Drone.altitude data = js_or (place_prop position "altitude") (num 0)
  /\ Drone.yaw data = telemetry drone "yaw" (num 0)
  /\ Drone.speed data = telemetry drone "speed" (num 0)
  /\ Drone.battery data = telemetry drone "battery" (num 100)
  /\ Drone.signal data = telemetry drone "signal" (num 100)
  /\ Drone.lastSeen data = currentTime
  /\ Drone.firstSeen data = firstSeen_of existingDrone currentTime
  /\ Drone.flightTime data = flightTime_of existingDrone currentTime.
Proof.
  unfold droneData. destruct (name_of drone droneId) as [name|];
    [|discriminate].
  intros [= <-]. repeat split.
Qed.

(** The literal is built exactly when the name is: for a report with a
    truthy name, and for an id that can be converted to a string. *)
Lemma droneData_returns (currentTime : Z) (drone droneId : value)
    (position : place) (existingDrone : option Drone.t) :
  (exists data,
      droneData currentTime drone droneId position existingDrone = Ok data)
  <-> truthy (js_or drone.["name"] (opt_prop drone.["properties"] "name"))
      || convertible droneId = true.
Proof.
  unfold droneData, name_of, converted.
  destruct (truthy (js_or drone.["name"] _)); simpl.
  - split; eauto.
  - destruct (convertible droneId); simpl; split; eauto;
      try discriminate. intros [data H]. discriminate H.
Qed.

(** A report without an altitude, whatever else it carries, yields the
    altitude [0]. *)
Lemma altitude_absent (currentTime : Z) (drone droneId : value)
    (position : place) (existingDrone : option Drone.t) (data : Drone.t) :
  droneData currentTime drone droneId position existingDrone = Ok data ->
  place_prop position "altitude" = VUndefined ->
  Drone.altitude data = num 0.
Proof.
  intros Hd H. apply droneData_fields in Hd.
  destruct Hd as (_ & _ & _ & _ & _ & _ & _ & -> & _). now rewrite H.
Qed.

(** C6, at the failing input.  The report carries [battery: 0] and
    [signal: 0]; the entity stored for it has battery [100] and signal
    [100], not the report's values. *)
Theorem C6_battery_zero_stored_as_100 :
  exists s drone,
    updateDrones 1000 (VArray 0 [flat_battery]) initial = Returned s
    /\ getDroneById (VString "d1") s = Some drone
    /\ flat_battery.["battery"] = num 0
    /\ Drone.battery drone = num 100
    /\ Drone.signal drone = num 100
    /\ Drone.battery drone <> flat_battery.["battery"].
Proof.
  eexists. eexists. split; [reflexivity|].
  split; [reflexivity|]. repeat split. discriminate.
Qed.

(** ** The body of the loop *)

Lemma position_of_returns (drone : value) :
  (exists position, position_of drone = Ok position)
  <-> truthy drone.["position"]
      || nullish drone.["geometry"]
      || negb (nullish drone.["geometry"].["coordinates"]) = true.
Proof.
  unfold position_of, geometry_coordinate, get_index.
  destruct (truthy drone.["position"]); simpl; [split; eauto|].
  destruct (nullish drone.["geometry"]); simpl; [split; eauto|].
  destruct (nullish drone.["geometry"].["coordinates"]); simpl;
    split; eauto; try discriminate.
  intros [position H]. discriminate H.
Qed.

Lemma apply_report_inv (currentTime : Z) (drone : value) (st st' : batch) :
  apply_report currentTime drone st = Ok st' ->
  exists position data,
    position_of drone = Ok position
    /\ droneData currentTime drone (droneId_of drone) position
         (map_get (droneId_of drone) (newDrones st)) = Ok data
    /\ st' = write_report currentTime drone position data st.
Proof.
  unfold apply_report, get_prop.
  destruct (nullish drone); simpl; [discriminate|].
  destruct (position_of drone) as [position|]; simpl; [|discriminate].
  destruct (droneData currentTime drone _ position _) as [data|] eqn:Hd;
    simpl; [|discriminate].
  intros [= <-]. now exists position, data.
Qed.

(** The loop body returns exactly on the readable reports. *)
Lemma apply_report_readable (currentTime : Z) (drone : value) (st : batch) :
  readable drone = true ->
  exists position data,
    position_of drone = Ok position
    /\ droneData currentTime drone (droneId_of drone) position
         (map_get (droneId_of drone) (newDrones st)) = Ok data
    /\ apply_report currentTime drone st
       = Ok (write_report currentTime drone position data st).
Proof.
  unfold readable. intros H.
  apply andb_prop in H as [H Hname]. apply andb_prop in H as [Hdrone Hpos].
  apply position_of_returns in Hpos as [position Hp].
  apply (droneData_returns currentTime drone (droneId_of drone) position
           (map_get (droneId_of drone) (newDrones st))) in Hname
    as [data Hd].
  exists position, data. split; [exact Hp|]. split; [exact Hd|].
  unfold apply_report, get_prop. apply negb_true_iff in Hdrone.
  rewrite Hdrone; simpl. rewrite Hp; simpl. now rewrite Hd.
Qed.

Lemma apply_report_unreadable (currentTime : Z) (drone : value) (st : batch) :
  readable drone = false -> apply_report currentTime drone st = TypeError.
Proof.
  intros H.
  destruct (apply_report currentTime drone st) as [st'|] eqn:Happly;
    [|reflexivity].
  assert (Hdrone : nullish drone = false).
  { unfold apply_report, get_prop in Happly.
    destruct (nullish drone); [discriminate Happly|reflexivity]. }
  apply apply_report_inv in Happly as (position & data & Hp & Hd & _).
  assert (Hpos := proj1 (position_of_returns drone) (ex_intro _ _ Hp)).
  assert (Hname := proj1 (droneData_returns _ _ _ _ _) (ex_intro _ _ Hd)).
  unfold readable in H. now rewrite Hdrone, Hpos, Hname in H.
Qed.

Lemma map_get_congr {V : Type} (k k' : value) (m : jsmap V) :
  same_value_zero k k' = true -> map_get k m = map_get k' m.
Proof.
  intros H. induction m as [|[k0 v0] rest IH]; simpl; [reflexivity|].
  rewrite (same_value_zero_sym k0 k), (same_value_zero_sym k0 k').
  now rewrite (same_value_zero_congr _ _ k0 H), IH.
Qed.

Lemma write_report_drones (currentTime : Z) (drone : value) (position : place)
    (data : Drone.t) (st : batch) (k : value) :
  map_get k (newDrones (write_report currentTime drone position data st))
  = if same_value_zero (droneId_of drone) k then Some data
    else map_get k (newDrones st).
Proof. unfold write_report; simpl. now rewrite map_get_set. Qed.

Lemma write_report_paths (currentTime : Z) (drone : value) (position : place)
    (data : Drone.t) (st : batch) (k : value) :
  path_or_empty k (newPaths (write_report currentTime drone position data st))
  = if same_value_zero (droneId_of drone) k
    then push_sample (path_or_empty k (newPaths st))
                     (sample_of currentTime position)
    else path_or_empty k (newPaths st).
Proof.
  unfold write_report, path_or_empty; simpl. rewrite map_get_set.
  destruct (same_value_zero (droneId_of drone) k) eqn:H; [|reflexivity].
  now rewrite (map_get_congr _ _ _ H).
Qed.

(** An invariant of the loop holds of the batch it leaves, whether the loop
    returns or throws. *)
Lemma forEach_invariant (P : batch -> Prop) (currentTime : Z)
    (reports : list value) :
  (forall drone position data st,
      In drone reports -> position_of drone = Ok position ->
      droneData currentTime drone (droneId_of drone) position
        (map_get (droneId_of drone) (newDrones st)) = Ok data ->
      P st ->
      P (write_report currentTime drone position data st)) ->
  forall st, P st -> P (state_of (forEach currentTime reports st)).
Proof.
  induction reports as [|drone rest IH]; intros Hstep st Hst; simpl.
  - exact Hst.
  - destruct (apply_report currentTime drone st) as [st'|] eqn:Happly.
    + apply apply_report_inv in Happly as (position & data & Hp & Hd & ->).
      apply IH.
      * intros d p e st0 Hin. apply Hstep. now right.
      * apply (Hstep drone position data st);
          [now left|exact Hp|exact Hd|exact Hst].
    + exact Hst.
Qed.

Lemma forEach_readable (currentTime : Z) (reports : list value) (st : batch) :
  returned (forEach currentTime reports st) = forallb readable reports.
Proof.
  revert st. induction reports as [|drone rest IH]; intros st; simpl.
  - reflexivity.
  - destruct (readable drone) eqn:Hd.
    + destruct (apply_report_readable currentTime drone st Hd)
        as (p & e & _ & _ & ->).
      apply IH.
    + now rewrite (apply_report_unreadable currentTime drone st Hd).
Qed.

Lemma push_sample_last (path : list Sample.t) (x : Sample.t) :
  exists earlier, push_sample path x = earlier ++ [x].
Proof.
  unfold push_sample.
  destruct (Nat.ltb 100 (List.length (path ++ [x]))) eqn:H.
  - destruct path as [|y path]; [discriminate H|].
    now exists path.
  - now exists path.
Qed.

(** ** More on [Map] *)

Lemma map_set_keys {V : Type} (k : value) (v : V) (m : jsmap V) :
  keys (map_set k v m) = keys m ++ (if map_has k m then [] else [map_key k]).
Proof.
  unfold keys, map_has. induction m as [|[k0 v0] rest IH]; simpl.
  - reflexivity.
  - destruct (same_value_zero k0 k); simpl.
    + now rewrite app_nil_r.
    + now rewrite IH.
Qed.

Lemma map_set_distinct {V : Type} (k : value) (v : V) (m : jsmap V) :
  distinct_keys m -> distinct_keys (map_set k v m).
Proof.
  induction m as [|[k0 v0] rest IH]; simpl.
  - auto.
  - intros [Hnone Hrest]. destruct (same_value_zero k0 k) eqn:Hk; simpl.
    + auto.
    + split; [|auto]. rewrite map_get_set, same_value_zero_sym, Hk.
      exact Hnone.
Qed.

Lemma map_set_Forall_keyed {V : Type} (P : value -> V -> Prop)
    (k : value) (v : V) (m : jsmap V) :
  Forall (fun kv => P (fst kv) (snd kv)) m ->
  (forall k', same_value_zero k' k = true -> P k' v) ->
  Forall (fun kv => P (fst kv) (snd kv)) (map_set k v m).
Proof.
  intros Hm Hv. induction Hm as [|[k0 v0] rest H0 Hrest IH]; simpl.
  - constructor; [|constructor]. apply Hv, map_key_same.
  - destruct (same_value_zero k0 k) eqn:Hk; constructor; auto.
Qed.

Lemma map_has_congr {V : Type} (k k' : value) (m : jsmap V) :
  same_value_zero k k' = true -> map_has k m = map_has k' m.
Proof. intros H. unfold map_has. now rewrite (map_get_congr _ _ _ H). Qed.

(** ** The loop, piece by piece *)

Lemma forEach_app (currentTime : Z) (first rest : list value) (st : batch) :
  forEach currentTime (first ++ rest) st
  = match forEach currentTime first st with
    | Returned st' => forEach currentTime rest st'
    | Threw st' => Threw st'
    end.
Proof.
  revert st. induction first as [|drone first IH]; intros st; simpl.
  - reflexivity.
  - destruct (apply_report currentTime drone st); [apply IH|reflexivity].
Qed.

Lemma write_report_store_paths (currentTime : Z) (drone : value)
    (position : place) (data : Drone.t) (st : batch) (k : value) :
  map_get k (storePaths (write_report currentTime drone position data st))
  = if same_value_zero (droneId_of drone) k
       && map_has k (storePaths st)
    then Some (push_sample (path_or_empty k (newPaths st))
                           (sample_of currentTime position))
    else map_get k (storePaths st).
Proof.
  unfold write_report; simpl.
  destruct (same_value_zero (droneId_of drone) k) eqn:Hk; simpl.
  - rewrite (map_has_congr _ _ _ Hk).
    destruct (map_has k (storePaths st)); [|reflexivity].
    rewrite map_get_set, Hk. unfold path_or_empty.
    now rewrite (map_get_congr _ _ _ Hk).
  - destruct (map_has (droneId_of drone) (storePaths st)); [|reflexivity].
    now rewrite map_get_set, Hk.
Qed.

Lemma forEach_untouched (currentTime : Z) (k : value) (reports : list value)
    (st : batch) :
  absent_from k reports ->
  map_get k (newDrones (state_of (forEach currentTime reports st)))
  = map_get k (newDrones st)
  /\ map_get k (newPaths (state_of (forEach currentTime reports st)))
     = map_get k (newPaths st)
  /\ map_get k (storePaths (state_of (forEach currentTime reports st)))
     = map_get k (storePaths st).
Proof.
  intros Habsent.
  apply (forEach_invariant
           (fun st' => map_get k (newDrones st') = map_get k (newDrones st)
                       /\ map_get k (newPaths st') = map_get k (newPaths st)
                       /\ map_get k (storePaths st')
                          = map_get k (storePaths st)));
    [|now repeat split].
  intros drone position data st' Hin _ _ (H1 & H2 & H3).
  specialize (Habsent drone Hin).
  rewrite write_report_drones, write_report_store_paths, Habsent. simpl.
  repeat split; try assumption.
  unfold write_report; simpl. now rewrite map_get_set, Habsent.
Qed.

(** ** Every report of a batch is applied *)

Lemma write_report_applies (currentTime : Z) (drone : value) (position : place)
    (existing : option Drone.t) (data : Drone.t) (st : batch) :
  droneData currentTime drone (droneId_of drone) position existing = Ok data ->
  applied currentTime (droneId_of drone)
          (write_report currentTime drone position data st).
Proof.
  intros Hd. apply droneData_fields in Hd.
  destruct Hd as (_ & Hid & _ & _ & _ & _ & _ & _ & _ & _ & _ & _ & Hseen & _).
  split.
  - exists data. rewrite write_report_drones, same_value_zero_refl.
    split; [reflexivity|]. rewrite Hid.
    split; [apply same_value_zero_refl|exact Hseen].
  - rewrite write_report_paths, same_value_zero_refl.
    destruct (push_sample_last (path_or_empty (droneId_of drone) (newPaths st))
                (sample_of currentTime position)) as [earlier ->].
    now exists earlier, (sample_of currentTime position).
Qed.

Lemma write_report_keeps_applied (currentTime : Z) (drone : value)
    (position : place) (existing : option Drone.t) (data : Drone.t)
    (st : batch) (k : value) :
  droneData currentTime drone (droneId_of drone) position existing = Ok data ->
  applied currentTime k st ->
  applied currentTime k (write_report currentTime drone position data st).
Proof.
  intros Hd [(entity & Hget & Hid & Hseen) (earlier & x & Hpath & Hx)].
  apply droneData_fields in Hd.
  destruct Hd as (_ & Hid' & _ & _ & _ & _ & _ & _ & _ & _ & _ & _ & Hseen' & _).
  split.
  - rewrite write_report_drones.
    destruct (same_value_zero (droneId_of drone) k) eqn:Hk.
    + exists data. split; [reflexivity|]. rewrite Hid'.
      split; [exact Hk|exact Hseen'].
    + now exists entity.
  - rewrite write_report_paths.
    destruct (same_value_zero (droneId_of drone) k) eqn:Hk.
    + destruct (push_sample_last (path_or_empty k (newPaths st))
                  (sample_of currentTime position)) as [earlier' ->].
      now exists earlier', (sample_of currentTime position).
    + now exists earlier, x.
Qed.

(** When the loop returns, every report of the batch has been applied. *)
Lemma forEach_applies (currentTime : Z) (reports : list value) :
  forall st st' drone,
    forEach currentTime reports st = Returned st' ->
    In drone reports ->
    applied currentTime (droneId_of drone) st'.
Proof.
  induction reports as [|d rest IH]; intros st st' drone Hloop Hin.
  - destruct Hin.
  - simpl in Hloop.
    destruct (apply_report currentTime d st) as [st1|] eqn:Happly;
      [|discriminate].
    apply apply_report_inv in Happly as (p & e & _ & Hd & ->).
    destruct Hin as [->|Hin]; [|exact (IH _ _ _ Hloop Hin)].
    assert (H := forEach_invariant
              (applied currentTime (droneId_of drone)) currentTime rest
              (fun d' p' e' st0 _ _ Hd' =>
                 write_report_keeps_applied _ _ _ _ _ st0 _ Hd')
              _ (write_report_applies _ _ _ _ _ st Hd)).
    now rewrite Hloop in H.
Qed.

Lemma updateDrones_returns (currentTime : Z) (data : value) (s : store) :
  returned (updateDrones currentTime data s)
  = match reports_of data with
    | Ok reports => forallb readable reports
    | TypeError => false
    end.
Proof.
  unfold updateDrones.
  destruct (reports_of data) as [reports|]; [|reflexivity].
  rewrite <- (forEach_readable currentTime reports (loop_start s)).
  now destruct (forEach currentTime reports (loop_start s)).
Qed.

(** The reports of a batch whose ids are pairwise different each add an
    entity to a [Map] that has none of these ids. *)
Lemma forEach_counts (currentTime : Z) (reports : list value) :
  forall st st',
    forEach currentTime reports st = Returned st' ->
    distinct_keys (by_report reports) ->
    (forall drone, In drone reports ->
                   map_has (droneId_of drone) (newDrones st) = false) ->
    List.length (newDrones st')
    = (List.length (newDrones st) + List.length reports)%nat.
Proof.
  induction reports as [|d rest IH]; intros st st' Hloop Hdist Hnew;
    simpl in *.
  - injection Hloop as <-. lia.
  - destruct (apply_report currentTime d st) as [st1|] eqn:Happly;
      [|discriminate].
    apply apply_report_inv in Happly as (p & e & _ & _ & ->).
    destruct Hdist as [Hd Hrest].
    rewrite (IH _ _ Hloop Hrest).
    + unfold write_report; simpl. rewrite map_set_length.
      rewrite (Hnew d (or_introl eq_refl)). lia.
    + intros drone Hin. unfold write_report; simpl. rewrite map_has_set.
      rewrite (Hnew drone (or_intror Hin)), Bool.orb_false_r.
      rewrite same_value_zero_sym.
      apply (proj1 (map_get_none _ _) Hd (droneId_of drone) drone).
      unfold by_report. apply in_map_iff. now exists drone.
Qed.

Lemma same_value_zero_truthy (x y : value) :
  same_value_zero x y = true -> truthy x = truthy y.
Proof.
  destruct x as [| |a|a|a|r p|r i], y as [| |b|b|b|r' p'|r' i'];
    try discriminate; try reflexivity; simpl.
  - intros H. apply Bool.eqb_prop in H. now subst.
  - destruct a, b; try discriminate; reflexivity.
  - intros H. apply String.eqb_eq in H. now subst.
Qed.

(** A batch whose resolvable ids are pairwise different and that has at
    most one report without a resolvable id has pairwise different id
    values. *)
Lemma one_unresolvable_is_distinct (reports : list value) :
  distinct_keys
    (by_report (filter (fun drone => truthy (droneId_of drone)) reports)) ->
  (List.length
     (filter (fun drone => negb (truthy (droneId_of drone))) reports) <= 1)%nat ->
  distinct_keys (by_report reports).
Proof.
  induction reports as [|d rest IH]; simpl; [auto|].
  destruct (truthy (droneId_of d)) eqn:Hd; simpl.
  - intros [Hnone Hrest] Hone. split; [|now apply IH].
    apply map_get_none. intros k' v Hin.
    unfold by_report in Hin. apply in_map_iff in Hin as (d' & [= <- <-] & Hin).
    destruct (truthy (droneId_of d')) eqn:Hd'.
    + apply (proj1 (map_get_none _ _) Hnone (droneId_of d') d').
      unfold by_report. apply in_map_iff. exists d'. split; [reflexivity|].
      apply filter_In. now split.
    + destruct (same_value_zero (droneId_of d') (droneId_of d)) eqn:Hs;
        [|reflexivity].
      apply same_value_zero_truthy in Hs. congruence.
  - intros Hrest Hone.
    assert (Hnone : filter (fun drone => negb (truthy (droneId_of drone))) rest
                    = []).
    { destruct (filter (fun drone => negb (truthy (droneId_of drone))) rest);
        [reflexivity|simpl in Hone; lia]. }
    split; [|apply IH; [exact Hrest|rewrite Hnone; simpl; lia]].
    apply map_get_none. intros k' v Hin.
    unfold by_report in Hin. apply in_map_iff in Hin as (d' & [= <- <-] & Hin).
    destruct (truthy (droneId_of d')) eqn:Hd'.
    + destruct (same_value_zero (droneId_of d') (droneId_of d)) eqn:Hs;
        [|reflexivity].
      apply same_value_zero_truthy in Hs. congruence.
    + assert (Hin' : In d' (filter (fun drone =>
                                      negb (truthy (droneId_of drone))) rest))
        by (apply filter_In; split; [exact Hin|now rewrite Hd']).
      rewrite Hnone in Hin'. destruct Hin'.
Qed.

(** C1, as the specification states it, fails on a batch of five reports of which
    one has no resolvable id: the call returns with five entities, one of
    them stored under the key [undefined]. *)
Lemma C1_unresolvable_id_is_stored :
  exists s,
    updateDrones 1000 (VArray 0 five_reports) initial = Returned s
    /\ truthy (droneId_of anonymous) = false
    /\ List.length (filter (fun drone => negb (truthy (droneId_of drone)))
                           five_reports) = 1%nat
    /\ List.length (drones s) = 5%nat
    /\ map_has (droneId_of anonymous) (drones s) = true.
Proof. eexists. split; [reflexivity|]. repeat split. Qed.

(** C1, amended.  [updateDrones] drops no report.  When the loop can go
    through every report of the batch (it is not [undefined] or [null], its
    position resolves, and it has a name or an id that converts to a
    string), the call returns, and for every report of the batch, with or
    without a resolvable id, the store then holds an entity under the value
    of the report's id, last seen at this call, and a path under it that
    ends with the sample of this call; for a report without a resolvable id
    that value is what [properties?.serial] reads.  On a store without
    entities, a batch whose id values are pairwise different leaves as many
    entities as it has reports; so does, in particular, a batch whose
    resolvable ids are pairwise different and that has one report without
    a resolvable id. *)
Theorem C1_every_readable_report_is_applied (currentTime : Z) (data : value)
    (reports : list value) (s : store) :
  reports_of data = Ok reports ->
  forallb readable reports = true ->
  exists s',
    updateDrones currentTime data s = Returned s'
    /\ (forall drone,
           In drone reports ->
           (exists entity,
               getDroneById (droneId_of drone) s' = Some entity
               /\ same_value_zero (Drone.id entity) (droneId_of drone) = true
               /\ Drone.lastSeen entity = currentTime)
           /\ (exists earlier x,
                  getDronePath (droneId_of drone) s' = earlier ++ [x]
                  /\ Sample.timestamp x = currentTime)
           /\ (truthy (droneId_of drone) = false ->
               droneId_of drone = opt_prop drone.["properties"] "serial"))
    /\ (getActiveDrones s = [] ->
        distinct_keys (by_report reports) ->
        List.length (getActiveDrones s') = List.length reports)
    /\ (getActiveDrones s = [] ->
        distinct_keys
          (by_report (filter (fun drone => truthy (droneId_of drone))
                             reports)) ->
        List.length
          (filter (fun drone => negb (truthy (droneId_of drone))) reports)
        = 1%nat ->
        List.length (getActiveDrones s') = List.length reports).
Proof.
  intros Hdata Hall.
  assert (Hret := updateDrones_returns currentTime data s).
  rewrite Hdata, Hall in Hret. unfold updateDrones in *. rewrite Hdata in *.
  destruct (forEach currentTime reports (loop_start s)) as [st|st] eqn:Hloop;
    [|discriminate Hret].
  assert (Hcount : getActiveDrones s = [] ->
                   distinct_keys (by_report reports) ->
                   List.length (map_values (newDrones st))
                   = List.length reports).
  { unfold getActiveDrones, map_values. rewrite !length_map.
    intros Hempty Hdist.
    assert (Hs : drones s = [])
      by (destruct (drones s); [reflexivity|simpl in Hempty; discriminate]).
    rewrite (forEach_counts _ _ _ _ Hloop Hdist);
      cbn [loop_start newDrones]; rewrite Hs; [reflexivity|].
    intros drone _. reflexivity. }
  eexists. split; [reflexivity|]. split; [|split].
  - intros drone Hin.
    destruct (forEach_applies _ _ _ _ _ Hloop Hin) as [Hentity Hpath].
    split; [exact Hentity|]. split; [exact Hpath|].
    unfold droneId_of, js_or.
    destruct (truthy drone.["id"]) eqn:Hid; [congruence|reflexivity].
  - exact Hcount.
  - intros Hempty Hdist Hone. apply (Hcount Hempty).
    apply one_unresolvable_is_distinct; [exact Hdist|]. rewrite Hone. lia.
Qed.

(** The batch of five, on the initial store: every report is applied, the
    one without an id under the key [undefined], and the store has five
    entities. *)
Lemma C1_five_reports_applied :
  exists s',
    updateDrones 1000 (VArray 0 five_reports) initial = Returned s'
    /\ (forall drone,
           In drone five_reports ->
           (exists entity,
               getDroneById (droneId_of drone) s' = Some entity
               /\ same_value_zero (Drone.id entity) (droneId_of drone) = true
               /\ Drone.lastSeen entity = 1000)
           /\ (exists earlier x,
                  getDronePath (droneId_of drone) s' = earlier ++ [x]
                  /\ Sample.timestamp x = 1000)
           /\ (truthy (droneId_of drone) = false ->
               droneId_of drone = opt_prop drone.["properties"] "serial"))
    /\ (getActiveDrones initial = [] ->
        distinct_keys (by_report five_reports) ->
        List.length (getActiveDrones s') = List.length five_reports)
    /\ (getActiveDrones initial = [] ->
        distinct_keys
          (by_report (filter (fun drone => truthy (droneId_of drone))
                             five_reports)) ->
        List.length
          (filter (fun drone => negb (truthy (droneId_of drone)))
                  five_reports)
        = 1%nat ->
        List.length (getActiveDrones s') = List.length five_reports).
Proof.
  apply (C1_every_readable_report_is_applied 1000 (VArray 0 five_reports)
           five_reports initial); reflexivity.
Defined.

Example five_reports_have_distinct_ids :
  distinct_keys (by_report five_reports).
Proof. repeat split. Qed.

(** A report whose id has no primitive value and that has no name: the
    default name cannot be built, the call throws at this report, and the
    store is as it was. *)
Example unnameable_report_throws :
  updateDrones 1000
    (VArray 0 [VObject 1 [("id"%string,
                           VObject 2 [("toString"%string, num 1)]);
                          ("position"%string,
                           VObject 3 [("lat"%string, num 1);
                                      ("lng"%string, num 2)])]])
    initial
  = Threw initial.
Proof. reflexivity. Qed.

(** ** A report in the middle of a batch *)

Lemma forEach_split (currentTime : Z) (before after : list value)
    (drone : value) (st stf : batch) :
  forEach currentTime (before ++ drone :: after) st = Returned stf ->
  exists st1 position data,
    forEach currentTime before st = Returned st1
    /\ position_of drone = Ok position
    /\ droneData currentTime drone (droneId_of drone) position
         (map_get (droneId_of drone) (newDrones st1)) = Ok data
    /\ forEach currentTime (before ++ [drone]) st
       = Returned (write_report currentTime drone position data st1)
    /\ forEach currentTime after
         (write_report currentTime drone position data st1) = Returned stf.
Proof.
  rewrite !forEach_app.
  destruct (forEach currentTime before st) as [st1|st1]; [|discriminate].
  simpl.
  destruct (apply_report currentTime drone st1) as [st2|] eqn:Happly;
    [|discriminate].
  apply apply_report_inv in Happly as (position & data & Hp & Hd & ->).
  intros Hrest. now exists st1, position, data.
Qed.

(** A loop that throws went through the reports ahead of one that it
    could not go through, and stopped there. *)
Lemma forEach_threw (currentTime : Z) (reports : list value) :
  forall st st',
    forEach currentTime reports st = Threw st' ->
    exists done drone rest,
      reports = done ++ drone :: rest
      /\ forEach currentTime done st = Returned st'
      /\ readable drone = false.
Proof.
  induction reports as [|d reports IH]; intros st st'; simpl; [discriminate|].
  destruct (apply_report currentTime d st) as [st1|] eqn:Happly.
  - intros Hloop. destruct (IH _ _ Hloop) as (done & drone & rest & -> & H & Hr).
    exists (d :: done), drone, rest. simpl. now rewrite Happly.
  - intros [= <-]. exists [], d, reports. repeat split.
    destruct (readable d) eqn:Hd; [|reflexivity].
    destruct (apply_report_readable currentTime d st Hd)
      as (p & e & _ & _ & H). congruence.
Qed.

(** ** The colour of an entity *)

Lemma color_of_without_color (drone : value) :
  truthy drone.["color"] = false ->
  color_of drone
  = VString (DroneColorStrategy.getColor (registration_of drone)).
Proof. intros H. unfold color_of, js_or. now rewrite H. Qed.

Lemma color_of_with_color (drone : value) :
  truthy drone.["color"] = true -> color_of drone = drone.["color"].
Proof. intros H. unfold color_of, js_or. now rewrite H. Qed.

Lemma color_of_spelled_out (drone : value) :
  color_of drone = colour_of_report drone.
Proof. reflexivity. Qed.

(** C5, as the specification states it, fails on a report that carries a [color]
    field: the entity takes that colour, whatever the registration says. *)
Lemma C5_color_field_overrides_registration :
  exists s entity,
    updateDrones 1000 (VArray 0 [painted]) initial = Returned s
    /\ getDroneById (VString "d1") s = Some entity
    /\ registration_of painted = VString "B01"
    /\ DroneColorStrategy.getColor (registration_of painted) = "green"%string
    /\ Drone.color entity = VString "blue".
Proof. eexists. eexists. split; [reflexivity|]. repeat split. Qed.

(** C5, amended.  Take a call of [updateDrones] that returns, and any
    report of its batch.  Once the loop has applied the report, the entity
    under the report's id has the report's own [color] when that is truthy,
    and otherwise [getColor] of the report's registration (the top-level
    field or, when that is falsy, the one among its properties); this is
    the entity the store holds after the call, unless a later report of the
    batch resolves to the same id.  The entity under a key that no report
    of the batch resolves to is not changed by the call, and the selection
    and connection setters change no entity. *)
Theorem C5_color_of_the_report (currentTime : Z) (data : value) (s s' : store)
    (before after : list value) (drone : value) :
  updateDrones currentTime data s = Returned s' ->
  reports_of data = Ok (before ++ drone :: after) ->
  coloured_by currentTime s s' before drone after
  /\ (forall k,
         absent_from k (before ++ drone :: after) ->
         getDroneById k s' = getDroneById k s)
  /\ (forall droneId status,
         drones (selectDrone droneId s) = drones s
         /\ drones (clearSelection s) = drones s
         /\ drones (setConnectionStatus status s) = drones s).
Proof.
  unfold updateDrones. intros Hcall Hdata. rewrite Hdata in Hcall.
  destruct (forEach currentTime (before ++ drone :: after) (loop_start s))
    as [stf|stf] eqn:Hloop; [|discriminate].
  injection Hcall as <-. split; [|split; [|now intros]].
  - destruct (forEach_split _ _ _ _ _ _ Hloop)
      as (st1 & position & entity & _ & _ & Hd & Hthis & Hrest).
    exists (write_report currentTime drone position entity st1), entity.
    split; [exact Hthis|]. split.
    { now rewrite write_report_drones, same_value_zero_refl. }
    split.
    { apply droneData_fields in Hd.
      now destruct Hd as (_ & _ & _ & -> & _). }
    intros Habsent.
    destruct (forEach_untouched currentTime (droneId_of drone) after
                (write_report currentTime drone position entity st1) Habsent)
      as (H1 & _). rewrite Hrest in H1. cbn [state_of] in H1.
    unfold getDroneById. cbn [drones].
    now rewrite H1, write_report_drones, same_value_zero_refl.
  - intros k Habsent.
    destruct (forEach_untouched currentTime k (before ++ drone :: after)
                (loop_start s) Habsent) as (H1 & _).
    rewrite Hloop in H1. exact H1.
Qed.


(** The report that names its colour, on the initial store. *)
Lemma C5_painted_colour :
  coloured_by 1000 initial
    (state_of (updateDrones 1000 (VArray 0 [painted]) initial))
    [] painted []
  /\ (forall k,
         absent_from k ([] ++ painted :: []) ->
         getDroneById k
           (state_of (updateDrones 1000 (VArray 0 [painted]) initial))
         = getDroneById k initial)
  /\ (forall droneId status,
         drones (selectDrone droneId initial) = drones initial
         /\ drones (clearSelection initial) = drones initial
         /\ drones (setConnectionStatus status initial) = drones initial).
Proof.
  apply (C5_color_of_the_report 1000 (VArray 0 [painted]) initial _
           [] [] painted); reflexivity.
Defined.

(** Two reports of one drone in a batch, the first one green by its
    registration, the second one without a registration: the entity of
    the first report is green when the loop has applied it, and the store
    ends with the red entity of the second. *)
Example two_colours_in_a_batch :
  option_map Drone.color
    (map_get (VString "d1")
       (newDrones
          (state_of
             (forEach 1000
                [VObject 1 [("id"%string, VString "d1");
                            ("position"%string, VObject 2 []);
                            ("registration"%string, VString "B7")]]
                (loop_start initial)))))
  = Some (VString "green")
  /\ option_map Drone.color
       (getDroneById (VString "d1")
          (state_of
             (updateDrones 1000
                (VArray 0
                   [VObject 1 [("id"%string, VString "d1");
                               ("position"%string, VObject 2 []);
                               ("registration"%string, VString "B7")];
                    report 3 "d1" 1 2 10])
                initial)))
     = Some (VString "red").
Proof. split; reflexivity. Qed.

(** ** What a call that throws leaves behind *)

Lemma write_report_new_paths (currentTime : Z) (drone : value)
    (position : place) (data : Drone.t) (st : batch) (k : value) :
  map_get k (newPaths (write_report currentTime drone position data st))
  = if same_value_zero (droneId_of drone) k
    then Some (push_sample (path_or_empty k (newPaths st))
                           (sample_of currentTime position))
    else map_get k (newPaths st).
Proof.
  unfold write_report, path_or_empty; simpl. rewrite map_get_set.
  destruct (same_value_zero (droneId_of drone) k) eqn:H; [|reflexivity].
  now rewrite (map_get_congr _ _ _ H).
Qed.

(** The store's own paths along the loop: the keys they had, each with
    the path that the working copy holds for it. *)
Lemma forEach_store_paths (currentTime : Z) (reports : list value)
    (s : store) (k : value) :
  let st := state_of (forEach currentTime reports (loop_start s)) in
  map_get k (storePaths st)
  = (if map_has k (dronePaths s) then map_get k (newPaths st) else None)
  /\ keys (storePaths st) = keys (dronePaths s).
Proof.
  cbn zeta.
  assert (H := forEach_invariant
    (fun st =>
       (forall k, map_get k (storePaths st)
                  = if map_has k (dronePaths s) then map_get k (newPaths st)
                    else None)
       /\ (forall k, map_has k (dronePaths s) = true ->
                     map_has k (storePaths st) = true)
       /\ keys (storePaths st) = keys (dronePaths s))
    currentTime reports).
  destruct H with (st := loop_start s) as (H1 & _ & H3).
  - clear. intros drone position data st _ _ _ (H1 & H2 & H3).
    split; [|split].
    + intros k. rewrite write_report_store_paths, write_report_new_paths.
      destruct (same_value_zero (droneId_of drone) k) eqn:Hk; simpl;
        [|apply H1].
      destruct (map_has k (dronePaths s)) eqn:Hb.
      * now rewrite (H2 k Hb).
      * specialize (H1 k). rewrite Hb in H1. unfold map_has. now rewrite H1.
    + intros k Hb. specialize (H2 k Hb). unfold write_report; simpl.
      destruct (map_has (droneId_of drone) (storePaths st)); [|exact H2].
      rewrite map_has_set, H2. apply Bool.orb_true_r.
    + unfold write_report; simpl.
      destruct (map_has (droneId_of drone) (storePaths st)) eqn:Hhas;
        [|exact H3].
      now rewrite map_set_keys, Hhas, app_nil_r.
  - split; [|split; [|reflexivity]].
    + intros k0. cbn [loop_start storePaths newPaths]. unfold map_has.
      now destruct (map_get k0 (dronePaths s)).
    + intros k0 Hb. exact Hb.
  - split; [apply H1|exact H3].
Qed.

(** A call that throws changes no entity, nor the selection, the connection
    or the time of the last batch, because [set] was not reached; it adds
    no path and removes none.  The paths that the store had are not left
    alone: the store shares their arrays with the copy the loop works on,
    so they are as a call with the reports ahead of the failing one alone
    would leave them, with the samples of these reports at their ends and
    without the samples that these pushed out at their heads. *)
Theorem updateDrones_threw_frame (currentTime : Z) (data : value) (s s' : store) :
  updateDrones currentTime data s = Threw s' ->
  thrown_from currentTime data s s'.
Proof.
  unfold updateDrones, thrown_from.
  destruct (reports_of data) as [reports|] eqn:Hdata.
  2:{ intros [= <-]. repeat split. intros reports. discriminate. }
  destruct (forEach currentTime reports (loop_start s)) as [st|st] eqn:Hloop;
    [discriminate|].
  intros [= <-]. cbn [drones dronePaths selectedDroneId isConnected lastUpdate].
  assert (Hstore := fun k => forEach_store_paths currentTime reports s k).
  cbn zeta in Hstore. rewrite Hloop in Hstore. cbn [state_of] in Hstore.
  repeat split; try discriminate.
  - exact (proj2 (Hstore VUndefined)).
  - intros reports' [= <-].
    destruct (forEach_threw _ _ _ _ Hloop) as (done & drone & rest & -> & Hdone & Hr).
    exists done, drone, rest. eexists.
    split; [reflexivity|].
    split.
    { rewrite <- (forEach_readable currentTime done (loop_start s)).
      now rewrite Hdone. }
    split; [exact Hr|]. unfold updateDrones. cbn [reports_of]. rewrite Hdone.
    split; [reflexivity|].
    intros k. unfold getDronePath, path_or_empty. cbn [dronePaths].
    rewrite (proj1 (Hstore k)).
    now destruct (map_has k (dronePaths s)).
Qed.

(** The batch with a [null] report, on the store with the one drone. *)
Lemma thrown_batch_frame :
  updateDrones 2000 (VArray 0 [report 1 "d1" 1.5 2.5 10; VNull]) one_drone
  = Threw (state_of (updateDrones 2000
                       (VArray 0 [report 1 "d1" 1.5 2.5 10; VNull]) one_drone))
  /\ thrown_from 2000 (VArray 0 [report 1 "d1" 1.5 2.5 10; VNull]) one_drone
       (state_of (updateDrones 2000
                    (VArray 0 [report 1 "d1" 1.5 2.5 10; VNull]) one_drone)).
Proof.
  split; [reflexivity|].
  apply (updateDrones_threw_frame 2000
           (VArray 0 [report 1 "d1" 1.5 2.5 10; VNull]) one_drone).
  reflexivity.
Defined.

(** A call that returns keeps the selection and the connection and records
    its clock reading. *)
Lemma updateDrones_returned_frame (currentTime : Z) (data : value)
    (s s' : store) :
  updateDrones currentTime data s = Returned s' ->
  selectedDroneId s' = selectedDroneId s
  /\ isConnected s' = isConnected s
  /\ lastUpdate s' = Some currentTime.
Proof.
  unfold updateDrones.
  destruct (reports_of data) as [reports|]; [|discriminate].
  destruct (forEach currentTime reports _) as [st|st]; [|discriminate].
  now intros [= <-].
Qed.

(** The second batch below has a report for drone ["d1"] and then [null];
    reading [null.id] throws, and the sample already pushed on the path of
    ["d1"] stays in the store's array, while the entity keeps the data of
    the first batch. *)
Example thrown_batch_leaves_a_sample :
  exists s',
    updateDrones 2000 (VArray 0 [report 1 "d1" 1.5 2.5 10; VNull]) one_drone
    = Threw s'
    /\ List.map Sample.timestamp (getDronePath (VString "d1") s')
       = [1000; 2000]
    /\ option_map Drone.lastSeen (getDroneById (VString "d1") s') = Some 1000
    /\ lastUpdate s' = Some 1000.
Proof. eexists. split; [reflexivity|]. repeat split. Qed.

(** On a path that is full the call that throws also drops the oldest
    sample: after the hundred and fifty calls the path of ["d1"] holds the
    samples of the readings 51 to 150, and after the call that throws those
    of 52 to 150 and the one of the call. *)
Example thrown_batch_shifts_the_oldest_sample :
  List.map Sample.timestamp
    (getDronePath (VString "d1")
       (state_of (updateDrones 2000
                    (VArray 0 [report 1 "d1" 1.5 2.5 10; VNull])
                    (run hundred_fifty initial))))
  = List.map Z.of_nat (seq 52 99) ++ [2000].
Proof. vm_compute. reflexivity. Qed.

(** ** Flight paths *)

Lemma tl_skipn {A : Type} (l : list A) : tl l = skipn 1 l.
Proof. now destruct l. Qed.

Lemma keep_last_length {A : Type} (n : nat) (l : list A) :
  List.length (keep_last n l) = Nat.min (List.length l) n.
Proof. unfold keep_last. rewrite length_skipn. lia. Qed.

Lemma push_sample_keep_last (l : list Sample.t) (x : Sample.t) :
  push_sample (keep_last 100 l) x = keep_last 100 (l ++ [x]).
Proof.
  unfold push_sample, keep_last.
  rewrite !length_app, length_skipn. simpl List.length.
  destruct (Nat.ltb_spec 100 (List.length l - (List.length l - 100) + 1)) as [H|H].
  - rewrite skipn_app.
    replace (List.length l + 1 - 100 - List.length l)%nat with 0%nat by lia.
    simpl skipn at 3.
    replace (List.length l + 1 - 100)%nat with (1 + (List.length l - 100))%nat
      by lia.
    rewrite <- skipn_skipn.
    assert (Hne : (0 < List.length (skipn (List.length l - 100) l))%nat)
      by (rewrite length_skipn; lia).
    destruct (skipn (List.length l - 100) l); [simpl in Hne; lia|reflexivity].
  - replace (List.length l - 100)%nat with 0%nat by lia.
    replace (List.length l + 1 - 100)%nat with 0%nat by lia.
    reflexivity.
Qed.

Lemma push_sample_bounded (path : list Sample.t) (x : Sample.t) :
  (List.length path <= 100)%nat ->
  (List.length (push_sample path x) <= 100)%nat.
Proof.
  intros H. unfold push_sample.
  destruct (Nat.ltb_spec 100 (List.length (path ++ [x]))) as [Hlt|Hle].
  - rewrite length_app in Hlt. simpl in Hlt.
    destruct path; simpl in *; [lia|]. rewrite length_app. simpl. lia.
  - exact Hle.
Qed.

Lemma path_or_empty_bounded (k : value) (paths : jsmap (list Sample.t)) :
  bounded paths -> (List.length (path_or_empty k paths) <= 100)%nat.
Proof.
  intros H. unfold path_or_empty.
  destruct (map_get k paths) as [p|] eqn:Hget; [|simpl; lia].
  exact (map_get_Forall (fun p => (List.length p <= 100)%nat) _ _ _ H Hget).
Qed.

Lemma write_report_bounded (currentTime : Z) (drone : value) (position : place)
    (data : Drone.t) (st : batch) :
  bounded (newPaths st) /\ bounded (storePaths st) ->
  bounded (newPaths (write_report currentTime drone position data st))
  /\ bounded (storePaths (write_report currentTime drone position data st)).
Proof.
  intros [Hnew Hstore]. unfold write_report; simpl.
  assert (Hpush : (List.length
                     (push_sample (path_or_empty (droneId_of drone) (newPaths st))
                        (sample_of currentTime position)) <= 100)%nat)
    by now apply push_sample_bounded, path_or_empty_bounded.
  split.
  - now apply (map_set_Forall (fun p => (List.length p <= 100)%nat)).
  - destruct (map_has (droneId_of drone) (storePaths st)); [|exact Hstore].
    now apply (map_set_Forall (fun p => (List.length p <= 100)%nat)).
Qed.

Lemma updateDrones_bounded (currentTime : Z) (data : value) (s : store) :
  bounded (dronePaths s) ->
  bounded (dronePaths (state_of (updateDrones currentTime data s))).
Proof.
  intros H. unfold updateDrones.
  destruct (reports_of data) as [reports|]; [|exact H].
  assert (Hinv := forEach_invariant
            (fun st => bounded (newPaths st) /\ bounded (storePaths st))
            currentTime reports
            (fun drone position data st _ _ _ =>
               write_report_bounded _ _ _ data st)
            (loop_start s) (conj H H)).
  destruct (forEach currentTime reports _) as [st|st]; simpl in *; tauto.
Qed.

Lemma run_bounded (history : list (Z * value)) (s : store) :
  bounded (dronePaths s) -> bounded (dronePaths (run history s)).
Proof.
  revert s. induction history as [|call rest IH]; intros s H; simpl.
  - exact H.
  - apply IH. now apply updateDrones_bounded.
Qed.

Lemma forEach_paths (currentTime : Z) (k : value) (reports : list value) :
  forall st st' received,
    forEach currentTime reports st = Returned st' ->
    path_or_empty k (newPaths st) = keep_last 100 received ->
    path_or_empty k (newPaths st')
    = keep_last 100 (received ++ samples_of_reports currentTime k reports).
Proof.
  induction reports as [|drone rest IH]; intros st st' received; simpl.
  - intros [= <-] H. now rewrite app_nil_r.
  - destruct (apply_report currentTime drone st) as [st1|] eqn:Happly;
      [|discriminate].
    apply apply_report_inv in Happly as (position & data & Hp & _ & ->).
    intros Hrest Hpath. rewrite Hp, app_assoc.
    apply (IH _ _ _ Hrest).
    rewrite write_report_paths.
    destruct (same_value_zero (droneId_of drone) k).
    + rewrite Hpath. apply push_sample_keep_last.
    + now rewrite app_nil_r.
Qed.

Lemma updateDrones_paths (currentTime : Z) (data : value) (k : value)
    (s s' : store) (received : list Sample.t) :
  updateDrones currentTime data s = Returned s' ->
  getDronePath k s = keep_last 100 received ->
  getDronePath k s'
  = keep_last 100 (received ++ samples_of_call k (currentTime, data)).
Proof.
  unfold updateDrones, samples_of_call, getDronePath; simpl.
  destruct (reports_of data) as [reports|]; [|discriminate].
  destruct (forEach currentTime reports _) as [st|st] eqn:Hloop;
    [|discriminate].
  intros [= <-] Hpath; simpl.
  exact (forEach_paths currentTime k reports _ _ received Hloop Hpath).
Qed.

Lemma run_paths (k : value) (history : list (Z * value)) :
  forall s received,
    completes history s = true ->
    getDronePath k s = keep_last 100 received ->
    getDronePath k (run history s)
    = keep_last 100 (received ++ samples_of_history k history).
Proof.
  induction history as [|[currentTime data] rest IH]; intros s received; simpl.
  - intros _ H. now rewrite app_nil_r.
  - destruct (updateDrones currentTime data s) as [s'|s'] eqn:Hcall;
      [|discriminate].
    intros Hrest Hpath. simpl. rewrite app_assoc.
    apply (IH _ _ Hrest).
    exact (updateDrones_paths _ _ _ _ _ _ Hcall Hpath).
Qed.

(** C2.  After any history of calls from the initial store, the path held
    for any key has at most 100 samples, also when calls threw on the way.
    When every call of the history returned, the path is made of the last
    100 of the samples received for that key, in arrival order, so its
    length is the smaller of their number and 100. *)
Theorem C2_path_keeps_last_100 (history : list (Z * value)) (k : value) :
  (List.length (getDronePath k (run history initial)) <= 100)%nat
  /\ (completes history initial = true ->
      getDronePath k (run history initial)
      = keep_last 100 (samples_of_history k history)
      /\ List.length (getDronePath k (run history initial))
         = Nat.min (List.length (samples_of_history k history)) 100).
Proof.
  split.
  - apply path_or_empty_bounded, run_bounded. constructor.
  - intros H.
    assert (Hpath := run_paths k history initial [] H eq_refl).
    simpl in Hpath. split; [exact Hpath|].
    rewrite Hpath. apply keep_last_length.
Qed.

(** One hundred and fifty calls for drone ["d1"]: each returns, and the path
    is the last hundred samples. *)
Lemma C2_150_updates :
  completes hundred_fifty initial = true
  /\ getDronePath (VString "d1") (run hundred_fifty initial)
     = keep_last 100 (samples_of_history (VString "d1") hundred_fifty)
  /\ List.length (getDronePath (VString "d1") (run hundred_fifty initial))
     = Nat.min
         (List.length (samples_of_history (VString "d1") hundred_fifty)) 100.
Proof.
  split; [vm_compute; reflexivity|].
  apply (proj2 (C2_path_keeps_last_100 hundred_fifty (VString "d1"))).
  vm_compute; reflexivity.
Defined.

Example path_after_150_updates :
  List.length (getDronePath (VString "d1") (run hundred_fifty initial))
  = 100%nat
  /\ List.map Sample.timestamp
       (getDronePath (VString "d1") (run hundred_fifty initial))
     = List.map Z.of_nat (seq 51 100).
Proof. vm_compute. split; reflexivity. Qed.

(** ** First sighting and flight time *)

















Example second_update_of_d1 :
  option_map (fun e => (Drone.firstSeen e, Drone.lastSeen e, Drone.flightTime e))
    (getDroneById (VString "d1")
       (run [(1000, VArray 0 [report 1 "d1" 1 2 10]);
             (2000, VArray 0 [report 1 "d1" 1.5 2.5 10])] initial))
  = Some (1000, 2000, 1000)
  /\ List.length
       (getDronePath (VString "d1")
          (run [(1000, VArray 0 [report 1 "d1" 1 2 10]);
                (2000, VArray 0 [report 1 "d1" 1.5 2.5 10])] initial))
     = 2%nat.
Proof. split; reflexivity. Qed.

(** ** The marker effect *)

Lemma markerFor_handle (current : value) (drone : Drone.t) (h : nat)
    (m : MapboxMap.marker) :
  MapboxMap.markerFor current drone h = Ok m -> MapboxMap.handle m = h.
Proof.
  unfold MapboxMap.markerFor.
  destruct (MapboxMap.getDroneColor (Drone.status drone)) as [c|];
    simpl; [|discriminate].
  destruct (MapboxMap.lowered (Drone.status drone)) as [a|];
    simpl; [|discriminate].
  now intros [= <-].
Qed.

Lemma placeMarkers_invariant (P : MapboxMap.layer -> Prop) (current : value)
    (all : list Drone.t) :
  (forall drone l,
      In drone all -> P l ->
      P (state_of (MapboxMap.placeMarker current drone l))) ->
  forall l, P l -> P (state_of (MapboxMap.placeMarkers current all l)).
Proof.
  induction all as [|drone rest IH]; intros Hstep l Hl; simpl.
  - exact Hl.
  - specialize (Hstep drone l (or_introl eq_refl) Hl) as Hone.
    destruct (MapboxMap.placeMarker current drone l) as [l'|l'].
    + apply IH; [|exact Hone].
      intros d l0 Hin. apply Hstep. now right.
    + exact Hone.
Qed.

Lemma placeMarker_rebuilding (all : list Drone.t) (base : nat)
    (said : list MapboxMap.directive) (current : value) (drone : Drone.t)
    (l : MapboxMap.layer) :
  In drone all ->
  rebuilding all base said l ->
  rebuilding all base said (state_of (MapboxMap.placeMarker current drone l)).
Proof.
  intros Hin (Hbase & Hsaid & Hall & Hm).
  assert (Hgrow : Forall (fun kv => (base <= MapboxMap.handle (snd kv)
                                     < S (MapboxMap.constructed l))%nat)
                         (MapboxMap.markersRef l)).
  { revert Hall. apply Forall_impl. intros kv. lia. }
  assert (Htracked : forall m0,
             (base <= MapboxMap.handle m0 < S (MapboxMap.constructed l))%nat ->
             Forall (fun kv => (base <= MapboxMap.handle (snd kv)
                                < S (MapboxMap.constructed l))%nat)
                    (map_set (Drone.id drone) m0 (MapboxMap.markersRef l))).
  { intros m0 H0.
    now apply (map_set_Forall
                 (fun m => (base <= MapboxMap.handle m
                            < S (MapboxMap.constructed l))%nat)). }
  assert (Hstands : forall m0 k m1,
             MapboxMap.unplaced drone = false ->
             map_get k (map_set (Drone.id drone) m0 (MapboxMap.markersRef l))
             = Some m1 ->
             exists drone0,
               In drone0 all
               /\ same_value_zero (Drone.id drone0) k = true
               /\ MapboxMap.unplaced drone0 = false).
  { intros m0 k m1 Hun. rewrite map_get_set.
    destruct (same_value_zero (Drone.id drone) k) eqn:Hk; [|apply Hm].
    intros _. now exists drone. }
  placeMarker_cases current drone l; cbn [state_of];
    try (now repeat split);
    try apply markerFor_handle in Hm0;
    (split; [simpl; lia|]);
    (split; [intros d Hd; simpl; rewrite ?in_app_iff; auto|]);
    simpl; (split; [try exact Hgrow; apply Htracked; simpl; lia|]);
    try exact Hm; intros k m1; now apply Hstands.
Qed.

Lemma placeMarkers_places (current : value) (all : list Drone.t) :
  forall l drone,
    returned (MapboxMap.placeMarkers current all l) = true ->
    In drone all ->
    MapboxMap.unplaced drone = false ->
    map_has (Drone.id drone)
            (MapboxMap.markersRef
               (state_of (MapboxMap.placeMarkers current all l))) = true.
Proof.
  induction all as [|d rest IH]; intros l drone Hret Hin Hun.
  - destruct Hin.
  - simpl in *.
    destruct (MapboxMap.placeMarker current d l) as [l'|l'] eqn:Hplace;
      [|discriminate Hret].
    destruct Hin as [->|Hin]; [|now apply IH].
    apply (placeMarkers_invariant
             (fun st => map_has (Drone.id drone) (MapboxMap.markersRef st)
                        = true)).
    + intros d' l0 _ Hhas.
      placeMarker_cases current d' l0; simpl; try exact Hhas;
        rewrite map_has_set, Hhas; apply Bool.orb_true_r.
    + revert Hplace. placeMarker_cases current drone l;
        try discriminate; intros [= <-]; simpl;
        now rewrite map_has_set, same_value_zero_refl.
Qed.

(** C8, as the specification states it, fails on two runs of the effect over the
    same store: the marker of drone ["d1"], which persists, is removed and
    another marker is constructed for it. *)
Lemma C8_persisting_marker_is_rebuilt :
  exists l1 l2 m1 m2,
    MapboxMap.updateMarkers one_drone VNull MapboxMap.blank = Returned l1
    /\ MapboxMap.updateMarkers one_drone VNull l1 = Returned l2
    /\ map_get (VString "d1") (MapboxMap.markersRef l1) = Some m1
    /\ map_get (VString "d1") (MapboxMap.markersRef l2) = Some m2
    /\ MapboxMap.handle m1 <> MapboxMap.handle m2
    /\ In (MapboxMap.Remove (MapboxMap.handle m1)) (MapboxMap.told l2)
    /\ In (MapboxMap.AddTo (VString "d1") m2) (MapboxMap.told l2).
Proof.
  do 4 eexists. split; [reflexivity|]. split; [reflexivity|].
  split; [reflexivity|]. split; [reflexivity|].
  split; [discriminate|]. split; simpl; auto.
Qed.

(** C8, amended.  A run of the marker effect on a loaded map, whether it
    returns or throws, removes every marker of the prior layer, and the
    markers it leaves in the layer were all constructed by this run, each
    for a drone of the store that has a position with a truthy latitude and
    longitude: a marker whose drone is gone is removed and not replaced,
    and the marker of a drone that persists is removed and rebuilt, not
    updated in place.  When the run returns, every such drone of the store
    has a marker. *)
Theorem C8_markers_are_rebuilt (s : store) (current : value)
    (l : MapboxMap.layer) :
  MapboxMap.hasMap l = true ->
  MapboxMap.mapLoaded l = true ->
  known_handles l ->
  rebuilds s l (state_of (MapboxMap.updateMarkers s current l))
  /\ (returned (MapboxMap.updateMarkers s current l) = true ->
      covers s (state_of (MapboxMap.updateMarkers s current l))).
Proof.
  intros Hmap Hloaded Hknown. unfold MapboxMap.updateMarkers.
  rewrite Hmap, Hloaded. simpl.
  set (l0 := MapboxMap.clearMarkers l) in *.
  assert (Hstart : rebuilding (getActiveDrones s) (MapboxMap.constructed l)
                     (MapboxMap.told l0) l0).
  { split; [simpl; lia|]. split; [tauto|]. split; [constructor|discriminate]. }
  assert (Hinv := placeMarkers_invariant
            (rebuilding (getActiveDrones s) (MapboxMap.constructed l)
               (MapboxMap.told l0))
            current (getActiveDrones s)
            (fun drone a Hin Ha => placeMarker_rebuilding _ _ _ _ _ _ Hin Ha)
            l0 Hstart).
  assert (Hplaces := placeMarkers_places current (getActiveDrones s) l0).
  unfold getActiveDrones in *.
  set (l' := state_of (MapboxMap.placeMarkers current
                         (map_values (drones s)) l0)) in *.
  destruct Hinv as (Hbase & Hsaid & Hall & Hm).
  assert (Hold : forall k m,
             map_get k (MapboxMap.markersRef l) = Some m ->
             (MapboxMap.handle m < MapboxMap.constructed l)%nat).
  { intros k m. exact (map_get_Forall
       (fun m => (MapboxMap.handle m < MapboxMap.constructed l)%nat)
       _ _ _ Hknown). }
  assert (Hnew : forall k m',
             map_get k (MapboxMap.markersRef l') = Some m' ->
             (MapboxMap.constructed l <= MapboxMap.handle m'
              < MapboxMap.constructed l')%nat).
  { intros k m'. exact (map_get_Forall
       (fun m => (MapboxMap.constructed l <= MapboxMap.handle m
                  < MapboxMap.constructed l')%nat) _ _ _ Hall). }
  split; [split; [|split]|].
  - revert Hall. apply Forall_impl. intros kv. lia.
  - intros k m Hget. apply Hsaid. unfold l0; simpl.
    apply in_or_app. right.
    apply map_get_In in Hget as [k' Hin].
    apply in_map_iff. exists m. split; [reflexivity|].
    apply in_map_iff. now exists (k', m).
  - intros k m' Hget. split; [|split].
    + now destruct (Hnew k m' Hget).
    + intros k0 m Hget0 Heq. specialize (Hold k0 m Hget0).
      destruct (Hnew k m' Hget). lia.
    + exact (Hm k m' Hget).
  - intros Hret drone Hin Hun. specialize (Hplaces drone Hret Hin Hun).
    unfold map_has in Hplaces. fold l' in Hplaces.
    destruct (map_get (Drone.id drone) (MapboxMap.markersRef l')) as [m'|];
      [now exists m'|discriminate].
Qed.

(** A run over the store with the one drone, selected, on the layer that
    holds the markers of five drones. *)
Lemma C8_run_on_five_markers :
  MapboxMap.hasMap five_markers = true
  /\ MapboxMap.mapLoaded five_markers = true
  /\ known_handles five_markers
  /\ rebuilds one_drone five_markers
       (state_of (MapboxMap.updateMarkers one_drone (VString "d1")
                    five_markers))
  /\ (returned (MapboxMap.updateMarkers one_drone (VString "d1") five_markers)
      = true ->
      covers one_drone
        (state_of (MapboxMap.updateMarkers one_drone (VString "d1")
                     five_markers))).
Proof.
  assert (Hknown : known_handles five_markers).
  { unfold known_handles. vm_compute. repeat constructor. }
  split; [reflexivity|]. split; [reflexivity|]. split; [exact Hknown|].
  apply (C8_markers_are_rebuilt one_drone (VString "d1") five_markers);
    [reflexivity|reflexivity|exact Hknown].
Defined.

(** This run: the five markers, with the handles 0 to 4, are removed, and
    one marker, with the handle 5, is put on the map and kept track of. *)
Example run_on_five_markers :
  tracked five_markers = [0; 1; 2; 3; 4]%nat
  /\ firstn 5 (skipn 5 (MapboxMap.told
                          (state_of (MapboxMap.updateMarkers one_drone
                                       (VString "d1") five_markers))))
     = List.map MapboxMap.Remove [0; 1; 2; 3; 4]%nat
  /\ tracked (state_of (MapboxMap.updateMarkers one_drone (VString "d1")
                          five_markers)) = [5%nat]
  /\ on_map (MapboxMap.told
               (state_of (MapboxMap.updateMarkers one_drone (VString "d1")
                            five_markers))) = [5%nat].
Proof. repeat split. Qed.

(** A drone on the equator: its latitude [0] is falsy, so the effect builds
    no marker for it. *)
Example no_marker_on_the_equator :
  exists s l,
    updateDrones 1000 (VArray 0 [report 1 "d1" 0 2 10]) initial = Returned s
    /\ MapboxMap.updateMarkers s VNull MapboxMap.blank = Returned l
    /\ MapboxMap.markersRef l = [].
Proof. do 2 eexists. repeat split. Qed.

(** A run that throws, over three drones of which the second one has a
    number as its status: the markers of the prior layer are removed all
    the same, the first drone has its marker, and neither the second nor
    the third has one, though each has a position to show. *)
Example run_stopped_by_a_status :
  let s := state_of (updateDrones 1000
                       (VArray 0 [report 3 "d0" 1 2 10; numbered;
                                  report 5 "d2" 1 3 10]) initial) in
  let o := MapboxMap.updateMarkers s VNull five_markers in
  List.map MapboxMap.unplaced (getActiveDrones s) = [false; false; false]
  /\ returned o = false
  /\ keys (MapboxMap.markersRef (state_of o)) = [VString "d0"]
  /\ firstn 5 (skipn 5 (MapboxMap.told (state_of o)))
     = List.map MapboxMap.Remove [0; 1; 2; 3; 4]%nat.
Proof. repeat split. Qed.

(** ** What a batch leaves alone, and what it adds *)

(** A call of [updateDrones], returned or thrown, changes neither the
    entity nor the path of a key that no report of the batch resolves
    to. *)
Theorem updateDrones_other_keys (currentTime : Z) (data : value) (s : store)
    (k : value) :
  (forall reports, reports_of data = Ok reports -> absent_from k reports) ->
  getDroneById k (state_of (updateDrones currentTime data s))
  = getDroneById k s
  /\ getDronePath k (state_of (updateDrones currentTime data s))
     = getDronePath k s.
Proof.
  intros Habsent. unfold updateDrones, getDroneById, getDronePath, path_or_empty.
  destruct (reports_of data) as [reports|]; [|now split].
  destruct (forEach_untouched currentTime k reports
              (loop_start s) (Habsent reports eq_refl))
    as (H1 & H2 & H3).
  destruct (forEach currentTime reports _) as [st|st]; simpl in *.
  - now rewrite H1, H2.
  - now rewrite H3.
Qed.

(** Drone ["d2"] of the store of five, when a batch for ["d1"] arrives. *)
Lemma d2_is_left_alone :
  (forall reports,
      reports_of (VArray 0 [report 1 "d1" 1.5 2.5 10]) = Ok reports ->
      absent_from (VString "d2") reports)
  /\ getDroneById (VString "d2")
       (state_of (updateDrones 2000 (VArray 0 [report 1 "d1" 1.5 2.5 10])
                    five_drones))
     = getDroneById (VString "d2") five_drones.
Proof.
  assert (H : forall reports,
             reports_of (VArray 0 [report 1 "d1" 1.5 2.5 10]) = Ok reports ->
             absent_from (VString "d2") reports).
  { intros reports [= <-] drone [<-|[]]. reflexivity. }
  split; [exact H|].
  apply (updateDrones_other_keys 2000 (VArray 0 [report 1 "d1" 1.5 2.5 10])
           five_drones (VString "d2") H).
Defined.

Lemma write_report_keys (currentTime : Z) (drone : value) (position : place)
    (data : Drone.t) (st : batch) :
  (exists added,
      keys (newDrones (write_report currentTime drone position data st))
      = keys (newDrones st) ++ added
      /\ Forall (eq (map_key (droneId_of drone))) added)
  /\ (exists added,
         keys (newPaths (write_report currentTime drone position data st))
         = keys (newPaths st) ++ added
         /\ Forall (eq (map_key (droneId_of drone))) added)
  /\ keys (storePaths (write_report currentTime drone position data st))
     = keys (storePaths st).
Proof.
  unfold write_report; simpl. rewrite !map_set_keys. repeat split.
  - eexists. split; [reflexivity|].
    destruct (map_has _ (newDrones st)); repeat constructor.
  - eexists. split; [reflexivity|].
    destruct (map_has _ (newPaths st)); repeat constructor.
  - destruct (map_has (droneId_of drone) (storePaths st)) eqn:H;
      [|reflexivity].
    now rewrite map_set_keys, H, app_nil_r.
Qed.

(** [updateDrones] never deletes an entry and never reorders the entries
    it has: the keys of the entities and of the paths before the call are
    an initial segment of the keys after it, and every key that was added
    is the id of a report of the batch, as a [Map] keeps it ([-0] as
    [+0]).  A call that throws adds none. *)
Theorem updateDrones_keeps_keys (currentTime : Z) (data : value) (s : store) :
  (exists added,
      keys (drones (state_of (updateDrones currentTime data s)))
      = keys (drones s) ++ added
      /\ Forall (reported data) added)
  /\ (exists added,
         keys (dronePaths (state_of (updateDrones currentTime data s)))
         = keys (dronePaths s) ++ added
         /\ Forall (reported data) added)
  /\ (returned (updateDrones currentTime data s) = false ->
      keys (drones (state_of (updateDrones currentTime data s)))
      = keys (drones s)
      /\ keys (dronePaths (state_of (updateDrones currentTime data s)))
         = keys (dronePaths s)).
Proof.
  unfold updateDrones.
  destruct (reports_of data) as [reports|] eqn:Hdata.
  2:{ repeat split; try (exists []; now rewrite app_nil_r). }
  assert (Hinv := forEach_invariant
    (fun st =>
       (exists added, keys (newDrones st) = keys (drones s) ++ added
                      /\ Forall (reported data) added)
       /\ (exists added, keys (newPaths st) = keys (dronePaths s) ++ added
                         /\ Forall (reported data) added)
       /\ keys (storePaths st) = keys (dronePaths s))
    currentTime reports).
  match type of Hinv with ?A -> _ => assert (Hstep : A) end.
  { intros drone position entity st Hin _ _
           ((a1 & E1 & F1) & (a2 & E2 & F2) & E3).
    destruct (write_report_keys currentTime drone position entity st)
      as ((b1 & G1 & K1) & (b2 & G2 & K2) & G3).
    assert (Hrep : forall b, Forall (eq (map_key (droneId_of drone))) b ->
                             Forall (reported data) b).
    { intros b. apply Forall_impl. intros k <-. now exists reports, drone. }
    repeat split.
    - exists (a1 ++ b1). rewrite G1, E1, app_assoc. split; [reflexivity|].
      apply Forall_app. auto.
    - exists (a2 ++ b2). rewrite G2, E2, app_assoc. split; [reflexivity|].
      apply Forall_app. auto.
    - now rewrite G3. }
  specialize (Hinv Hstep (loop_start s)).
  match type of Hinv with ?A -> _ => assert (Hstart : A) end.
  { repeat split; try (exists []; now rewrite app_nil_r). }
  specialize (Hinv Hstart). destruct Hinv as (H1 & H2 & H3).
  destruct (forEach currentTime reports _) as [st|st]; simpl in *.
  - repeat split; [exact H1|exact H2|discriminate|discriminate].
  - repeat split; try (exists []; now rewrite app_nil_r); assumption.
Qed.

(** ** The last report of a key wins *)

Lemma last_report_applied (currentTime : Z) (data : value) (s s' : store)
    (before after : list value) (drone : value) :
  updateDrones currentTime data s = Returned s' ->
  reports_of data = Ok (before ++ drone :: after) ->
  absent_from (droneId_of drone) after ->
  exists position existing entity earlier,
    position_of drone = Ok position
    /\ droneData currentTime drone (droneId_of drone) position existing
       = Ok entity
    /\ getDroneById (droneId_of drone) s' = Some entity
    /\ getDronePath (droneId_of drone) s'
       = earlier ++ [sample_of currentTime position].
Proof.
  unfold updateDrones. intros Hcall Hdata Habsent. rewrite Hdata in Hcall.
  destruct (forEach currentTime (before ++ drone :: after) (loop_start s))
    as [stf|stf] eqn:Hloop; [|discriminate].
  injection Hcall as <-.
  destruct (forEach_split _ _ _ _ _ _ Hloop)
    as (st1 & position & entity & _ & Hp & Hd & _ & Hrest).
  destruct (forEach_untouched currentTime (droneId_of drone) after
              (write_report currentTime drone position entity st1) Habsent)
    as (H1 & H2 & _).
  rewrite Hrest in H1, H2. cbn [state_of] in H1, H2.
  destruct (push_sample_last
              (path_or_empty (droneId_of drone) (newPaths st1))
              (sample_of currentTime position)) as [earlier Hlast].
  exists position, (map_get (droneId_of drone) (newDrones st1)), entity,
    earlier.
  split; [exact Hp|]. split; [exact Hd|].
  unfold getDroneById, getDronePath; simpl. split.
  - now rewrite H1, write_report_drones, same_value_zero_refl.
  - unfold path_or_empty at 1. rewrite H2.
    fold (path_or_empty (droneId_of drone)
            (newPaths (write_report currentTime drone position entity st1))).
    now rewrite write_report_paths, same_value_zero_refl.
Qed.

(** When a call returns, the entity under a key is the [droneData] of the
    last report of the batch that resolves to it: every field but the first
    sighting and the flight time comes from that report alone, fields of
    earlier reports or of the earlier entity are not merged in; and the path
    under the key ends with the sample of that report. *)
Theorem last_report_wins (currentTime : Z) (data : value) (s s' : store)
    (before after : list value) (drone : value) :
  updateDrones currentTime data s = Returned s' ->
  reports_of data = Ok (before ++ drone :: after) ->
  absent_from (droneId_of drone) after ->
  exists position existing entity earlier,
    position_of drone = Ok position
    /\ droneData currentTime drone (droneId_of drone) position existing
       = Ok entity
    /\ getDroneById (droneId_of drone) s' = Some entity
    /\ getDronePath (droneId_of drone) s'
       = earlier ++ [sample_of currentTime position].
Proof. apply last_report_applied. Qed.

(** Drone ["d1"] reports a battery of 50 and then, in the same batch,
    reports again without one. *)
Lemma second_report_of_d1_wins :
  updateDrones 1000 (VArray 0 [charged; report 1 "d1" 1.5 2.5 10]) initial
  = Returned (state_of (updateDrones 1000
                          (VArray 0 [charged; report 1 "d1" 1.5 2.5 10])
                          initial))
  /\ exists position existing entity earlier,
       position_of (report 1 "d1" 1.5 2.5 10) = Ok position
       /\ droneData 1000 (report 1 "d1" 1.5 2.5 10)
            (droneId_of (report 1 "d1" 1.5 2.5 10)) position existing
          = Ok entity
       /\ getDroneById (droneId_of (report 1 "d1" 1.5 2.5 10))
            (state_of (updateDrones 1000
                         (VArray 0 [charged; report 1 "d1" 1.5 2.5 10])
                         initial))
          = Some entity
       /\ getDronePath (droneId_of (report 1 "d1" 1.5 2.5 10))
            (state_of (updateDrones 1000
                         (VArray 0 [charged; report 1 "d1" 1.5 2.5 10])
                         initial))
          = earlier ++ [sample_of 1000 position].
Proof.
  split; [reflexivity|].
  apply (last_report_wins 1000
           (VArray 0 [charged; report 1 "d1" 1.5 2.5 10]) initial _
           [charged] [] (report 1 "d1" 1.5 2.5 10));
    [reflexivity|reflexivity|intros drone []].
Defined.

Example battery_is_not_carried_over :
  option_map Drone.battery
    (getDroneById (VString "d1")
       (run [(1000, VArray 0 [charged]);
             (2000, VArray 0 [report 1 "d1" 1.5 2.5 10])] initial))
  = Some (num 100).
Proof. reflexivity. Qed.

(** ** Features *)

(** A report without a truthy [position] is read as a feature.  When the
    call returns and the report is the last one of its key, the entity has
    the second coordinate as latitude and the first as longitude; its
    altitude is the third coordinate or, when that is falsy, the altitude
    among the properties, or else [0]; and the path ends with the sample
    [[lng, lat, altitude]] of these values. *)
Theorem feature_is_stored (currentTime : Z) (data : value) (s s' : store)
    (before after : list value) (drone : value) :
  updateDrones currentTime data s = Returned s' ->
  reports_of data = Ok (before ++ drone :: after) ->
  absent_from (droneId_of drone) after ->
  truthy drone.["position"] = false ->
  nullish drone.["geometry"] = false ->
  exists entity earlier,
    getDroneById (droneId_of drone) s' = Some entity
    /\ Drone.latitude entity = element drone.["geometry"].["coordinates"] 1
    /\ Drone.longitude entity = element drone.["geometry"].["coordinates"] 0
    /\ Drone.altitude entity
       = js_or (js_or (element drone.["geometry"].["coordinates"] 2)
                      (opt_prop drone.["properties"] "altitude"))
               (num 0)
    /\ getDronePath (droneId_of drone) s'
       = earlier
         ++ [{| Sample.coordinates :=
                  [element drone.["geometry"].["coordinates"] 0;
                   element drone.["geometry"].["coordinates"] 1;
                   js_or (element drone.["geometry"].["coordinates"] 2)
                         (opt_prop drone.["properties"] "altitude")];
                Sample.timestamp := currentTime |}].
Proof.
  intros Hcall Hdata Habsent Hpos Hgeo.
  destruct (last_report_applied _ _ _ _ _ _ _ Hcall Hdata Habsent)
    as (position & existing & entity & earlier & Hp & Hd & Hget & Hpath).
  unfold position_of, geometry_coordinate, get_index in Hp.
  rewrite Hpos, Hgeo in Hp.
  destruct (nullish drone.["geometry"].["coordinates"]); [discriminate|].
  simpl in Hp. injection Hp as <-.
  apply droneData_fields in Hd.
  destruct Hd as (_ & _ & _ & _ & _ & Hlat & Hlng & Halt & _).
  exists entity, earlier. split; [exact Hget|].
  split; [exact Hlat|]. split; [exact Hlng|]. split; [exact Halt|].
  exact Hpath.
Qed.

(** The feature collection with the one feature, on the initial store. *)
Lemma feature_of_the_generator :
  updateDrones 1000 collection initial
  = Returned (state_of (updateDrones 1000 collection initial))
  /\ option_map
       (fun e => (Drone.id e, Drone.latitude e, Drone.longitude e,
                  Drone.altitude e, Drone.color e))
       (getDroneById (VString "DRONE_1")
          (state_of (updateDrones 1000 collection initial)))
     = Some (VString "DRONE_1", num 31.5, num 36.5, num 120, VString "green")
  /\ exists entity earlier,
       getDroneById (droneId_of feature)
         (state_of (updateDrones 1000 collection initial)) = Some entity
       /\ Drone.latitude entity = element feature.["geometry"].["coordinates"] 1
       /\ Drone.longitude entity = element feature.["geometry"].["coordinates"] 0
       /\ Drone.altitude entity
          = js_or (js_or (element feature.["geometry"].["coordinates"] 2)
                         (opt_prop feature.["properties"] "altitude"))
                  (num 0)
       /\ getDronePath (droneId_of feature)
            (state_of (updateDrones 1000 collection initial))
          = earlier
            ++ [{| Sample.coordinates :=
                     [element feature.["geometry"].["coordinates"] 0;
                      element feature.["geometry"].["coordinates"] 1;
                      js_or (element feature.["geometry"].["coordinates"] 2)
                            (opt_prop feature.["properties"] "altitude")];
                   Sample.timestamp := 1000 |}].
Proof.
  split; [reflexivity|]. split; [reflexivity|].
  apply (feature_is_stored 1000 collection initial _ [] [] feature);
    [reflexivity|reflexivity|intros drone []|reflexivity|reflexivity].
Defined.

(** ** The shapes of a batch *)

(** [updateDrones] on data that is no batch.  On [undefined] and [null]
    it throws and the store is as before.  On data that is not an array and
    has a truthy [features] that is not an array it throws as well.  On an
    empty array, and on data that is not an array and has no truthy
    [features], it returns: entities and paths are as before, and the time
    of the last batch is the clock reading of this call. *)
Theorem updateDrones_without_reports (currentTime : Z) (data : value)
    (s : store) :
  (nullish data = true -> updateDrones currentTime data s = Threw s)
  /\ (is_array data = false ->
      truthy data.["features"] = true ->
      is_array data.["features"] = false ->
      updateDrones currentTime data s = Threw s)
  /\ ((exists ref, data = VArray ref [])
      \/ (is_array data = false /\ nullish data = false
          /\ truthy data.["features"] = false) ->
      updateDrones currentTime data s
      = Returned {| drones := drones s;
                    dronePaths := dronePaths s;
                    selectedDroneId := selectedDroneId s;
                    isConnected := isConnected s;
                    lastUpdate := Some currentTime |}).
Proof.
  unfold updateDrones, reports_of, get_prop. repeat split.
  - destruct data; try discriminate; reflexivity.
  - intros Harr Hf Hfa.
    destruct data; try discriminate Harr; try discriminate Hf; simpl in *.
    rewrite Hf. destruct (assoc "features" props); try discriminate; reflexivity.
  - intros [[ref ->]|(Harr & Hnull & Hf)]; [reflexivity|].
    destruct data; try discriminate; simpl in *; try reflexivity.
    now rewrite Hf.
Qed.

Example batch_shapes :
  updateDrones 2000 VUndefined one_drone = Threw one_drone
  /\ updateDrones 2000 (VObject 0 [("features"%string, VString "none")])
       one_drone = Threw one_drone
  /\ drones (state_of (updateDrones 2000 (VObject 0 []) one_drone))
     = drones one_drone
  /\ lastUpdate (state_of (updateDrones 2000 (VObject 0 []) one_drone))
     = Some 2000.
Proof. repeat split. Qed.

(** ** The store along a history *)

Lemma map_get_keyed {V : Type} (P : value -> V -> Prop) (k : value) (v : V)
    (m : jsmap V) :
  Forall (fun kv => P (fst kv) (snd kv)) m ->
  map_get k m = Some v ->
  exists k', same_value_zero k' k = true /\ P k' v.
Proof.
  induction 1 as [|[k0 v0] rest H0 Hrest IH]; simpl; [discriminate|].
  destruct (same_value_zero k0 k) eqn:Hk.
  - intros [= <-]. now exists k0.
  - exact IH.
Qed.

Lemma push_sample_not_empty (path : list Sample.t) (x : Sample.t) :
  push_sample path x <> [].
Proof.
  destruct (push_sample_last path x) as [earlier ->].
  now destruct earlier.
Qed.

(** The loop invariant behind [consistent]; [before] is the store's
    [dronePaths] when the call began. *)
Lemma write_report_consistent (before : jsmap (list Sample.t))
    (currentTime : Z) (drone : value) (position : place) (data : Drone.t)
    (st : batch) :
  Drone.id data = droneId_of drone ->
  (distinct_keys (newDrones st)
   /\ distinct_keys (newPaths st)
   /\ distinct_keys (storePaths st)
   /\ Forall (fun kv => same_value_zero (fst kv) (Drone.id (snd kv)) = true)
             (newDrones st)
   /\ (forall k, map_has k (newDrones st) = map_has k (newPaths st))
   /\ (forall k, map_has k (storePaths st) = map_has k before)
   /\ Forall (fun kv => snd kv <> []) (newPaths st)
   /\ Forall (fun kv => snd kv <> []) (storePaths st)) ->
  let st' := write_report currentTime drone position data st in
  distinct_keys (newDrones st')
  /\ distinct_keys (newPaths st')
  /\ distinct_keys (storePaths st')
  /\ Forall (fun kv => same_value_zero (fst kv) (Drone.id (snd kv)) = true)
            (newDrones st')
  /\ (forall k, map_has k (newDrones st') = map_has k (newPaths st'))
  /\ (forall k, map_has k (storePaths st') = map_has k before)
  /\ Forall (fun kv => snd kv <> []) (newPaths st')
  /\ Forall (fun kv => snd kv <> []) (storePaths st').
Proof.
  intros Hid (D1 & D2 & D3 & K & H12 & H3 & N2 & N3).
  unfold write_report; simpl.
  split; [now apply map_set_distinct|].
  split; [now apply map_set_distinct|].
  split; [destruct (map_has _ (storePaths st)); [now apply map_set_distinct|
                                                  exact D3]|].
  split.
  { apply (map_set_Forall_keyed
             (fun k e => same_value_zero k (Drone.id e) = true));
      [exact K|]. intros k' Hk'. now rewrite Hid. }
  split; [intros k; now rewrite !map_has_set, H12|].
  split.
  { intros k. destruct (map_has (droneId_of drone) (storePaths st)) eqn:Hhas;
      [|apply H3].
    rewrite map_has_set.
    destruct (same_value_zero (droneId_of drone) k) eqn:Hk; [|apply H3].
    now rewrite <- H3, <- (map_has_congr _ _ _ Hk), Hhas. }
  split.
  { apply (map_set_Forall (fun p => p <> [])); [exact N2|].
    apply push_sample_not_empty. }
  destruct (map_has _ (storePaths st)); [|exact N3].
  apply (map_set_Forall (fun p => p <> [])); [exact N3|].
  apply push_sample_not_empty.
Qed.

Lemma updateDrones_consistent (currentTime : Z) (data : value) (s : store) :
  consistent s -> consistent (state_of (updateDrones currentTime data s)).
Proof.
  intros (D1 & D2 & K & H & N). unfold updateDrones.
  destruct (reports_of data) as [reports|]; [|now repeat split].
  assert (Hinv := forEach_invariant _ currentTime reports
            (fun drone position entity st _ _ Hd =>
               write_report_consistent (dronePaths s) currentTime drone
                 position entity st
                 (proj1 (proj2 (droneData_fields _ _ _ _ _ _ Hd))))
            (loop_start s)).
  destruct Hinv as (E1 & E2 & E3 & EK & E12 & E3' & EN2 & EN3);
    [now repeat split|].
  destruct (forEach currentTime reports _) as [st|st]; simpl in *.
  - now repeat split.
  - repeat split; try assumption. intros k. now rewrite E3', H.
Qed.

Lemma run_consistent (history : list (Z * value)) :
  consistent (run history initial).
Proof.
  assert (H0 : consistent initial) by (repeat split; try constructor).
  revert H0. generalize initial.
  induction history as [|call rest IH]; intros s Hs; simpl; [exact Hs|].
  apply IH. now apply updateDrones_consistent.
Qed.

Lemma consistent_id (s : store) (k : value) (entity : Drone.t) :
  consistent s ->
  getDroneById k s = Some entity ->
  same_value_zero k (Drone.id entity) = true.
Proof.
  intros (_ & _ & K & _) Hget.
  destruct (map_get_keyed
              (fun k e => same_value_zero k (Drone.id e) = true)
              _ _ _ K Hget) as (k' & Hk' & Hid).
  now rewrite <- (same_value_zero_congr _ _ _ Hk').
Qed.

(** Every store reached from the initial one by a history of calls,
    returned or thrown, is consistent: no two entities and no two paths
    share a key, the entity found under a key has that key as its [id], an
    entity is there exactly when a path is, and that path is not empty. *)
Theorem store_is_consistent (history : list (Z * value)) (k : value) :
  consistent (run history initial)
  /\ (forall entity,
         getDroneById k (run history initial) = Some entity ->
         same_value_zero k (Drone.id entity) = true)
  /\ (getDroneById k (run history initial) = None
      <-> getDronePath k (run history initial) = []).
Proof.
  assert (Hc := run_consistent history).
  split; [exact Hc|]. split; [intros entity; now apply consistent_id|].
  destruct Hc as (_ & _ & K & H & N).
  unfold getDroneById, getDronePath, path_or_empty.
  specialize (H k). unfold map_has in H.
  destruct (map_get k (drones (run history initial))),
           (map_get k (dronePaths (run history initial))) as [p|] eqn:Hp;
    try discriminate H; split; try discriminate; try reflexivity.
  intros ->. exfalso.
  exact (map_get_Forall (fun p => p <> []) _ _ _ N Hp eq_refl).
Qed.

Lemma run_entities (Q : value -> Prop) (P : Drone.t -> Prop) :
  (forall currentTime drone droneId position existing entity,
      Q drone ->
      droneData currentTime drone droneId position existing = Ok entity ->
      P entity) ->
  forall history s,
    reports_all Q history ->
    Forall (fun kv => P (snd kv)) (drones s) ->
    Forall (fun kv => P (snd kv)) (drones (run history s)).
Proof.
  intros Hdata history.
  induction history as [|[t data] rest IH]; intros s Hall Hs; simpl;
    [exact Hs|].
  apply IH.
  - intros call reports drone Hin. apply Hall. now right.
  - unfold updateDrones.
    destruct (reports_of data) as [reports|] eqn:Hr; [|exact Hs].
    assert (Hinv := forEach_invariant
              (fun st => Forall (fun kv => P (snd kv)) (newDrones st))
              t reports).
    match type of Hinv with ?A -> _ => assert (Hstep : A) end.
    { intros drone position entity st Hin _ Hd Hst. unfold write_report; simpl.
      apply (map_set_Forall P); [exact Hst|].
      apply (Hdata _ _ _ _ _ _
               (Hall (t, data) reports drone (or_introl eq_refl) Hr Hin) Hd). }
    specialize (Hinv Hstep (loop_start s) Hs).
    destruct (forEach t reports _); simpl in *; assumption.
Qed.

(** ** Counting by colour *)

Lemma filter_disjoint {A : Type} (p q : A -> bool) (l : list A) :
  (forall x, p x && q x = false) ->
  (List.length (filter p l) + List.length (filter q l) <= List.length l)%nat
  /\ (Forall (fun x => p x || q x = true) l ->
      (List.length (filter p l) + List.length (filter q l))%nat
      = List.length l).
Proof.
  intros Hpq. induction l as [|x l [IHle IHeq]]; simpl.
  - split; [lia|reflexivity].
  - specialize (Hpq x). split.
    + destruct (p x), (q x); simpl in *; try discriminate; lia.
    + intros Hall. inversion Hall as [|? ? Hx Hl]; subst.
      specialize (IHeq Hl).
      destruct (p x), (q x); simpl in *; try discriminate; lia.
Qed.

Lemma red_is_not_green (drone : Drone.t) : is_red drone && is_green drone = false.
Proof.
  unfold is_red, is_green.
  destruct (Drone.color drone) as [| |b|n|c|r p|r i]; try reflexivity.
  - now destruct n.
  - simpl. destruct (String.eqb_spec c "red") as [->|]; reflexivity.
Qed.

Lemma filter_none {A : Type} (p : A -> bool) (l : list A) :
  List.length (filter p l) = 0%nat <-> Forall (fun x => p x = false) l.
Proof.
  induction l as [|x l IH]; simpl.
  - split; [constructor|reflexivity].
  - destruct (p x) eqn:Hx; simpl; split.
    + discriminate.
    + intros H. inversion H; congruence.
    + intros H. constructor; [exact Hx|now apply IH].
    + intros H. inversion H. now apply IH.
Qed.

Lemma filter_all {A : Type} (p : A -> bool) (l : list A) :
  Forall (fun x => p x = true) l -> filter p l = l.
Proof.
  induction 1 as [|x l Hx Hl IH]; simpl; [reflexivity|].
  now rewrite Hx, IH.
Qed.

Lemma forallb_false {A : Type} (f : A -> bool) (l : list A) :
  forallb f l = false <-> exists x, In x l /\ f x = false.
Proof.
  induction l as [|x rest IH]; simpl.
  - split; [discriminate|]. intros (x & [] & _).
  - destruct (f x) eqn:Hx; simpl.
    + rewrite IH. split.
      * intros (y & Hin & Hy). exists y. split; [now right|exact Hy].
      * intros (y & [<-|Hin] & Hy); [congruence|now exists y].
    + split; [|reflexivity]. intros _. exists x. split; [now left|exact Hx].
Qed.

Section Counts.
Variables (js_add js_div : value -> value -> value).
Variables (math_max math_min : list value -> value).

Lemma reduce_add_returns (altitudes : list value) :
  forall a,
    (exists sum, reduce_add js_add altitudes a = Ok sum)
    <-> forallb convertible altitudes = true.
Proof.
  induction altitudes as [|b rest IH]; intros a; simpl.
  - split; eauto.
  - unfold converted. destruct (convertible b); simpl; [apply IH|].
    split; [intros [sum H]|]; discriminate.
Qed.

Lemma all_converted_returns (altitudes : list value) :
  (exists numbers, all_converted altitudes = Ok numbers)
  <-> forallb convertible altitudes = true.
Proof.
  induction altitudes as [|b rest IH]; simpl.
  - split; eauto.
  - unfold converted. destruct (convertible b); simpl.
    + rewrite <- IH. destruct (all_converted rest) as [numbers|]; simpl.
      * split; eauto.
      * split; intros [numbers H]; discriminate.
    + split; [intros [numbers H]|]; discriminate.
Qed.

(** [getStatistics] throws exactly when the altitude of some entity has no
    primitive value. *)
Lemma getStatistics_throws (s : store) :
  getStatistics js_add js_div math_max math_min s = TypeError
  <-> exists drone,
        In drone (getActiveDrones s)
        /\ convertible (Drone.altitude drone) = false.
Proof.
  unfold getStatistics, getActiveDrones.
  destruct (map_values (drones s)) as [|d all] eqn:Hall.
  { simpl. split; [discriminate|]. intros (drone & [] & _). }
  cbn [List.length Nat.eqb].
  set (altitudes := List.map Drone.altitude (d :: all)).
  assert (Hbad : forallb convertible altitudes = false
                 <-> exists drone,
                       In drone (d :: all)
                       /\ convertible (Drone.altitude drone) = false).
  { unfold altitudes. rewrite forallb_false. split.
    - intros (b & Hin & Hb). apply in_map_iff in Hin as (drone & <- & Hin).
      now exists drone.
    - intros (drone & Hin & Hc). exists (Drone.altitude drone).
      split; [now apply in_map|exact Hc]. }
  rewrite <- Hbad.
  assert (Hsum := reduce_add_returns altitudes (num 0)).
  assert (Hmax := all_converted_returns altitudes).
  destruct (forallb convertible altitudes).
  - destruct (proj2 Hsum eq_refl) as [sum ->].
    destruct (proj2 Hmax eq_refl) as [numbers ->]. simpl.
    split; discriminate.
  - destruct (reduce_add js_add altitudes (num 0)) as [sum|]; simpl.
    + destruct Hsum as [Hsum _]. discriminate Hsum. now exists sum.
    + split; reflexivity.
Qed.

Lemma counts_of_statistics (s : store) (stats : Statistics.t) :
  getStatistics js_add js_div math_max math_min s = Ok (Some stats) ->
  Statistics.totalDrones stats = List.length (getActiveDrones s)
  /\ Statistics.redDrones stats = getRedDronesCount s
  /\ (Statistics.redDrones stats + Statistics.greenDrones stats
      <= Statistics.totalDrones stats)%nat
  /\ (Forall (fun d => is_red d || is_green d = true) (getActiveDrones s) ->
      (Statistics.redDrones stats + Statistics.greenDrones stats)%nat
      = Statistics.totalDrones stats).
Proof.
  unfold getStatistics, getRedDronesCount, getActiveDrones.
  destruct (map_values (drones s)) as [|d all] eqn:Hall; [discriminate|].
  cbn [List.length Nat.eqb].
  destruct (reduce_add _ _ _) as [sum|]; [|discriminate].
  destruct (all_converted _) as [numbers|]; [|discriminate].
  simpl. intros [= <-].
  cbn [Statistics.totalDrones Statistics.redDrones Statistics.greenDrones].
  destruct (filter_disjoint is_red is_green (d :: all) red_is_not_green)
    as [Hle Heq].
  repeat split; assumption.
Qed.

(** [getStatistics], store by store.  On the store without entities, and
    on no other, it returns [null].  It throws exactly when the altitude of
    some entity has no primitive value.  When it returns an object,
    [totalDrones] is the number of entities and [redDrones] is what
    [getRedDronesCount] returns; red and green drones together are at most
    all drones, and are all drones when every entity is red or green. *)
Theorem statistics_counts (s : store) :
  (getStatistics js_add js_div math_max math_min s = Ok None
   <-> getActiveDrones s = [])
  /\ (getStatistics js_add js_div math_max math_min s = TypeError
      <-> exists drone,
            In drone (getActiveDrones s)
            /\ convertible (Drone.altitude drone) = false)
  /\ (forall stats,
         getStatistics js_add js_div math_max math_min s = Ok (Some stats) ->
         Statistics.totalDrones stats = List.length (getActiveDrones s)
         /\ Statistics.redDrones stats = getRedDronesCount s
         /\ (Statistics.redDrones stats + Statistics.greenDrones stats
             <= Statistics.totalDrones stats)%nat
         /\ (Forall (fun d => is_red d || is_green d = true)
                    (getActiveDrones s) ->
             (Statistics.redDrones stats + Statistics.greenDrones stats)%nat
             = Statistics.totalDrones stats)).
Proof.
  split; [|split].
  - rewrite getStatistics_null_iff. unfold getActiveDrones, map_values.
    destruct (drones s); split; try reflexivity; discriminate.
  - apply getStatistics_throws.
  - apply counts_of_statistics.
Qed.
End Counts.

(** An entity whose altitude is an object that has no primitive value:
    the sum of the altitudes throws. *)
Example statistics_throw_on_an_altitude :
  getStatistics (fun a _ => a) (fun a _ => a)
    (fun _ => VUndefined) (fun _ => VUndefined)
    (state_of
       (updateDrones 1000
          (VArray 0
             [VObject 1
                [("id"%string, VString "d1");
                 ("position"%string,
                  VObject 2
                    [("lat"%string, num 1); ("lng"%string, num 2);
                     ("altitude"%string,
                      VObject 3 [("toString"%string, num 1)])])]])
          initial))
  = TypeError.
Proof. reflexivity. Qed.

Lemma uncoloured_is_classified (currentTime : Z) (drone droneId : value)
    (position : place) (existing : option Drone.t) (entity : Drone.t) :
  uncoloured drone ->
  droneData currentTime drone droneId position existing = Ok entity ->
  is_red entity || is_green entity = true.
Proof.
  intros H Hd. apply droneData_fields in Hd.
  destruct Hd as (_ & _ & _ & Hc & _).
  unfold is_red, is_green. rewrite Hc, (color_of_without_color _ H).
  destruct (getColor_red_or_green (registration_of drone)) as [-> | ->];
    reflexivity.
Qed.

(** When no report of a history names a colour, every entity is red or
    green, so the red and the green drones of [getStatistics] are all the
    drones. *)
Theorem uncoloured_history_is_classified
    (js_add js_div : value -> value -> value)
    (math_max math_min : list value -> value) (history : list (Z * value)) :
  reports_all uncoloured history ->
  Forall (fun d => is_red d || is_green d = true)
         (getActiveDrones (run history initial))
  /\ (forall stats,
         getStatistics js_add js_div math_max math_min (run history initial)
         = Ok (Some stats) ->
         (Statistics.redDrones stats + Statistics.greenDrones stats)%nat
         = Statistics.totalDrones stats)
  /\ (getStatistics js_add js_div math_max math_min (run history initial)
      = Ok None ->
      getActiveDrones (run history initial) = []).
Proof.
  intros Hall.
  assert (H : Forall (fun d => is_red d || is_green d = true)
                     (getActiveDrones (run history initial))).
  { unfold getActiveDrones, map_values. apply Forall_map.
    apply (run_entities uncoloured
             (fun d => is_red d || is_green d = true));
      [intros; eapply uncoloured_is_classified; eassumption
      |exact Hall|constructor]. }
  split; [exact H|]. split.
  - intros stats Hs.
    destruct (counts_of_statistics _ _ _ _ _ _ Hs) as (_ & _ & _ & Heq).
    now apply Heq.
  - intros Hs. apply getStatistics_null_iff in Hs.
    unfold getActiveDrones. now rewrite Hs.
Qed.

Lemma five_reports_are_unauthorized :
  reports_all unauthorized [(1000, VArray 0 five_reports)].
Proof.
  intros call reports drone [<-|[]] [= <-] Hin. simpl in Hin.
  repeat (destruct Hin as [<-|Hin]; [now split|]). destruct Hin.
Qed.

(** The batch of five: none of its reports names a colour. *)
Lemma five_reports_are_classified :
  reports_all uncoloured [(1000, VArray 0 five_reports)]
  /\ (forall stats,
         getStatistics (fun a _ => a) (fun a _ => a)
           (fun _ => VUndefined) (fun _ => VUndefined)
           (run [(1000, VArray 0 five_reports)] initial)
         = Ok (Some stats) ->
         (Statistics.redDrones stats + Statistics.greenDrones stats)%nat
         = Statistics.totalDrones stats)
  /\ (getStatistics (fun a _ => a) (fun a _ => a)
        (fun _ => VUndefined) (fun _ => VUndefined)
        (run [(1000, VArray 0 five_reports)] initial)
      = Ok None ->
      getActiveDrones (run [(1000, VArray 0 five_reports)] initial) = []).
Proof.
  assert (H : reports_all uncoloured [(1000, VArray 0 five_reports)]).
  { intros call reports drone Hc Hr Hin.
    exact (proj1 (five_reports_are_unauthorized call reports drone Hc Hr Hin)). }
  split; [exact H|].
  exact (proj2 (uncoloured_history_is_classified _ _ _ _ _ H)).
Defined.

Example statistics_of_five_reports :
  option_map
    (fun stats => (Statistics.totalDrones stats, Statistics.redDrones stats,
                   Statistics.greenDrones stats))
    (match getStatistics (fun a _ => a) (fun a _ => a)
             (fun _ => VUndefined) (fun _ => VUndefined)
             (run [(1000, VArray 0 five_reports)] initial) with
     | Ok stats => stats
     | TypeError => None
     end)
  = Some (5, 5, 0)%nat.
Proof. reflexivity. Qed.

(** ** The counter of red drones *)

Lemma render_nothing_iff (s : store) :
  RedDroneCounter.render s = None
  <-> Forall (fun d => is_red d = false) (getActiveDrones s).
Proof.
  unfold RedDroneCounter.render, getRedDronesCount, getActiveDrones.
  rewrite <- (filter_none is_red).
  fold (is_red). destruct (Nat.eqb_spec
     (List.length (filter is_red (map_values (drones s)))) 0) as [->|Hn].
  - split; reflexivity.
  - split; [discriminate|]. intros H. now elim Hn.
Qed.

Lemma unauthorized_is_red (currentTime : Z) (drone droneId : value)
    (position : place) (existing : option Drone.t) (entity : Drone.t) :
  unauthorized drone ->
  droneData currentTime drone droneId position existing = Ok entity ->
  is_red entity = true.
Proof.
  intros [Hc Hr] Hd. apply droneData_fields in Hd.
  destruct Hd as (_ & _ & _ & Hcol & _). unfold is_red.
  now rewrite Hcol, (color_of_without_color _ Hc), Hr.
Qed.

(** With reports that name no colour and carry no authorized registration,
    as those of the simulator, every drone counts as red: the counter shows
    the number of entities, and shows nothing only while the store is
    empty. *)
Theorem counter_counts_every_unauthorized_drone (history : list (Z * value)) :
  reports_all unauthorized history ->
  getRedDronesCount (run history initial)
  = List.length (getActiveDrones (run history initial))
  /\ RedDroneCounter.render (run history initial)
     = match getActiveDrones (run history initial) with
       | [] => None
       | all => Some (List.length all)
       end.
Proof.
  intros Hall.
  assert (H : Forall (fun d => is_red d = true)
                     (getActiveDrones (run history initial))).
  { unfold getActiveDrones, map_values. apply Forall_map.
    apply (run_entities unauthorized (fun d => is_red d = true));
      [intros; eapply unauthorized_is_red; eassumption
      |exact Hall|constructor]. }
  assert (Hcount : getRedDronesCount (run history initial)
                   = List.length (getActiveDrones (run history initial))).
  { unfold getRedDronesCount. fold is_red.
    fold (getActiveDrones (run history initial)).
    now rewrite (filter_all is_red _ H). }
  split; [exact Hcount|].
  unfold RedDroneCounter.render. rewrite Hcount.
  now destruct (getActiveDrones (run history initial)).
Qed.

(** The batch of five, whose reports carry neither field. *)
Lemma counter_after_five_reports :
  reports_all unauthorized [(1000, VArray 0 five_reports)]
  /\ RedDroneCounter.render (run [(1000, VArray 0 five_reports)] initial)
     = Some 5%nat.
Proof.
  split; [exact five_reports_are_unauthorized|].
  exact (proj2 (counter_counts_every_unauthorized_drone _
                  five_reports_are_unauthorized)).
Defined.

(** ** What the marker effect shows *)

Lemma lowered_showable (status : value) :
  showable status = true <-> exists l, MapboxMap.lowered status = Ok l.
Proof.
  destruct status; simpl; split; intros H;
    try discriminate; try reflexivity; eauto;
    destruct H as [l H]; discriminate.
Qed.

Lemma markerFor_returns (current : value) (drone : Drone.t) (h : nat) :
  (exists m, MapboxMap.markerFor current drone h = Ok m)
  <-> showable (Drone.status drone) = true.
Proof.
  unfold MapboxMap.markerFor, MapboxMap.getDroneColor.
  destruct (Drone.status drone); simpl; split; intros H;
    try discriminate; try reflexivity; eauto;
    destruct H as [m H]; discriminate.
Qed.

Lemma converted_inv (v v' : value) : converted v = Ok v' -> v' = v.
Proof. unfold converted. destruct (convertible v); now intros [= <-]. Qed.

Lemma popup_of_inv (drone : Drone.t) (p : MapboxMap.popup) :
  MapboxMap.popup_of drone = Ok p ->
  p = {| MapboxMap.popupName := Drone.name drone;
         MapboxMap.popupStatus := Drone.status drone;
         MapboxMap.popupBattery := Drone.battery drone;
         MapboxMap.popupAltitude :=
           place_prop (Drone.position drone) "altitude" |}.
Proof.
  unfold MapboxMap.popup_of, MapboxMap.converted_name.
  destruct (Drone.name drone) as [v|droneId].
  - destruct (converted v) as [v'|] eqn:Hv; simpl; [|discriminate].
    apply converted_inv in Hv as ->.
    destruct (converted (Drone.status drone)) as [s'|] eqn:Hs; simpl;
      [|discriminate]. apply converted_inv in Hs as ->.
    destruct (converted (Drone.battery drone)) as [b'|] eqn:Hb; simpl;
      [|discriminate]. apply converted_inv in Hb as ->.
    destruct (converted (place_prop _ _)) as [a'|] eqn:Ha; simpl;
      [|discriminate]. apply converted_inv in Ha as ->.
    now intros [= <-].
  - simpl.
    destruct (converted (Drone.status drone)) as [s'|] eqn:Hs; simpl;
      [|discriminate]. apply converted_inv in Hs as ->.
    destruct (converted (Drone.battery drone)) as [b'|] eqn:Hb; simpl;
      [|discriminate]. apply converted_inv in Hb as ->.
    destruct (converted (place_prop _ _)) as [a'|] eqn:Ha; simpl;
      [|discriminate]. apply converted_inv in Ha as ->.
    now intros [= <-].
Qed.

Lemma popup_of_returns (drone : Drone.t) :
  (exists p, MapboxMap.popup_of drone = Ok p) <-> composable drone = true.
Proof.
  unfold MapboxMap.popup_of, MapboxMap.converted_name, composable, converted.
  destruct (Drone.name drone) as [v|droneId]; [destruct (convertible v)|];
    simpl;
    try (destruct (convertible (Drone.status drone)); simpl;
         [destruct (convertible (Drone.battery drone)); simpl;
          [destruct (convertible (place_prop _ _)); simpl|]|]);
    split; eauto; try discriminate; intros [p H]; discriminate.
Qed.

Lemma placeMarker_returns (current : value) (drone : Drone.t)
    (l : MapboxMap.layer) :
  returned (MapboxMap.placeMarker current drone l) = placeable current drone.
Proof.
  unfold placeable.
  assert (Hm := markerFor_returns current drone (MapboxMap.constructed l)).
  assert (Hp := popup_of_returns drone).
  placeMarker_cases current drone l; simpl; rewrite ?Bool.andb_true_r.
  - reflexivity.
  - rewrite (proj1 Hm (ex_intro _ _ eq_refl)).
    now rewrite (proj1 Hp (ex_intro _ _ eq_refl)).
  - rewrite (proj1 Hm (ex_intro _ _ eq_refl)). simpl.
    destruct (composable drone); [|reflexivity].
    destruct (proj2 Hp eq_refl) as [p H]. discriminate H.
  - now rewrite (proj1 Hm (ex_intro _ _ eq_refl)).
  - destruct (showable (Drone.status drone)); [|reflexivity].
    destruct (proj2 Hm eq_refl) as [m H]. discriminate H.
Qed.

Lemma placeMarkers_returns (current : value) (all : list Drone.t) :
  forall l,
    returned (MapboxMap.placeMarkers current all l)
    = forallb (placeable current) all.
Proof.
  induction all as [|drone rest IH]; intros l; simpl; [reflexivity|].
  rewrite <- (placeMarker_returns current drone l).
  destruct (MapboxMap.placeMarker current drone l) as [l'|l']; simpl;
    [apply IH|reflexivity].
Qed.

(** The marker effect returns exactly when the loop body goes through
    every drone: each drone that has a position to show has a status that
    is a string, [undefined] or [null] (any other status, a number say,
    makes [toLowerCase] throw), and the text of the popup of the selected
    drone can be built (it cannot when the drone's name, battery or
    altitude is an object that has no primitive value).  Without a loaded
    map the effect returns at once. *)
Theorem effect_returns_iff (s : store) (current : value)
    (l : MapboxMap.layer) :
  returned (MapboxMap.updateMarkers s current l)
  = negb (MapboxMap.hasMap l) || negb (MapboxMap.mapLoaded l)
    || forallb (placeable current) (getActiveDrones s).
Proof.
  unfold MapboxMap.updateMarkers.
  destruct (negb (MapboxMap.hasMap l) || negb (MapboxMap.mapLoaded l));
    [reflexivity|].
  apply placeMarkers_returns.
Qed.

Example numbered_status_throws :
  returned (MapboxMap.updateMarkers
              (state_of (updateDrones 1000 (VArray 0 [numbered]) initial))
              VNull MapboxMap.blank) = false.
Proof. reflexivity. Qed.

(** The drone whose battery has no primitive value: the effect returns
    while the drone is not selected and throws once it is. *)
Example unprintable_battery_throws :
  returned (MapboxMap.updateMarkers
              (state_of (updateDrones 1000 (VArray 0 [unprintable]) initial))
              VNull MapboxMap.blank) = true
  /\ returned (MapboxMap.updateMarkers
                 (state_of (updateDrones 1000 (VArray 0 [unprintable]) initial))
                 (VString "d1") MapboxMap.blank) = false.
Proof. split; reflexivity. Qed.

Lemma markerFor_shows (current : value) (drone : Drone.t) (h : nat)
    (m : MapboxMap.marker) :
  MapboxMap.markerFor current drone h = Ok m ->
  MapboxMap.lngLat m = (place_prop (Drone.position drone) "lng",
                        place_prop (Drone.position drone) "lat")
  /\ MapboxMap.getDroneColor (Drone.status drone)
     = Ok (MapboxMap.backgroundColor m)
  /\ MapboxMap.isSelected m = strict_equals current (Drone.id drone)
  /\ (exists active,
         MapboxMap.lowered (Drone.status drone) = Ok active
         /\ MapboxMap.pulse m = strict_equals active (VString "active"))
  /\ MapboxMap.markerPopup m = None.
Proof.
  unfold MapboxMap.markerFor.
  destruct (MapboxMap.getDroneColor (Drone.status drone)) as [c|] eqn:Hc;
    simpl; [|discriminate].
  destruct (MapboxMap.lowered (Drone.status drone)) as [a|] eqn:Ha;
    simpl; [|discriminate].
  intros [= <-]. simpl. repeat split. now exists a.
Qed.

(** What the loop body leaves in [markersRef]: what was there, or that and
    a marker that shows the drone, under the drone's id. *)
Lemma placeMarker_shows (current : value) (drone : Drone.t)
    (l : MapboxMap.layer) :
  MapboxMap.markersRef (state_of (MapboxMap.placeMarker current drone l))
  = MapboxMap.markersRef l
  \/ (MapboxMap.unplaced drone = false
      /\ exists m,
           shows current drone m
           /\ MapboxMap.handle m = MapboxMap.constructed l
           /\ MapboxMap.markersRef
                (state_of (MapboxMap.placeMarker current drone l))
              = map_set (Drone.id drone) m (MapboxMap.markersRef l)).
Proof.
  placeMarker_cases current drone l; cbn [state_of]; try (now left); right;
    (split; [reflexivity|]);
    assert (Hh := markerFor_handle _ _ _ _ Hm);
    destruct (markerFor_shows _ _ _ _ Hm) as (H1 & H2 & H3 & H4 & H5).
  - exists (MapboxMap.setPopup p m). split; [|split; [exact Hh|reflexivity]].
    unfold shows. rewrite Hsel in *. apply popup_of_inv in Hp. subst p.
    simpl. repeat split; assumption.
  - exists m. split; [|split; [exact Hh|reflexivity]].
    unfold shows. rewrite Hsel in *. repeat split; assumption.
Qed.

Lemma effect_shows (s : store) (current : value) (l : MapboxMap.layer) :
  MapboxMap.hasMap l = true ->
  MapboxMap.mapLoaded l = true ->
  forall k m,
    map_get k (MapboxMap.markersRef
                 (state_of (MapboxMap.updateMarkers s current l))) = Some m ->
    exists drone,
      In drone (getActiveDrones s)
      /\ same_value_zero (Drone.id drone) k = true
      /\ MapboxMap.unplaced drone = false
      /\ shows current drone m.
Proof.
  intros Hmap Hloaded. unfold MapboxMap.updateMarkers.
  rewrite Hmap, Hloaded. simpl.
  apply (placeMarkers_invariant
           (fun st => forall k m,
                map_get k (MapboxMap.markersRef st) = Some m ->
                exists drone,
                  In drone (getActiveDrones s)
                  /\ same_value_zero (Drone.id drone) k = true
                  /\ MapboxMap.unplaced drone = false
                  /\ shows current drone m)).
  - intros drone st Hin IH k m.
    destruct (placeMarker_shows current drone st)
      as [->|(Hun & m0 & Hshows & _ & ->)]; [apply IH|].
    rewrite map_get_set.
    destruct (same_value_zero (Drone.id drone) k) eqn:Hk; [|apply IH].
    intros [= <-]. now exists drone.
  - intros k m. discriminate.
Qed.

(** After a run of the marker effect on a loaded map, returned or thrown,
    every marker the layer holds shows a drone of the store that has a
    position: it is placed at the drone's [lng] and [lat], its colour is
    that of the drone's status (not of its red or green category), it is
    marked selected exactly when the drone's id is the selection, it pulses
    exactly when the status is "active" in any case, and it has a popup,
    with the drone's name, status, battery and altitude, exactly when it is
    selected. *)
Theorem markers_show_their_drones (s : store) (current : value)
    (l : MapboxMap.layer) (k : value) (m : MapboxMap.marker) :
  MapboxMap.hasMap l = true ->
  MapboxMap.mapLoaded l = true ->
  map_get k (MapboxMap.markersRef
               (state_of (MapboxMap.updateMarkers s current l))) = Some m ->
  exists drone,
    In drone (getActiveDrones s)
    /\ same_value_zero (Drone.id drone) k = true
    /\ MapboxMap.unplaced drone = false
    /\ shows current drone m.
Proof. intros Hmap Hloaded. now apply effect_shows. Qed.

(** The marker of the one drone, selected. *)
Lemma marker_of_the_one_drone :
  exists m,
    map_get (VString "d1")
      (MapboxMap.markersRef
         (state_of (MapboxMap.updateMarkers one_drone (VString "d1")
                      MapboxMap.blank))) = Some m
    /\ MapboxMap.backgroundColor m = "#00ff00"%string
    /\ exists drone,
         In drone (getActiveDrones one_drone)
         /\ same_value_zero (Drone.id drone) (VString "d1") = true
         /\ MapboxMap.unplaced drone = false
         /\ shows (VString "d1") drone m.
Proof.
  eexists. split; [reflexivity|]. split; [reflexivity|].
  apply (markers_show_their_drones one_drone (VString "d1") MapboxMap.blank
           (VString "d1")); reflexivity.
Defined.

Lemma strict_equals_same (x y : value) :
  strict_equals x y = true -> same_value_zero x y = true.
Proof.
  unfold strict_equals.
  destruct x as [| | |n| | |]; try (intros H; exact H).
  destruct n; try (intros H; exact H).
  destruct y as [| | |n'| | |]; try (intros H; exact H).
  destruct n'; try (intros H; exact H). discriminate.
Qed.

(** After a run of the marker effect on a loaded map, at most one marker of
    the layer has a popup: two keys whose markers both have one are the
    same key, that of the selection, and hold the same marker. *)
Theorem at_most_one_popup (s : store) (current : value) (l : MapboxMap.layer)
    (k1 k2 : value) (m1 m2 : MapboxMap.marker) :
  MapboxMap.hasMap l = true ->
  MapboxMap.mapLoaded l = true ->
  map_get k1 (MapboxMap.markersRef
                (state_of (MapboxMap.updateMarkers s current l))) = Some m1 ->
  map_get k2 (MapboxMap.markersRef
                (state_of (MapboxMap.updateMarkers s current l))) = Some m2 ->
  MapboxMap.markerPopup m1 <> None ->
  MapboxMap.markerPopup m2 <> None ->
  m1 = m2
  /\ same_value_zero current k1 = true
  /\ same_value_zero k1 k2 = true.
Proof.
  intros Hmap Hloaded H1 H2 P1 P2.
  assert (Hsel : forall k m,
             map_get k (MapboxMap.markersRef
                          (state_of (MapboxMap.updateMarkers s current l)))
             = Some m ->
             MapboxMap.markerPopup m <> None ->
             same_value_zero current k = true).
  { intros k m Hget Hpop.
    destruct (effect_shows s current l Hmap Hloaded k m Hget)
      as (drone & _ & Hk & _ & (_ & _ & _ & _ & Hp)).
    destruct (strict_equals current (Drone.id drone)) eqn:Hs;
      [|now elim Hpop].
    apply strict_equals_same in Hs.
    now rewrite (same_value_zero_congr _ _ k Hs). }
  assert (S1 := Hsel k1 m1 H1 P1). assert (S2 := Hsel k2 m2 H2 P2).
  assert (H12 : same_value_zero k1 k2 = true).
  { rewrite <- (same_value_zero_congr _ _ k2 S1). exact S2. }
  rewrite (map_get_congr _ _ _ H12) in H1.
  split; [congruence|]. now split.
Qed.

(** The one drone selected: its marker has the popup. *)
Lemma popup_of_the_one_drone :
  exists m,
    map_get (VString "d1")
      (MapboxMap.markersRef
         (state_of (MapboxMap.updateMarkers one_drone (VString "d1")
                      MapboxMap.blank))) = Some m
    /\ MapboxMap.markerPopup m <> None
    /\ m = m
    /\ same_value_zero (VString "d1") (VString "d1") = true
    /\ same_value_zero (VString "d1") (VString "d1") = true.
Proof.
  eexists. split; [reflexivity|]. split; [discriminate|].
  apply (at_most_one_popup one_drone (VString "d1") MapboxMap.blank
           (VString "d1") (VString "d1"));
    try reflexivity; discriminate.
Defined.

(** ** Markers on the map and markers kept track of *)

Lemma map_get_rekeyed (k : value) (m : jsmap Drone.t) :
  Forall (fun kv => same_value_zero (fst kv) (Drone.id (snd kv)) = true) m ->
  map_get k (by_id (map_values m)) = map_get k m.
Proof.
  induction 1 as [|[k0 v0] rest H0 Hrest IH]; simpl; [reflexivity|].
  simpl in H0. rewrite <- (same_value_zero_congr _ _ k H0).
  now rewrite IH.
Qed.

Lemma consistent_distinct_ids (s : store) :
  consistent s -> distinct_keys (by_id (getActiveDrones s)).
Proof.
  intros (D & _ & K & _). unfold getActiveDrones.
  induction (drones s) as [|[k0 v0] rest IH]; simpl; [exact I|].
  destruct D as [Dnone Drest]. inversion K as [|? ? K0 Krest]; subst.
  split; [|now apply IH].
  fold (map_values rest). fold (by_id (map_values rest)).
  rewrite (map_get_rekeyed _ _ Krest).
  simpl in K0. now rewrite <- (map_get_congr _ _ _ K0).
Qed.

Lemma on_map_app (first rest : list MapboxMap.directive) :
  on_map (first ++ rest) = fold_left after_directive rest (on_map first).
Proof. unfold on_map. apply fold_left_app. Qed.

Lemma removals_clear (handles shown : list nat) :
  fold_left after_directive (List.map MapboxMap.Remove handles) shown
  = filter (fun h' => negb (existsb (Nat.eqb h') handles)) shown.
Proof.
  revert shown. induction handles as [|h handles IH]; intros shown; simpl.
  - induction shown as [|x shown IHs]; simpl; [reflexivity|].
    now rewrite <- IHs.
  - rewrite IH. clear IH.
    induction shown as [|x shown IHs]; simpl; [reflexivity|].
    destruct (Nat.eqb x h); simpl; [exact IHs|].
    destruct (existsb (Nat.eqb x) handles); simpl; [exact IHs|].
    now rewrite IHs.
Qed.

Lemma removals_clear_all (handles : list nat) :
  filter (fun h' => negb (existsb (Nat.eqb h') handles)) handles = [].
Proof.
  assert (H : forall l, incl l handles ->
              filter (fun h' => negb (existsb (Nat.eqb h') handles)) l = []).
  { induction l as [|x l IH]; intros Hincl; simpl; [reflexivity|].
    assert (Hx : existsb (Nat.eqb x) handles = true).
    { apply existsb_exists. exists x. split; [|apply Nat.eqb_refl].
      apply Hincl. now left. }
    rewrite Hx. simpl. apply IH. intros y Hy. apply Hincl. now right. }
  apply H, incl_refl.
Qed.

(** What the loop body makes of the markers on the map and of the markers
    kept track of, for a drone whose id the layer does not hold: nothing;
    or one more marker on the map and kept track of; or, when it throws
    over the popup, one more marker on the map that is not kept track
    of. *)
Lemma placeMarker_tracks (current : value) (drone : Drone.t)
    (l : MapboxMap.layer) :
  let l' := state_of (MapboxMap.placeMarker current drone l) in
  (on_map (MapboxMap.told l') = on_map (MapboxMap.told l)
   /\ MapboxMap.markersRef l' = MapboxMap.markersRef l)
  \/ (on_map (MapboxMap.told l')
      = on_map (MapboxMap.told l) ++ [MapboxMap.constructed l]
      /\ ((returned (MapboxMap.placeMarker current drone l) = true
           /\ exists m,
                MapboxMap.handle m = MapboxMap.constructed l
                /\ MapboxMap.markersRef l'
                   = map_set (Drone.id drone) m (MapboxMap.markersRef l))
          \/ (returned (MapboxMap.placeMarker current drone l) = false
              /\ MapboxMap.markersRef l' = MapboxMap.markersRef l))).
Proof.
  cbn zeta.
  placeMarker_cases current drone l; cbn [state_of returned];
    try (left; split; reflexivity); right;
    assert (Hh := markerFor_handle _ _ _ _ Hm);
    cbn [MapboxMap.track MapboxMap.tell MapboxMap.construct MapboxMap.told
         MapboxMap.markersRef];
    rewrite ?on_map_app; cbn [fold_left after_directive]; rewrite Hh;
    (split; [reflexivity|]).
  - left. split; [reflexivity|]. exists (MapboxMap.setPopup p m). now split.
  - right. now split.
  - left. split; [reflexivity|]. exists m. now split.
Qed.

Lemma map_set_values_incl {V : Type} (k : value) (v : V) (m : jsmap V) :
  incl (map_values (map_set k v m)) (v :: map_values m).
Proof.
  unfold map_values. induction m as [|[k0 v0] rest IH]; simpl.
  - apply incl_refl.
  - destruct (same_value_zero k0 k); simpl.
    + intros x [<-|Hx]; [now left|]. right. now right.
    + intros x [<-|Hx]; [right; now left|].
      destruct (IH x Hx) as [<-|Hin]; [now left|]. right. now right.
Qed.

(** Every marker kept track of is on the map, along the loop. *)
Lemma placeMarkers_keeps_on_map (current : value) (all : list Drone.t)
    (l : MapboxMap.layer) :
  incl (tracked l) (on_map (MapboxMap.told l)) ->
  incl (tracked (state_of (MapboxMap.placeMarkers current all l)))
       (on_map (MapboxMap.told
                  (state_of (MapboxMap.placeMarkers current all l)))).
Proof.
  apply (placeMarkers_invariant
           (fun st => incl (tracked st) (on_map (MapboxMap.told st)))).
  intros drone st _ Hst. unfold tracked in *.
  destruct (placeMarker_tracks current drone st)
    as [[-> ->]|[-> [(_ & m & Hh & ->)|(_ & ->)]]].
  - exact Hst.
  - intros h Hin. apply in_map_iff in Hin as (m0 & <- & Hin).
    apply map_set_values_incl in Hin as [<-|Hin].
    + rewrite Hh. apply in_or_app. right. now left.
    + apply in_or_app. left. apply Hst. now apply in_map.
  - intros h Hin. apply in_or_app. left. now apply Hst.
Qed.

Lemma placeMarkers_appends (current : value) (all : list Drone.t) :
  forall l l',
    MapboxMap.placeMarkers current all l = Returned l' ->
    distinct_keys (by_id all) ->
    (forall drone, In drone all ->
                   map_get (Drone.id drone) (MapboxMap.markersRef l) = None) ->
    exists added,
      MapboxMap.markersRef l' = MapboxMap.markersRef l ++ added
      /\ on_map (MapboxMap.told l')
         = on_map (MapboxMap.told l)
           ++ List.map MapboxMap.handle (map_values added).
Proof.
  induction all as [|d rest IH]; intros l l' Hrun Hd Hnone; simpl in Hrun.
  - injection Hrun as <-. exists []. now rewrite !app_nil_r.
  - destruct Hd as [Hd Hrest].
    assert (Hstep := placeMarker_tracks current d l). cbn zeta in Hstep.
    destruct (MapboxMap.placeMarker current d l) as [l1|l1] eqn:Hplace;
      [|discriminate]. cbn [state_of returned] in Hstep.
    destruct Hstep as [[Ht Href]|[Ht [(_ & m & Hh & Href)|(Hf & _)]]];
      [| |discriminate Hf].
    + destruct (IH l1 l' Hrun Hrest) as (added & Ha & Hta).
      * intros d' Hin. rewrite Href. apply Hnone. now right.
      * exists added. now rewrite Ha, Hta, Ht, Href.
    + rewrite (map_set_fresh _ _ _ (Hnone d (or_introl eq_refl))) in Href.
      destruct (IH l1 l' Hrun Hrest) as (added & Ha & Hta).
      * intros d' Hin. rewrite Href.
        rewrite <- (map_set_fresh _ m _ (Hnone d (or_introl eq_refl))).
        rewrite map_get_set.
        assert (Hdd : same_value_zero (Drone.id d') (Drone.id d) = false).
        { apply (proj1 (map_get_none _ _) Hd (Drone.id d') d').
          unfold by_id. apply in_map_iff. now exists d'. }
        rewrite same_value_zero_sym, Hdd. apply Hnone. now right.
      * exists ((map_key (Drone.id d), m) :: added).
        rewrite Ha, Hta, Ht, Href, <- !app_assoc. simpl.
        now rewrite Hh.
Qed.

Lemma clearMarkers_on_map (l : MapboxMap.layer) :
  on_map (MapboxMap.told l) = tracked l ->
  on_map (MapboxMap.told (MapboxMap.clearMarkers l)) = [].
Proof.
  intros Hl.
  assert (Hclear : MapboxMap.told (MapboxMap.clearMarkers l)
                   = MapboxMap.told l ++ List.map MapboxMap.Remove (tracked l)).
  { unfold tracked. simpl. now rewrite map_map. }
  rewrite Hclear, on_map_app, Hl, removals_clear. apply removals_clear_all.
Qed.

Lemma updateMarkers_tracks (s : store) (current : value)
    (l l' : MapboxMap.layer) :
  consistent s ->
  on_map (MapboxMap.told l) = tracked l ->
  MapboxMap.updateMarkers s current l = Returned l' ->
  on_map (MapboxMap.told l') = tracked l'.
Proof.
  intros Hs Hl. unfold MapboxMap.updateMarkers.
  destruct (negb (MapboxMap.hasMap l) || negb (MapboxMap.mapLoaded l));
    [now intros [= <-]|].
  intros Hrun.
  destruct (placeMarkers_appends current (getActiveDrones s)
              (MapboxMap.clearMarkers l) l' Hrun
              (consistent_distinct_ids s Hs))
    as (added & Ha & Ht); [reflexivity|].
  rewrite Ht, (clearMarkers_on_map l Hl). unfold tracked. now rewrite Ha.
Qed.

Lemma updateMarkers_keeps_on_map (s : store) (current : value)
    (l : MapboxMap.layer) :
  incl (tracked l) (on_map (MapboxMap.told l)) ->
  incl (tracked (state_of (MapboxMap.updateMarkers s current l)))
       (on_map (MapboxMap.told
                  (state_of (MapboxMap.updateMarkers s current l)))).
Proof.
  intros Hl. unfold MapboxMap.updateMarkers.
  destruct (negb (MapboxMap.hasMap l) || negb (MapboxMap.mapLoaded l));
    [exact Hl|].
  apply placeMarkers_keeps_on_map. intros h [].
Qed.

(** Across any number of runs of the marker effect from the blank layer,
    each over a consistent store (as every store reached from the initial
    one is), every marker the layer keeps track of is on the map, whether
    runs returned or threw; and when every run returned, these are all the
    markers on the map: the next run, which removes what is kept track of,
    leaves no marker behind. *)
Theorem no_marker_is_orphaned (passes : list (store * value)) :
  Forall (fun pass => consistent (fst pass)) passes ->
  incl (tracked (effects passes MapboxMap.blank))
       (on_map (MapboxMap.told (effects passes MapboxMap.blank)))
  /\ (effects_return passes MapboxMap.blank = true ->
      on_map (MapboxMap.told (effects passes MapboxMap.blank))
      = tracked (effects passes MapboxMap.blank)).
Proof.
  intros Hall. split.
  - assert (H0 : incl (tracked MapboxMap.blank)
                      (on_map (MapboxMap.told MapboxMap.blank)))
      by (intros h []).
    revert H0. generalize MapboxMap.blank. clear Hall.
    induction passes as [|[s current] rest IH]; intros l Hl; simpl;
      [exact Hl|].
    apply IH. now apply updateMarkers_keeps_on_map.
  - assert (H0 : on_map (MapboxMap.told MapboxMap.blank)
                 = tracked MapboxMap.blank) by reflexivity.
    revert H0. generalize MapboxMap.blank.
    induction Hall as [|[s current] rest Hs Hrest IH]; intros l Hl; simpl;
      [intros _; exact Hl|].
    destruct (MapboxMap.updateMarkers s current l) as [l'|l'] eqn:Hrun;
      [|discriminate].
    apply IH. exact (updateMarkers_tracks _ _ _ _ Hs Hl Hrun).
Qed.

(** Two runs: over the store with the one drone, then over the store of
    five with ["d1"] selected. *)
Lemma markers_after_two_runs :
  Forall (fun pass => consistent (fst pass))
         [(one_drone, VNull); (five_drones, VString "d1")]
  /\ effects_return [(one_drone, VNull); (five_drones, VString "d1")]
       MapboxMap.blank = true
  /\ on_map (MapboxMap.told
               (effects [(one_drone, VNull); (five_drones, VString "d1")]
                  MapboxMap.blank))
     = [1; 2; 3; 4; 5]%nat
  /\ incl (tracked (effects [(one_drone, VNull); (five_drones, VString "d1")]
                      MapboxMap.blank))
          (on_map (MapboxMap.told
                     (effects [(one_drone, VNull); (five_drones, VString "d1")]
                        MapboxMap.blank))).
Proof.
  assert (H : Forall (fun pass => consistent (fst pass))
                [(one_drone, VNull); (five_drones, VString "d1")]).
  { apply Forall_cons;
      [exact (run_consistent [(1000, VArray 0 [report 1 "d1" 1 2 10])])|].
    apply Forall_cons;
      [exact (run_consistent [(1000, VArray 0 five_reports)])|].
    apply Forall_nil. }
  split; [exact H|]. split; [reflexivity|].
  split; [exact (proj2 (no_marker_is_orphaned _ H) eq_refl)|].
  exact (proj1 (no_marker_is_orphaned _ H)).
Defined.

(** A run that throws over the popup leaves a marker on the map that the
    layer does not keep track of, and no later run removes it.  The drone
    whose battery has no primitive value is selected in the first run and
    not in the second: the marker with the handle 0 stays on the map. *)
Example popup_leaves_a_marker_behind :
  let s := state_of (updateDrones 1000 (VArray 0 [unprintable]) initial) in
  effects_return [(s, VString "d1")] MapboxMap.blank = false
  /\ on_map (MapboxMap.told (effects [(s, VString "d1")] MapboxMap.blank))
     = [0%nat]
  /\ tracked (effects [(s, VString "d1")] MapboxMap.blank) = []
  /\ on_map (MapboxMap.told
               (effects [(s, VString "d1"); (s, VNull)] MapboxMap.blank))
     = [0; 1]%nat
  /\ tracked (effects [(s, VString "d1"); (s, VNull)] MapboxMap.blank)
     = [1%nat].
Proof. repeat split. Qed.

(** ** A click in the list *)

Lemma place_prop_truthy (p : place) (name : string) :
  truthy (place_prop p name) = true -> place_truthy p = true.
Proof.
  destruct p as [v|lat lng alt]; [|reflexivity].
  destruct v; simpl; try discriminate; reflexivity.
Qed.

Lemma run_located (history : list (Z * value)) (k : value) (drone : Drone.t) :
  getDroneById k (run history initial) = Some drone -> located drone.
Proof.
  apply (map_get_Forall located).
  apply (run_entities (fun _ => True) located).
  - intros t d id position existing entity _ Hd.
    apply droneData_fields in Hd.
    destruct Hd as (_ & _ & _ & _ & Hp & Hlat & Hlng & _).
    unfold located. now rewrite Hp, Hlat, Hlng.
  - intros call reports d _ _ _. exact I.
  - constructor.
Qed.

Lemma js_or_same (v : value) : js_or v v = v.
Proof. unfold js_or. now destruct (truthy v). Qed.

(** A click on an item of the list, on the store reached from the initial
    one by any history of batches, with any selection.  The clicked id
    becomes the selection, whether or not the store holds a drone under it,
    and entities and paths stay as they are.  For an id without a drone
    nothing is asked of the map, neither by the click nor by the map's own
    effect.  When the click asks for a flight and the id is truthy, the
    map's effect, if it runs, asks for the same flight again: same centre,
    zoom and duration; and it runs exactly when the click changed the
    selection, so a click on the item that is already selected asks for the
    flight once and a click on another item twice. *)
Theorem click_in_the_list (history : list (Z * value)) (selected : value)
    (mapInstance : bool) (droneId : value) :
  let s := selectDrone selected (run history initial) in
  let s' := fst (handleDroneClick mapInstance droneId s) in
  let current :=
    MapboxMap.currentSelectedDroneId (selectedDroneId s) (selectedDroneId s) in
  let current' :=
    MapboxMap.currentSelectedDroneId (selectedDroneId s') (selectedDroneId s') in
  current = selected
  /\ selectedDroneId s' = droneId
  /\ drones s' = drones s
  /\ dronePaths s' = dronePaths s
  /\ (getDroneById droneId s = None ->
      snd (handleDroneClick mapInstance droneId s) = None
      /\ recenter true current current' s' = None)
  /\ (object_is selected droneId = true ->
      recenter true current current' s' = None)
  /\ (forall flight,
         snd (handleDroneClick mapInstance droneId s) = Some flight ->
         truthy droneId = true ->
         centerOnSelectedDrone true current' s' = Some flight
         /\ (object_is selected droneId = false ->
             recenter true current current' s' = Some flight)).
Proof.
  cbn zeta. unfold MapboxMap.currentSelectedDroneId, recenter.
  unfold handleDroneClick, centerOnSelectedDrone, getDroneById, selectDrone.
  cbn [fst snd selectedDroneId drones dronePaths].
  rewrite !js_or_same.
  split; [reflexivity|]. split; [reflexivity|]. split; [reflexivity|].
  split; [reflexivity|]. split; [|split].
  - intros Hnone. rewrite Hnone. split.
    + now destruct mapInstance.
    + destruct (object_is selected droneId); [reflexivity|].
      now destruct (negb true || negb (truthy droneId)).
  - now intros ->.
  - intros flight Hflight Hid. rewrite Hid. cbn [negb orb].
    destruct mapInstance; [|discriminate].
    destruct (map_get droneId (drones (run history initial))) as [drone|]
      eqn:Hget; [|discriminate].
    destruct (run_located history droneId drone Hget) as [Hlat Hlng].
    destruct (truthy (Drone.longitude drone)) eqn:Htl; [|discriminate].
    destruct (truthy (Drone.latitude drone)); [|discriminate].
    rewrite Hlng in Htl. rewrite (place_prop_truthy _ _ Htl).
    rewrite <- Hlat, <- Hlng. split; [exact Hflight|].
    now intros ->.
Qed.

Example click_on_a_ghost :
  handleDroneClick true (VString "ghost") one_drone
  = (selectDrone (VString "ghost") one_drone, None).
Proof. reflexivity. Qed.

(** The entity without an id is listed; a click on it asks for a flight,
    and the map's effect, which tests the selection for truthiness, asks
    for none. *)
Example click_on_the_anonymous_drone :
  snd (handleDroneClick true VUndefined five_drones) <> None
  /\ centerOnSelectedDrone true VUndefined
       (fst (handleDroneClick true VUndefined five_drones)) = None.
Proof. split; [discriminate|reflexivity]. Qed.

(** A click on the item of the drone that is selected already: the click
    asks for the flight, the effect does not run. *)
Example click_on_the_selected_item :
  snd (handleDroneClick true (VString "d1")
         (selectDrone (VString "d1") one_drone)) <> None
  /\ recenter true (VString "d1") (VString "d1")
       (fst (handleDroneClick true (VString "d1")
               (selectDrone (VString "d1") one_drone))) = None.
Proof. split; [discriminate|reflexivity]. Qed.

(** ** The observers of the service *)

(** [removeObserver] after [addObserver] of the same observer leaves the
    observers that were there and are not that observer, in their order:
    the list is as it was when the observer was not registered before, and
    any earlier registration of it is removed as well.  Nothing else of the
    service changes. *)
Theorem remove_after_add (observer : WebSocketService.observer)
    (w : WebSocketService.world) :
  let w' := WebSocketService.removeObserver observer
              (WebSocketService.addObserver observer w) in
  WebSocketService.observers (WebSocketService.service w')
  = filter (fun obs => negb (Nat.eqb (WebSocketService.ref obs)
                                     (WebSocketService.ref observer)))
           (WebSocketService.observers (WebSocketService.service w))
  /\ (Forall (fun obs => WebSocketService.ref obs
                         <> WebSocketService.ref observer)
             (WebSocketService.observers (WebSocketService.service w)) ->
      WebSocketService.observers (WebSocketService.service w')
      = WebSocketService.observers (WebSocketService.service w))
  /\ Forall (fun obs => WebSocketService.ref obs
                        <> WebSocketService.ref observer)
            (WebSocketService.observers (WebSocketService.service w'))
  /\ WebSocketService.isConnected (WebSocketService.service w')
     = WebSocketService.isConnected (WebSocketService.service w)
  /\ WebSocketService.mockDataInterval (WebSocketService.service w')
     = WebSocketService.mockDataInterval (WebSocketService.service w)
  /\ WebSocketService.surroundings w' = WebSocketService.surroundings w
  /\ WebSocketService.intervals w' = WebSocketService.intervals w.
Proof.
  cbn zeta. unfold WebSocketService.removeObserver, WebSocketService.addObserver.
  cbn [WebSocketService.service WebSocketService.observers
       WebSocketService.isConnected WebSocketService.mockDataInterval
       WebSocketService.surroundings WebSocketService.intervals].
  assert (Hfilter :
            filter (fun obs => negb (Nat.eqb (WebSocketService.ref obs)
                                             (WebSocketService.ref observer)))
                   (WebSocketService.observers (WebSocketService.service w)
                    ++ [observer])
            = filter (fun obs => negb (Nat.eqb (WebSocketService.ref obs)
                                               (WebSocketService.ref observer)))
                     (WebSocketService.observers (WebSocketService.service w))).
  { rewrite filter_app. simpl. rewrite Nat.eqb_refl. simpl.
    apply app_nil_r. }
  rewrite Hfilter. split; [reflexivity|]. split; [|split].
  - intros Hnew. apply filter_all. revert Hnew. apply Forall_impl.
    intros obs Hobs. now apply negb_true_iff, Nat.eqb_neq.
  - apply Forall_forall. intros obs Hin. apply filter_In in Hin as [_ Hne].
    apply negb_true_iff in Hne. now apply Nat.eqb_neq.
  - repeat split.
Qed.

(** ** Mounting and unmounting the application *)

Lemma readable_batch_returns (currentTime : Z) (data : value)
    (reports : list value) (s : store) :
  reports_of data = Ok reports ->
  forallb readable reports = true ->
  exists s',
    updateDrones currentTime data s = Returned s'
    /\ forall drone, In drone reports ->
                     getDroneById (droneId_of drone) s' <> None.
Proof.
  intros Hdata Hall. unfold updateDrones. rewrite Hdata.
  assert (Hret := forEach_readable currentTime reports (loop_start s)).
  rewrite Hall in Hret.
  destruct (forEach currentTime reports (loop_start s)) as [st|st] eqn:Hloop;
    [|discriminate Hret].
  eexists. split; [reflexivity|].
  intros drone Hin.
  destruct (forEach_applies _ _ _ _ _ Hloop Hin) as [(entity & Hget & _) _].
  unfold getDroneById; simpl in *. now rewrite Hget.
Qed.

(** On a service at rest whose mock drones the store can read, the effect
    of [App] with a [DroneDataObserver] returns; the service is then
    connected and holds the one interval that runs; the first batch has
    reached the store at once, read with one reading of the clock; and
    the cleanup puts the service at rest again, with no interval left
    running, the store keeping what it received. *)
Theorem mount_then_unmount (ref : nat) (w : WebSocketService.world) :
  at_rest w ->
  readable_mock w ->
  mounted_and_unmounted (DroneDataObserver ref) w.
Proof.
  intros (Hobs & Hcon & Hint & Hrun) (reports & Hmock & Hread).
  destruct w as [[obs con int mock] [s ck n] run iss]. simpl in *. subst.
  destruct (readable_batch_returns (ck n) mock reports s Hmock Hread)
    as (s' & Hcall & Hthere).
  unfold mounted_and_unmounted, mount, unmount, WebSocketService.connect,
    WebSocketService.notifyObservers, WebSocketService.addObserver,
    WebSocketService.disconnect, WebSocketService.removeObserver,
    WebSocketService.stop_interval, WebSocketService.start_interval,
    WebSocketService.notifyConnectionStatus, WebSocketService.set_connected,
    WebSocketService.with_surroundings, WebSocketService.getConnectionStatus,
    at_rest.
  simpl. rewrite Hcall. simpl. eexists. split; [reflexivity|]. simpl.
  rewrite !Nat.eqb_refl. simpl.
  repeat split.
  intros reports' drone Hr. rewrite Hmock in Hr. injection Hr as <-.
  apply Hthere.
Qed.

(** The service as constructed, with the batch of five as its mock
    drones. *)
Lemma mounting_the_fresh_service :
  at_rest (fresh (VArray 0 five_reports) (fun n => 1000 + Z.of_nat n))
  /\ readable_mock (fresh (VArray 0 five_reports) (fun n => 1000 + Z.of_nat n))
  /\ mounted_and_unmounted (DroneDataObserver 7)
       (fresh (VArray 0 five_reports) (fun n => 1000 + Z.of_nat n)).
Proof.
  assert (H1 : at_rest (fresh (VArray 0 five_reports)
                          (fun n => 1000 + Z.of_nat n)))
    by (repeat split).
  assert (H2 : readable_mock (fresh (VArray 0 five_reports)
                                (fun n => 1000 + Z.of_nat n)))
    by (exists five_reports; split; reflexivity).
  split; [exact H1|]. split; [exact H2|].
  exact (mount_then_unmount 7 _ H1 H2).
Defined.

(** ** Connecting twice *)

Lemma notifyObservers_service (data : value) (w : WebSocketService.world) :
  WebSocketService.service (state_of (WebSocketService.notifyObservers data w))
  = WebSocketService.service w
  /\ WebSocketService.intervals
       (state_of (WebSocketService.notifyObservers data w))
     = WebSocketService.intervals w
  /\ WebSocketService.issued
       (state_of (WebSocketService.notifyObservers data w))
     = WebSocketService.issued w.
Proof.
  unfold WebSocketService.notifyObservers.
  now destruct (WebSocketService.updateAll _ _ _).
Qed.

Lemma connect_starts_an_interval (w w1 : WebSocketService.world) :
  WebSocketService.connect w = Returned w1 ->
  WebSocketService.intervals w1
  = WebSocketService.intervals w ++ [S (WebSocketService.issued w)]
  /\ WebSocketService.issued w1 = S (WebSocketService.issued w)
  /\ WebSocketService.mockDataInterval (WebSocketService.service w1)
     = Some (S (WebSocketService.issued w))
  /\ WebSocketService.isConnected (WebSocketService.service w1) = true.
Proof.
  unfold WebSocketService.connect.
  destruct (notifyObservers_service
              (WebSocketService.mockDrones
                 (WebSocketService.service
                    (WebSocketService.set_connected true w)))
              (WebSocketService.set_connected true w)) as (Hs & Hi & Hn).
  destruct (WebSocketService.notifyObservers _ _) as [w2|w2]; [|discriminate].
  intros [= <-]. simpl in *. rewrite Hs, Hi, Hn. simpl. repeat split.
Qed.

(** [connect] does not clear the interval the service holds.  After two
    calls of [connect] that returned, [disconnect] clears the second
    interval only: the service then holds none, and the first one is still
    running. *)
Theorem second_connect_orphans_an_interval (w w1 w2 : WebSocketService.world) :
  WebSocketService.connect w = Returned w1 ->
  WebSocketService.connect w1 = Returned w2 ->
  WebSocketService.mockDataInterval
    (WebSocketService.service (WebSocketService.disconnect w2)) = None
  /\ WebSocketService.getConnectionStatus (WebSocketService.disconnect w2)
     = false
  /\ In (S (WebSocketService.issued w))
        (WebSocketService.intervals (WebSocketService.disconnect w2)).
Proof.
  intros H1 H2.
  apply connect_starts_an_interval in H1 as (I1 & N1 & _ & _).
  apply connect_starts_an_interval in H2 as (I2 & N2 & M2 & _).
  unfold WebSocketService.disconnect, WebSocketService.stop_interval,
    WebSocketService.getConnectionStatus.
  rewrite M2. simpl. repeat split.
  rewrite I2, I1, N1. apply filter_In. split.
  - apply in_or_app. left. apply in_or_app. right. now left.
  - apply negb_true_iff, Nat.eqb_neq. lia.
Qed.

(** The fresh service, connected twice. *)
Lemma connecting_twice :
  WebSocketService.intervals
    (WebSocketService.disconnect
       (state_of
          (WebSocketService.connect
             (state_of
                (WebSocketService.connect
                   (fresh (VArray 0 five_reports)
                      (fun n => 1000 + Z.of_nat n)))))))
  = [1%nat]
  /\ In 1%nat
        (WebSocketService.intervals
           (WebSocketService.disconnect
              (state_of
                 (WebSocketService.connect
                    (state_of
                       (WebSocketService.connect
                          (fresh (VArray 0 five_reports)
                             (fun n => 1000 + Z.of_nat n)))))))).
Proof.
  split; [reflexivity|].
  apply (second_connect_orphans_an_interval
           (fresh (VArray 0 five_reports) (fun n => 1000 + Z.of_nat n))
           _ _ eq_refl eq_refl).
Defined.

(** ** The connection status *)

Lemma updateDrones_keeps_selection (currentTime : Z) (data : value)
    (s : store) :
  isConnected (state_of (updateDrones currentTime data s)) = isConnected s
  /\ selectedDroneId (state_of (updateDrones currentTime data s))
     = selectedDroneId s.
Proof.
  unfold updateDrones.
  destruct (reports_of data) as [reports|]; [|now split].
  now destruct (forEach currentTime reports _).
Qed.

Lemma updateAll_keeps_connection (all : list WebSocketService.observer)
    (data : value) :
  Forall (fun o => exists ref, o = DroneDataObserver ref) all ->
  forall e,
    isConnected (state (state_of (WebSocketService.updateAll all data e)))
    = isConnected (state e).
Proof.
  induction 1 as [|o rest [ref ->] Hrest IH]; intros e; simpl; [reflexivity|].
  destruct (updateDrones_keeps_selection (clock e (reads e)) data (state e))
    as [Hc _].
  destruct (updateDrones (clock e (reads e)) data (state e)) as [s|s];
    simpl in *; [|exact Hc].
  now rewrite IH.
Qed.

Lemma hooks_absent (all : list WebSocketService.observer) (connected : bool) :
  Forall (fun o => exists ref, o = DroneDataObserver ref) all ->
  forall e,
    fold_left (fun e observer =>
                 match WebSocketService.updateConnectionStatus observer with
                 | Some hook => hook connected e
                 | None => e
                 end) all e = e.
Proof.
  induction 1 as [|o rest [ref ->] Hrest IH]; intros e; simpl; [reflexivity|].
  apply IH.
Qed.

(** With [DroneDataObserver]s as its only observers, the service keeps the
    connection status to itself: the notification of a status changes
    nothing the observers act on, and neither [connect] nor [disconnect]
    changes the store's [isConnected], which stays what it was ([false] in
    the initial store) while the service's own flag changes. *)
Theorem status_stays_in_the_service (w : WebSocketService.world)
    (connected : bool) :
  only_drone_observers w ->
  WebSocketService.surroundings
    (WebSocketService.notifyConnectionStatus connected w)
  = WebSocketService.surroundings w
  /\ isConnected
       (state (WebSocketService.surroundings
                 (state_of (WebSocketService.connect w))))
     = isConnected (state (WebSocketService.surroundings w))
  /\ isConnected
       (state (WebSocketService.surroundings (WebSocketService.disconnect w)))
     = isConnected (state (WebSocketService.surroundings w))
  /\ WebSocketService.getConnectionStatus
       (state_of (WebSocketService.connect w)) = true
  /\ WebSocketService.getConnectionStatus (WebSocketService.disconnect w)
     = false.
Proof.
  intros Hobs. unfold only_drone_observers in Hobs.
  split; [|split; [|split; [|split]]].
  - unfold WebSocketService.notifyConnectionStatus; simpl.
    now rewrite (hooks_absent _ connected Hobs).
  - unfold WebSocketService.connect, WebSocketService.notifyObservers.
    cbn [WebSocketService.set_connected WebSocketService.service
         WebSocketService.observers WebSocketService.surroundings
         WebSocketService.mockDrones].
    assert (H := updateAll_keeps_connection _
                   (WebSocketService.mockDrones (WebSocketService.service w))
                   Hobs (WebSocketService.surroundings w)).
    destruct (WebSocketService.updateAll _ _ _) as [e|e]; simpl in *.
    + now rewrite (hooks_absent _ true Hobs).
    + exact H.
  - unfold WebSocketService.disconnect, WebSocketService.notifyConnectionStatus,
      WebSocketService.stop_interval.
    destruct (WebSocketService.mockDataInterval (WebSocketService.service w));
      simpl; now rewrite (hooks_absent _ false Hobs).
  - unfold WebSocketService.connect, WebSocketService.notifyObservers,
      WebSocketService.getConnectionStatus.
    cbn [WebSocketService.set_connected WebSocketService.service
         WebSocketService.observers WebSocketService.surroundings
         WebSocketService.mockDrones].
    now destruct (WebSocketService.updateAll _ _ _).
  - unfold WebSocketService.disconnect, WebSocketService.stop_interval,
      WebSocketService.getConnectionStatus.
    now destruct (WebSocketService.mockDataInterval
                    (WebSocketService.service w)).
Qed.

(** The application, mounted: the service says connected, the store does
    not. *)
Lemma connected_service_unconnected_store :
  only_drone_observers
    (WebSocketService.addObserver (DroneDataObserver 7)
       (fresh (VArray 0 five_reports) (fun n => 1000 + Z.of_nat n)))
  /\ WebSocketService.getConnectionStatus
       (state_of (mount (DroneDataObserver 7)
                    (fresh (VArray 0 five_reports)
                       (fun n => 1000 + Z.of_nat n)))) = true
  /\ isConnected
       (state (WebSocketService.surroundings
                 (state_of (mount (DroneDataObserver 7)
                              (fresh (VArray 0 five_reports)
                                 (fun n => 1000 + Z.of_nat n))))))
     = VBool false.
Proof.
  assert (H : only_drone_observers
                (WebSocketService.addObserver (DroneDataObserver 7)
                   (fresh (VArray 0 five_reports)
                      (fun n => 1000 + Z.of_nat n)))).
  { apply Forall_cons; [now exists 7%nat|apply Forall_nil]. }
  split; [exact H|].
  destruct (status_stays_in_the_service _ true H) as (_ & Hc & _ & Hs & _).
  split; [exact Hs|exact Hc].
Defined.

Lemma strict_equals_string (v : value) (s : string) :
  strict_equals v (VString s) = true <-> v = VString s.
Proof.
  destruct v as [| | |n|s'| |]; simpl; try (split; discriminate).
  - destruct n; split; discriminate.
  - split; [intros H; apply String.eqb_eq in H; now subst|].
    intros [= ->]. apply String.eqb_refl.
Qed.

(** The badge of the connection status says "unknown" for every value
    that is not one of the four strings it knows, whatever its type, and
    only for those.  [MapboxMap] takes the status from a property the
    store does not have, so in the application the badge says "unknown"
    whatever the service did. *)
Theorem badge_says_unknown (v : value) (s : store) :
  (badgeText (getStatusConfig v) = SaysUnknown
   <-> v <> VString "connected" /\ v <> VString "connecting"
       /\ v <> VString "disconnected" /\ v <> VString "error")
  /\ badgeText (getStatusConfig (connectionStatus s)) = SaysUnknown
  /\ badgeText (getStatusConfig (VString "connected")) = SaysConnected
  /\ badgeText (getStatusConfig (VString "connecting")) = SaysConnecting
  /\ badgeText (getStatusConfig (VString "disconnected")) = SaysDisconnected
  /\ badgeText (getStatusConfig (VString "error")) = SaysConnectionError.
Proof.
  split; [|repeat split].
  unfold getStatusConfig.
  destruct (strict_equals v (VString "connected")) eqn:H1.
  { apply strict_equals_string in H1. subst.
    split; [discriminate|]. intros (H & _). now elim H. }
  destruct (strict_equals v (VString "connecting")) eqn:H2.
  { apply strict_equals_string in H2. subst.
    split; [discriminate|]. intros (_ & H & _). now elim H. }
  destruct (strict_equals v (VString "disconnected")) eqn:H3.
  { apply strict_equals_string in H3. subst.
    split; [discriminate|]. intros (_ & _ & H & _). now elim H. }
  destruct (strict_equals v (VString "error")) eqn:H4.
  { apply strict_equals_string in H4. subst.
    split; [discriminate|]. intros (_ & _ & _ & H). now elim H. }
  split; [intros _|reflexivity].
  repeat split; intros ->; discriminate.
Qed.

(** ** Defaults, for the last report of a key *)



(** ** The path follows the entity *)

Lemma write_report_follows (currentTime : Z) (drone : value)
    (position : place) (existing : option Drone.t) (data : Drone.t)
    (st : batch) :
  droneData currentTime drone (droneId_of drone) position existing = Ok data ->
  (forall k entity,
      map_get k (newDrones st) = Some entity ->
      exists earlier, path_or_empty k (newPaths st) = earlier ++ [tip entity]) ->
  forall k entity,
    map_get k (newDrones (write_report currentTime drone position data st))
    = Some entity ->
    exists earlier,
      path_or_empty k
        (newPaths (write_report currentTime drone position data st))
      = earlier ++ [tip entity].
Proof.
  intros Hd IH k entity. rewrite write_report_drones, write_report_paths.
  destruct (same_value_zero (droneId_of drone) k); [|apply IH].
  intros [= <-]. apply droneData_fields in Hd.
  destruct Hd as (_ & _ & _ & _ & Hp & Hlat & Hlng & _ & _ & _ & _ & _ & Hl & _).
  destruct (push_sample_last (path_or_empty k (newPaths st))
              (sample_of currentTime position)) as [earlier ->].
  exists earlier. unfold tip, sample_of. now rewrite Hp, Hlat, Hlng, Hl.
Qed.

Lemma updateDrones_follows (currentTime : Z) (data : value) (s s' : store) :
  updateDrones currentTime data s = Returned s' ->
  paths_follow s -> paths_follow s'.
Proof.
  unfold updateDrones, paths_follow, getDroneById, getDronePath.
  destruct (reports_of data) as [reports|]; [|discriminate].
  intros Hcall Hs.
  assert (Hinv := forEach_invariant
            (fun st => forall k entity,
                 map_get k (newDrones st) = Some entity ->
                 exists earlier,
                   path_or_empty k (newPaths st) = earlier ++ [tip entity])
            currentTime reports
            (fun drone position entity st _ _ Hd =>
               write_report_follows currentTime drone position _ entity st Hd)
            (loop_start s) Hs).
  destruct (forEach currentTime reports _) as [st|st]; [|discriminate].
  injection Hcall as <-. exact Hinv.
Qed.

(** Along a history of calls that all returned, the path of every entity
    ends with the sample of where the entity was last seen: the entity's
    longitude, latitude and the altitude of its position, stamped with its
    [lastSeen].  (A call that throws breaks this: it can leave a sample on
    a path without updating the entity.) *)
Theorem path_ends_where_the_entity_is (history : list (Z * value)) :
  completes history initial = true ->
  paths_follow (run history initial).
Proof.
  assert (H0 : paths_follow initial) by (intros k entity; discriminate).
  revert H0. generalize initial.
  induction history as [|[t data] rest IH]; intros s Hs Hall; simpl in *;
    [exact Hs|].
  destruct (updateDrones t data s) as [s'|s'] eqn:Hcall; [|discriminate].
  apply IH; [|exact Hall]. exact (updateDrones_follows _ _ _ _ Hcall Hs).
Qed.

(** The one hundred and fifty calls for drone ["d1"]. *)
Lemma path_of_d1_follows :
  completes hundred_fifty initial = true
  /\ paths_follow (run hundred_fifty initial).
Proof.
  split; [vm_compute; reflexivity|].
  apply (path_ends_where_the_entity_is hundred_fifty).
  vm_compute; reflexivity.
Defined.

Example thrown_batch_breaks_the_tip :
  ~ paths_follow
      (state_of (updateDrones 2000
                   (VArray 0 [report 1 "d1" 1.5 2.5 10; VNull]) one_drone)).
Proof.
  intros H.
  destruct (H (VString "d1") _ eq_refl) as [earlier Heq].
  apply (f_equal (fun l => List.map Sample.timestamp (rev l))) in Heq.
  rewrite rev_app_distr in Heq. simpl in Heq. discriminate Heq.
Qed.
